(** * EventSentinel STADIUM: the simulation and risk-inference engine of
    [src/App.jsx], embedded in Rocq.

    Conventions of the embedding.
    - A JavaScript number holding a coordinate or a [Math.random()] draw is
      an exact rational ([Q]); counters, scores, confidences and timestamps,
      which the program only ever builds from integers, are [Z].
    - The closed sets of string tags of the program (ticket types, zone
      types, statuses, threat levels, ...) are inductive types; free text
      (names, ids, factor labels, prediction patterns) stays [string].
    - [Math.random()] reads the next cell of a tape [nat -> Q];
      [Date.now()], [toLocaleTimeString] and [Math.sqrt] are supplied by the
      host and are parameters of the functions that call them.
    - React state ([logs], [predictions]) written from inside the tick is
      threaded explicitly through a small state monad. *)

From Stdlib Require Import ZArith QArith Qround Lqa Lia Bool List String DecimalString
  DecimalZ FinFun.
Import ListNotations.

Local Open Scope Z_scope.

(** ** Numbers and strings *)

Definition Qltb (a b : Q) : bool := negb (Qle_bool b a).
Definition Qgtb (a b : Q) : bool := Qltb b a.

(** Template-literal interpolation of an integer. *)
Definition string_of_Z (z : Z) : string := NilEmpty.string_of_int (Z.to_int z).

(** [Array.prototype.push], as a new list. *)
Definition push {A : Type} (l : list A) (x : A) : list A := l ++ [x].

(** [Array.prototype.includes] on strings. *)
Definition includes (l : list string) (s : string) : bool :=
  existsb (String.eqb s) l.

(** ** Data model *)

Inductive TicketType := general | vip | staff | media | vendor.
Inductive ZoneType := zt_public | zt_restricted | zt_vip | zt_critical | zt_concourse | zt_outside.
Inductive Status := st_normal | st_loitering | st_rushing.
Inductive WatchlistStatus := wl_none | wl_low | wl_high.
Inductive AlcoholPattern := ap_normal | ap_heavy.
Inductive ThreatLevel := LOW | MEDIUM | HIGH | CRITICAL.
Inductive Phase := PRE_GAME | KICKOFF | Q1 | Q2 | HALFTIME | Q3 | Q4 | POST_GAME.

Definition TicketType_eqb (a b : TicketType) : bool :=
  match a, b with
  | general, general | vip, vip | staff, staff | media, media | vendor, vendor => true
  | _, _ => false
  end.

Definition ZoneType_eqb (a b : ZoneType) : bool :=
  match a, b with
  | zt_public, zt_public | zt_restricted, zt_restricted | zt_vip, zt_vip
  | zt_critical, zt_critical | zt_concourse, zt_concourse | zt_outside, zt_outside => true
  | _, _ => false
  end.

Definition Status_eqb (a b : Status) : bool :=
  match a, b with
  | st_normal, st_normal | st_loitering, st_loitering | st_rushing, st_rushing => true
  | _, _ => false
  end.

Definition Phase_eqb (a b : Phase) : bool :=
  match a, b with
  | PRE_GAME, PRE_GAME | KICKOFF, KICKOFF | Q1, Q1 | Q2, Q2
  | HALFTIME, HALFTIME | Q3, Q3 | Q4, Q4 | POST_GAME, POST_GAME => true
  | _, _ => false
  end.

(** Severity order of the threat levels. *)
Definition level_rank (l : ThreatLevel) : Z :=
  match l with LOW => 0 | MEDIUM => 1 | HIGH => 2 | CRITICAL => 3 end.

Module Position.
Record t := mk { longitude : Q; latitude : Q }.
End Position.

(** [feature.properties]; the synthetic outside zone carries no [id]. *)
Module Zone.
Record t := mk { name : string; zoneType : ZoneType; id : option string }.
End Zone.

Module Feature.
Record t := mk { properties : Zone.t; coordinates : list (Q * Q) }.
End Feature.

Module History.
Record t := mk {
  priorIncidents : Z;
  watchlistStatus : WatchlistStatus;
  alcoholPattern : AlcoholPattern }.
End History.

Module Session.
Record t := mk {
  alcoholCount : Z;
  zonesVisited : list (option string);
  isWatched : bool }.
End Session.

Module Entity.
Record t := mk {
  id : string;
  name : string;
  ticketType : TicketType;
  longitude : Q;
  latitude : Q;
  target : Position.t;
  status : Status;
  waitTicks : Z;
  inventory : list string;
  history : History.t;
  session : Session.t;
  threatScore : Z;
  threatLevel : ThreatLevel;
  threatFactors : list string }.
End Entity.

(** The value returned by the scorer. *)
Module Threat.
Record t := mk { score : Z; level : ThreatLevel; factors : list string }.
End Threat.

(** ** Game phases *)

Module GamePhase.
Record t := mk {
  phase : Phase; label : string; duration : Z; crowdDensity : Q; color : string }.
End GamePhase.

Definition GAME_PHASES : list GamePhase.t :=
  [ GamePhase.mk PRE_GAME "Pre-Game" 20 0.4 "cyan";
    GamePhase.mk KICKOFF "Kickoff!" 10 0.95 "emerald";
    GamePhase.mk Q1 "1st Quarter" 40 0.9 "emerald";
    GamePhase.mk Q2 "2nd Quarter" 40 0.88 "emerald";
    GamePhase.mk HALFTIME "Halftime" 25 0.5 "amber";
    GamePhase.mk Q3 "3rd Quarter" 40 0.85 "emerald";
    GamePhase.mk Q4 "4th Quarter" 40 0.8 "emerald";
    GamePhase.mk POST_GAME "Post-Game" 30 0.3 "slate" ].

(** Advance game phase: the [setPhaseTick] updater, with the
    [setGamePhaseIndex] it triggers, on the cells [gamePhaseIndex] and
    [phaseTick].  [currentPhase] is [GAME_PHASES[gamePhaseIndex]]; past the
    end of the table it is [undefined] and reading its [duration] throws
    ([None]). *)
Definition advancePhase (gamePhaseIndex : nat) (phaseTick : Z) : option (nat * Z) :=
  match nth_error GAME_PHASES gamePhaseIndex with
  | None => None
  | Some currentPhase =>
      let next := phaseTick + 1 in
      if next >=? GamePhase.duration currentPhase
      then Some (Nat.modulo (gamePhaseIndex + 1) (List.length GAME_PHASES), 0)
      else Some (gamePhaseIndex, next)
  end.

(** ** Stadium zones (GeoJSON) *)

Definition bowl : Feature.t :=
  Feature.mk (Zone.mk "Stadium Bowl" zt_public (Some "bowl"%string))
    [ (-86.1655, 39.7615); (-86.1617, 39.7615);
      (-86.1617, 39.7588); (-86.1655, 39.7588);
      (-86.1655, 39.7615) ]%Q.

Definition field : Feature.t :=
  Feature.mk (Zone.mk "Field Level" zt_restricted (Some "field"%string))
    [ (-86.1648, 39.7608); (-86.1624, 39.7608);
      (-86.1624, 39.7594); (-86.1648, 39.7594);
      (-86.1648, 39.7608) ]%Q.

Definition vip_north : Feature.t :=
  Feature.mk (Zone.mk "VIP Suites North" zt_vip (Some "vip-north"%string))
    [ (-86.1650, 39.7615); (-86.1622, 39.7615);
      (-86.1622, 39.7611); (-86.1650, 39.7611);
      (-86.1650, 39.7615) ]%Q.

Definition vip_south : Feature.t :=
  Feature.mk (Zone.mk "VIP Suites South" zt_vip (Some "vip-south"%string))
    [ (-86.1650, 39.7591); (-86.1622, 39.7591);
      (-86.1622, 39.7587); (-86.1650, 39.7587);
      (-86.1650, 39.7591) ]%Q.

Definition tunnel : Feature.t :=
  Feature.mk (Zone.mk "Team Tunnel" zt_critical (Some "tunnel"%string))
    [ (-86.1638, 39.7594); (-86.1634, 39.7594);
      (-86.1634, 39.7588); (-86.1638, 39.7588);
      (-86.1638, 39.7594) ]%Q.

Definition concourse_e : Feature.t :=
  Feature.mk (Zone.mk "East Concourse" zt_concourse (Some "concourse-e"%string))
    [ (-86.1620, 39.7612); (-86.1615, 39.7612);
      (-86.1615, 39.7590); (-86.1620, 39.7590);
      (-86.1620, 39.7612) ]%Q.

Definition concourse_w : Feature.t :=
  Feature.mk (Zone.mk "West Concourse" zt_concourse (Some "concourse-w"%string))
    [ (-86.1657, 39.7612); (-86.1652, 39.7612);
      (-86.1652, 39.7590); (-86.1657, 39.7590);
      (-86.1657, 39.7612) ]%Q.

(** [geoJsonData.features], in declaration order. *)
Definition geoJsonData : list Feature.t :=
  [ bowl; field; vip_north; vip_south; tunnel; concourse_e; concourse_w ].

Definition outsideZone : Zone.t := Zone.mk "Outside" zt_outside None.

(** ** Helpers *)

(** One turn of the ray-casting loop: does the edge from [vj] to [vi] cross
    the ray leaving [(x, y)]?  [&&] short-circuits, so the quotient is only
    read when [yi] and [yj] lie on different sides of [y]. *)
Definition intersect (x y : Q) (vi vj : Q * Q) : bool :=
  let '(xi, yi) := vi in
  let '(xj, yj) := vj in
  xorb (Qgtb yi y) (Qgtb yj y)
  && Qltb x ((xj - xi) * (y - yi) / (yj - yi) + xi)%Q.

(** The [for] loop of [isPointInPolygon]: [vs] are the vertices still to
    visit, [vj] the vertex visited just before (initially the last one). *)
Fixpoint isPointInPolygon_loop (x y : Q) (vs : list (Q * Q)) (vj : Q * Q)
    (inside : bool) : bool :=
  match vs with
  | [] => inside
  | vi :: rest =>
      isPointInPolygon_loop x y rest vi
        (if intersect x y vi vj then negb inside else inside)
  end.

Definition isPointInPolygon (point : Q * Q) (vs : list (Q * Q)) : bool :=
  let '(x, y) := point in
  isPointInPolygon_loop x y vs (last vs (0, 0)%Q) false.

Fixpoint getZoneForPoint_loop (lng lat : Q) (features : list Feature.t) : Zone.t :=
  match features with
  | [] => outsideZone
  | feature :: rest =>
      if isPointInPolygon (lng, lat) (Feature.coordinates feature)
      then Feature.properties feature
      else getZoneForPoint_loop lng lat rest
  end.

Definition getZoneForPoint (lng lat : Q) : Zone.t :=
  getZoneForPoint_loop lng lat geoJsonData.

(** ** Threat scoring engine *)

Definition calculateThreatScore (entity : Entity.t) (gamePhase : Phase) : Threat.t :=
  let history := Entity.history entity in
  let session := Entity.session entity in
  let score := 0 in
  let factors := @nil string in
  (* Historical factors *)
  let '(score, factors) :=
    match History.watchlistStatus history with
    | wl_high => (score + 35, push factors "HIGH WATCHLIST"%string)
    | wl_low => (score + 15, push factors "Low Watchlist"%string)
    | wl_none => (score, factors)
    end in
  let '(score, factors) :=
    if History.priorIncidents history >? 0
    then (score + History.priorIncidents history * 12,
          push factors (string_of_Z (History.priorIncidents history)
                        ++ " Prior Incident(s)")%string)
    else (score, factors) in
  let '(score, factors) :=
    match History.alcoholPattern history with
    | ap_heavy => (score + 10, push factors "Heavy Drinker History"%string)
    | ap_normal => (score, factors)
    end in
  (* Session factors *)
  let '(score, factors) :=
    if Session.alcoholCount session >=? 6
    then (score + 30, push factors "Excessive Alcohol (6+)"%string)
    else if Session.alcoholCount session >=? 4
    then (score + 18, push factors "High Alcohol (4+)"%string)
    else if Session.alcoholCount session >=? 3
    then (score + 8, factors)
    else (score, factors) in
  (* Zone violations *)
  let zone := getZoneForPoint (Entity.longitude entity) (Entity.latitude entity) in
  let '(score, factors) :=
    if ZoneType_eqb (Zone.zoneType zone) zt_critical
       && negb (TicketType_eqb (Entity.ticketType entity) staff)
    then (score + 45, push factors "CRITICAL ZONE VIOLATION"%string)
    else if ZoneType_eqb (Zone.zoneType zone) zt_restricted
       && negb (TicketType_eqb (Entity.ticketType entity) staff
                || TicketType_eqb (Entity.ticketType entity) media)
    then (score + 30, push factors "Restricted Zone Access"%string)
    else if ZoneType_eqb (Zone.zoneType zone) zt_vip
       && negb (TicketType_eqb (Entity.ticketType entity) vip)
       && negb (TicketType_eqb (Entity.ticketType entity) staff)
    then (score + 20, push factors "VIP Zone - No Auth"%string)
    else (score, factors) in
  (* Behavioral *)
  let '(score, factors) :=
    if Status_eqb (Entity.status entity) st_rushing
    then (score + 15, push factors "Rushing Behavior"%string)
    else (score, factors) in
  let '(score, factors) :=
    if Status_eqb (Entity.status entity) st_loitering
       && negb (ZoneType_eqb (Zone.zoneType zone) zt_concourse)
    then (score + 10, push factors "Loitering"%string)
    else (score, factors) in
  (* User watchlist *)
  let '(score, factors) :=
    if Session.isWatched session
    then (score + 5, push factors "User Flagged"%string)
    else (score, factors) in
  Threat.mk
    (Z.min 100 score)
    (if score >=? 70 then CRITICAL
     else if score >=? 45 then HIGH
     else if score >=? 25 then MEDIUM
     else LOW)
    factors.

(** ** Entity generator helpers *)

Definition MOVEMENT_SPEED : Q := 0.00008.

(** [FIELD_BOUNDS]: the field rectangle to avoid. *)
Module FIELD_BOUNDS.
Definition minLng : Q := -86.1649.
Definition maxLng : Q := -86.1623.
Definition minLat : Q := 39.7593.
Definition maxLat : Q := 39.7609.
End FIELD_BOUNDS.

Definition isInRestrictedField (lng lat : Q) : bool :=
  Qgtb lng FIELD_BOUNDS.minLng && Qltb lng FIELD_BOUNDS.maxLng
  && Qgtb lat FIELD_BOUNDS.minLat && Qltb lat FIELD_BOUNDS.maxLat.

Definition FIRST_NAMES : list string :=
  [ "Mike"; "John"; "Sarah"; "Emily"; "David"; "Chris"; "Alex"; "Sam"; "Jordan";
    "Taylor"; "Pat"; "Casey"; "Morgan"; "Drew"; "Jamie" ]%string.

Definition LAST_INITIALS : list string :=
  [ "A"; "B"; "C"; "D"; "E"; "F"; "G"; "H"; "J"; "K"; "L"; "M"; "N"; "P"; "R";
    "S"; "T"; "W" ]%string.

Definition TICKET_TYPES : list TicketType :=
  [ general; general; general; general; general; vip; staff; media; vendor ].

Definition STADIUM_ITEMS : list string :=
  [ "Hot Dog"; "Nachos"; "Pretzel"; "Popcorn"; "Soda"; "Water";
    "Foam Finger"; "Jersey"; "Program" ]%string.

Definition ALCOHOL_ITEMS : list string :=
  [ "Beer"; "Beer"; "Hard Seltzer"; "Mixed Drink" ]%string.

(** [arr[i]] for an integer index; a miss reads [undefined]. *)
Definition array_at (arr : list string) (i : Z) : string :=
  if i <? 0 then "undefined"%string else nth (Z.to_nat i) arr "undefined"%string.

(** [TICKET_TYPES[i]].  A miss reads [undefined], which every test of the
    program on a ticket type ([=== 'staff'], [!== 'vip'], ...) treats as it
    treats ['general']. *)
Definition ticket_at (i : Z) : TicketType :=
  if i <? 0 then general else nth (Z.to_nat i) TICKET_TYPES general.

(** ** Computed values *)

Definition watchlistCount (entities : list Entity.t) : nat :=
  List.length (filter (fun e => Session.isWatched (Entity.session e)) entities).

Definition alertCount (entities : list Entity.t) : nat :=
  List.length
    (filter (fun e => match Entity.threatLevel e with CRITICAL => true | _ => false end)
       entities).

(** ** Application state *)

Module LogEntry.
Record t := mk {
  id : Q; time : string; type : string; title : string;
  desc : string; icon : string }.
End LogEntry.

Module Prediction.
Record t := mk {
  id : string;
  timestamp : Z;
  entityId : string;
  entityName : string;
  prediction : string;
  confidence : Z;
  factors : list string;
  action : string;
  priority : ThreatLevel;
  icon : string;
  time : string }.
End Prediction.

(** The [useState] cells the engine reads and writes, and the position
    reached on the [Math.random()] tape. *)
Module State.
Record t := mk {
  rng : nat;
  entities : list Entity.t;
  logs : list LogEntry.t;
  predictions : list Prediction.t;
  systemThreatLevel : ThreatLevel;
  selectedEntity : option Entity.t }.

Definition set_rng (n : nat) (s : t) : t :=
  mk n (entities s) (logs s) (predictions s) (systemThreatLevel s) (selectedEntity s).
Definition set_entities (es : list Entity.t) (s : t) : t :=
  mk (rng s) es (logs s) (predictions s) (systemThreatLevel s) (selectedEntity s).
Definition set_logs (l : list LogEntry.t) (s : t) : t :=
  mk (rng s) (entities s) l (predictions s) (systemThreatLevel s) (selectedEntity s).
Definition set_predictions (p : list Prediction.t) (s : t) : t :=
  mk (rng s) (entities s) (logs s) p (systemThreatLevel s) (selectedEntity s).
Definition set_systemThreatLevel (l : ThreatLevel) (s : t) : t :=
  mk (rng s) (entities s) (logs s) (predictions s) l (selectedEntity s).
Definition set_selectedEntity (e : option Entity.t) (s : t) : t :=
  mk (rng s) (entities s) (logs s) (predictions s) (systemThreatLevel s) e.
End State.

(** The state monad of the engine. *)
Definition M (A : Type) : Type := State.t -> A * State.t.

Definition ret {A : Type} (a : A) : M A := fun s => (a, s).

Definition bind {A B : Type} (c : M A) (k : A -> M B) : M B :=
  fun s => let (a, s') := c s in k a s'.

Declare Scope monad_scope.
Delimit Scope monad_scope with monad.
Notation "x <- c1 ;; c2" := (bind c1 (fun x => c2))
  (at level 61, c1 at next level, right associativity) : monad_scope.
Notation "' pat <- c1 ;; c2" := (bind c1 (fun x => match x with pat => c2 end))
  (at level 61, pat pattern, c1 at next level, right associativity) : monad_scope.
Notation "c1 ;; c2" := (bind c1 (fun _ => c2))
  (at level 61, right associativity) : monad_scope.

Fixpoint mapM {A B : Type} (f : A -> M B) (l : list A) : M (list B) :=
  match l with
  | [] => ret []
  | a :: rest => (b <- f a ;; bs <- mapM f rest ;; ret (b :: bs))%monad
  end.

(** Record updates [{ ...session, k: v }] and [{ ...entity, k: v }]. *)
Definition with_isWatched (b : bool) (s : Session.t) : Session.t :=
  Session.mk (Session.alcoholCount s) (Session.zonesVisited s) b.
Definition with_zonesVisited (z : list (option string)) (s : Session.t) : Session.t :=
  Session.mk (Session.alcoholCount s) z (Session.isWatched s).
Definition with_alcoholCount (n : Z) (s : Session.t) : Session.t :=
  Session.mk n (Session.zonesVisited s) (Session.isWatched s).
Definition with_session (s : Session.t) (e : Entity.t) : Entity.t :=
  Entity.mk (Entity.id e) (Entity.name e) (Entity.ticketType e)
    (Entity.longitude e) (Entity.latitude e) (Entity.target e) (Entity.status e)
    (Entity.waitTicks e) (Entity.inventory e) (Entity.history e) s
    (Entity.threatScore e) (Entity.threatLevel e) (Entity.threatFactors e).
Definition with_position (lng lat : Q) (target : Position.t) (e : Entity.t) : Entity.t :=
  Entity.mk (Entity.id e) (Entity.name e) (Entity.ticketType e)
    lng lat target (Entity.status e)
    (Entity.waitTicks e) (Entity.inventory e) (Entity.history e) (Entity.session e)
    (Entity.threatScore e) (Entity.threatLevel e) (Entity.threatFactors e).
Definition with_status (st : Status) (e : Entity.t) : Entity.t :=
  Entity.mk (Entity.id e) (Entity.name e) (Entity.ticketType e)
    (Entity.longitude e) (Entity.latitude e) (Entity.target e) st
    (Entity.waitTicks e) (Entity.inventory e) (Entity.history e) (Entity.session e)
    (Entity.threatScore e) (Entity.threatLevel e) (Entity.threatFactors e).
Definition with_waitTicks (n : Z) (e : Entity.t) : Entity.t :=
  Entity.mk (Entity.id e) (Entity.name e) (Entity.ticketType e)
    (Entity.longitude e) (Entity.latitude e) (Entity.target e) (Entity.status e)
    n (Entity.inventory e) (Entity.history e) (Entity.session e)
    (Entity.threatScore e) (Entity.threatLevel e) (Entity.threatFactors e).
Definition with_inventory (inv : list string) (e : Entity.t) : Entity.t :=
  Entity.mk (Entity.id e) (Entity.name e) (Entity.ticketType e)
    (Entity.longitude e) (Entity.latitude e) (Entity.target e) (Entity.status e)
    (Entity.waitTicks e) inv (Entity.history e) (Entity.session e)
    (Entity.threatScore e) (Entity.threatLevel e) (Entity.threatFactors e).
Definition with_threat (th : Threat.t) (e : Entity.t) : Entity.t :=
  Entity.mk (Entity.id e) (Entity.name e) (Entity.ticketType e)
    (Entity.longitude e) (Entity.latitude e) (Entity.target e) (Entity.status e)
    (Entity.waitTicks e) (Entity.inventory e) (Entity.history e) (Entity.session e)
    (Threat.score th) (Threat.level th) (Threat.factors th).

(** [zonesVisited.includes(zone.id)], where [zone.id] may be [undefined]. *)
Definition includes_id (l : list (option string)) (i : option string) : bool :=
  existsb (fun j => match i, j with
                    | Some a, Some b => String.eqb a b
                    | None, None => true
                    | _, _ => false
                    end) l.

(** Truthiness of [zone.id]. *)
Definition truthy_id (i : option string) : bool :=
  match i with
  | Some s => negb (String.eqb s "")
  | None => false
  end.

(** ** Prediction action suggestions *)

Definition PREDICTION_ACTIONS : list (string * (string * ThreatLevel * string)) :=
  [ ("ZONE_BREACH_IMMINENT", ("Deploy security to perimeter", HIGH, "alert"));
    ("ALTERCATION_RISK", ("Alert nearby staff for intervention", HIGH, "users"));
    ("FIELD_RUSH_VECTOR", ("Position guards at field access points", CRITICAL, "alert"));
    ("INTOXICATION_MONITOR", ("Flag for beverage service cutoff", MEDIUM, "beer"));
    ("BEHAVIORAL_PATTERN_MATCH", ("Increase surveillance on subject", MEDIUM, "eye"));
    ("ANOMALY_DETECTED", ("Continue monitoring, gather data", LOW, "scan")) ]%string.

(** [PREDICTION_ACTIONS[prediction] || { action: 'Monitor situation', ... }]. *)
Definition actionInfo_of (prediction : string) : string * ThreatLevel * string :=
  match find (fun kv => String.eqb (fst kv) prediction) PREDICTION_ACTIONS with
  | Some kv => snd kv
  | None => ("Monitor situation", LOW, "activity")%string
  end.

(** ** The engine, over the host's clock, random source and square root *)

Section Engine.

(** Successive results of [Math.random()]. *)
Variable tape : nat -> Q.
Variable Math_sqrt : Q -> Q.
(** [new Date().toLocaleTimeString('en-US', {hour12: false})] at a given
    reading of the clock. *)
Variable toLocaleTimeString : Z -> string.

Local Open Scope monad_scope.

Definition random : M Q :=
  fun s => (tape (State.rng s), State.set_rng (S (State.rng s)) s).

(** [setLogs(prev => [newLog, ...prev].slice(0, 40))] *)
Definition addLog (now : Z) (type title desc icon : string) : M unit :=
  r <- random ;;
  let newLog :=
    LogEntry.mk (inject_Z now + r)%Q (toLocaleTimeString now) type title desc icon in
  fun s => (tt, State.set_logs (firstn 40 (newLog :: State.logs s)) s).

(** Get random position in allowed zones only. *)
Definition getRandomPos (zonePreference : option ZoneType) : M Position.t :=
  match zonePreference with
  | Some zt_concourse =>
      r <- random ;;
      let isEast := Qgtb r 0.5 in
      rLng <- random ;;
      rLat <- random ;;
      ret (Position.mk
             (if isEast then -86.1618 + rLng * 0.0003 else -86.1654 + rLng * 0.0003)%Q
             (39.7592 + rLat * 0.0018)%Q)
  | _ =>
      (* Generate position in seating areas (clearly outside the field) *)
      section <- random ;;
      if Qltb section 0.25 then
        (* North seating (ABOVE the field - lat > 39.7609) *)
        rLng <- random ;;
        rLat <- random ;;
        ret (Position.mk (-86.1652 + rLng * 0.0030)%Q (39.7610 + rLat * 0.0004)%Q)
      else if Qltb section 0.5 then
        (* South seating (BELOW the field - lat < 39.7593) *)
        rLng <- random ;;
        rLat <- random ;;
        ret (Position.mk (-86.1652 + rLng * 0.0030)%Q (39.7586 + rLat * 0.0006)%Q)
      else if Qltb section 0.75 then
        (* East seating (RIGHT of field - lng > -86.1623) *)
        rLng <- random ;;
        rLat <- random ;;
        ret (Position.mk (-86.1621 + rLng * 0.0006)%Q (39.7594 + rLat * 0.0014)%Q)
      else
        (* West seating (LEFT of field - lng < -86.1649) *)
        rLng <- random ;;
        rLat <- random ;;
        ret (Position.mk (-86.1656 + rLng * 0.0006)%Q (39.7594 + rLat * 0.0014)%Q)
  end.

(** The updater passed to [setPredictions] by [addPrediction], run at
    clock reading [now]. *)
Definition addPrediction_update (now : Z) (entity : Entity.t) (prediction : string)
    (confidence : Z) (prev : list Prediction.t) : list Prediction.t :=
  let isDuplicate :=
    existsb (fun p =>
               String.eqb (Prediction.entityId p) (Entity.id entity)
               && String.eqb (Prediction.prediction p) prediction
               && (now - Prediction.timestamp p <? 10000)) prev in
  if isDuplicate then prev
  else
    let '(action, priority, icon) := actionInfo_of prediction in
    let newPred :=
      Prediction.mk
        (Entity.id entity ++ "-" ++ prediction ++ "-" ++ string_of_Z now)%string
        now (Entity.id entity) (Entity.name entity) prediction confidence
        (Entity.threatFactors entity) action priority icon
        (toLocaleTimeString now) in
    firstn 5 (newPred :: prev).

Definition addPrediction (now : Z) (entity : Entity.t) (prediction : string)
    (confidence : Z) : M unit :=
  fun s => (tt, State.set_predictions
                  (addPrediction_update now entity prediction confidence
                     (State.predictions s)) s).

(** Toggle watchlist for entity. *)
Definition toggleWatchlist_entity (now : Z) (entityId : string) (e : Entity.t)
    : M Entity.t :=
  if String.eqb (Entity.id e) entityId then
    let newWatched := negb (Session.isWatched (Entity.session e)) in
    (if newWatched
     then addLog now "alert" "Watchlist Added"
            (Entity.name e ++ " added to active surveillance") "eye"
     else addLog now "info" "Watchlist Removed"
            (Entity.name e ++ " removed from surveillance") "check") ;;
    ret (with_session (with_isWatched newWatched (Entity.session e)) e)
  else ret e.

Definition toggleWatchlist (now : Z) (entityId : string) : M unit :=
  es <- (fun s => mapM (toggleWatchlist_entity now entityId) (State.entities s) s) ;;
  fun s =>
    (tt,
     State.set_selectedEntity
       (match State.selectedEntity s with
        | Some prev =>
            Some (with_session
                    (with_isWatched (negb (Session.isWatched (Entity.session prev)))
                       (Entity.session prev)) prev)
        | None => None
        end)
       (State.set_entities es s)).

(** Dismiss/acknowledge a prediction. *)
Definition dismissPrediction (now : Z) (predId : string) : M unit :=
  (fun s => (tt, State.set_predictions
                   (filter (fun p => negb (String.eqb (Prediction.id p) predId))
                      (State.predictions s)) s)) ;;
  addLog now "info" "Prediction Acknowledged" "Alert dismissed by operator" "check".

(** *** Main simulation loop: the [setEntities] updater *)

Section Tick.

Variable now : Z.
Variable currentPhase : Phase.

Definition isAuthorized_of (entity : Entity.t) : bool :=
  TicketType_eqb (Entity.ticketType entity) staff
  || TicketType_eqb (Entity.ticketType entity) media.

(** FIRST: push an unauthorized entity out of the field, and keep its
    target out of it.  Yields [longitude], [latitude] and [target]. *)
Definition tick_containment (entity : Entity.t) : M (Q * Q * Position.t) :=
  let isAuthorized := isAuthorized_of entity in
  '(longitude, latitude, target) <-
    (if isInRestrictedField (Entity.longitude entity) (Entity.latitude entity)
        && negb isAuthorized
     then
       pos <- getRandomPos None ;;
       target <- getRandomPos None ;;
       ret (Position.longitude pos, Position.latitude pos, target)
     else
       ret (Entity.longitude entity, Entity.latitude entity, Entity.target entity)) ;;
  target <-
    (if isInRestrictedField (Position.longitude target) (Position.latitude target)
        && negb isAuthorized
     then getRandomPos None
     else ret target) ;;
  ret (longitude, latitude, target).

(** Movement: arrival resamples the target; otherwise one step toward
    it, discarded when it would enter the field or a VIP zone. *)
Definition tick_movement (entity : Entity.t) (longitude latitude : Q)
    (target : Position.t) : M (Q * Q * Position.t) :=
  let isAuthorized := isAuthorized_of entity in
  let dLon := (Position.longitude target - longitude)%Q in
  let dLat := (Position.latitude target - latitude)%Q in
  let dist := Math_sqrt (dLon * dLon + dLat * dLat)%Q in
  if Qltb dist (MOVEMENT_SPEED * 2)%Q then
    (* Halftime: go to concourse *)
    toConcourse <-
      (if Phase_eqb currentPhase HALFTIME
       then r <- random ;; ret (Qgtb r 0.5)
       else ret false) ;;
    target <- (if toConcourse : bool
               then getRandomPos (Some zt_concourse)
               else getRandomPos None) ;;
    ret (longitude, latitude, target)
  else
    let speed := if Status_eqb (Entity.status entity) st_rushing
                 then (MOVEMENT_SPEED * 2)%Q else MOVEMENT_SPEED in
    let newLon := (longitude + (dLon / dist) * speed)%Q in
    let newLat := (latitude + (dLat / dist) * speed)%Q in
    (* Don't move into restricted field *)
    if negb (isInRestrictedField newLon newLat) || isAuthorized then
      (* Check VIP zones *)
      let newZone := getZoneForPoint newLon newLat in
      if ZoneType_eqb (Zone.zoneType newZone) zt_vip
         && negb (TicketType_eqb (Entity.ticketType entity) vip)
         && negb isAuthorized
      then target <- getRandomPos None ;; ret (longitude, latitude, target)
      else ret (newLon, newLat, target)
    else
      (* Would enter field - redirect *)
      target <- getRandomPos None ;; ret (longitude, latitude, target).

(** Concourse purchases; alcohol is capped at 8 per session. *)
Definition tick_purchase (entity : Entity.t) (zone : Zone.t)
    (inventory : list string) (session : Session.t)
    : M (list string * Session.t) :=
  let purchaseChance := if Phase_eqb currentPhase HALFTIME then 0.88%Q else 0.96%Q in
  buys <- (if ZoneType_eqb (Zone.zoneType zone) zt_concourse
           then r <- random ;; ret (Qgtb r purchaseChance)
           else ret false) ;;
  if buys : bool then
    r <- random ;;
    let isBeer :=
      match History.alcoholPattern (Entity.history entity) with
      | ap_heavy => Qgtb r 0.3
      | ap_normal => Qgtb r 0.6
      end in
    if isBeer && (Session.alcoholCount session <? 8) then
      r <- random ;;
      let drink := array_at ALCOHOL_ITEMS (Qfloor (r * 4)) in
      let inventory := push inventory drink in
      let session := with_alcoholCount (Session.alcoholCount session + 1) session in
      (if Session.alcoholCount session >=? 4 then
         addLog now "alert" "Alcohol Alert"
           (Entity.name entity ++ " - " ++ string_of_Z (Session.alcoholCount session)
            ++ " drinks purchased") "beer"
       else if Session.alcoholCount session =? 1 then
         addLog now "info" "Concession"
           (Entity.name entity ++ " purchased " ++ drink) "shopping"
       else ret tt) ;;
      ret (inventory, session)
    else
      r <- random ;;
      let item := array_at STADIUM_ITEMS (Qfloor (r * 9)) in
      if negb (includes inventory item) then
        let inventory := push inventory item in
        r <- random ;;
        (if Qgtb r 0.7
         then addLog now "info" "Concession"
                (Entity.name entity ++ " purchased " ++ item) "shopping"
         else ret tt) ;;
        ret (inventory, session)
      else ret (inventory, session)
  else ret (inventory, session).

(** Log zone transitions occasionally. *)
Definition tick_zoneLog (entity : Entity.t) (zone : Zone.t) (session : Session.t)
    : M unit :=
  if truthy_id (Zone.id zone)
     && negb (includes_id (Session.zonesVisited session) (Zone.id zone))
  then
    r <- random ;;
    if Qgtb r 0.85 then
      if ZoneType_eqb (Zone.zoneType zone) zt_vip
         && TicketType_eqb (Entity.ticketType entity) vip
      then addLog now "info" "VIP Access"
             (Entity.name entity ++ " entered " ++ Zone.name zone) "ticket"
      else if ZoneType_eqb (Zone.zoneType zone) zt_concourse
      then addLog now "info" "Movement"
             (Entity.name entity ++ " entered concourse area") "footprints"
      else ret tt
    else ret tt
  else ret tt.

(** Generate predictions for elevated risk entities. *)
Definition tick_prediction (entity tempEntity : Entity.t) (threat : Threat.t)
    (session : Session.t) : M unit :=
  fires <- (if Threat.score threat >=? 40
            then r <- random ;; ret (Qgtb r 0.96)
            else ret false) ;;
  if fires : bool then
    '(pred, confidence) <-
      (if Threat.score threat >=? 60 then
         let highRiskPreds :=
           [ "ZONE_BREACH_IMMINENT"; "ALTERCATION_RISK"; "FIELD_RUSH_VECTOR" ]%string in
         r <- random ;;
         let pred := array_at highRiskPreds (Qfloor (r * 3)) in
         r <- random ;;
         ret (pred, Qfloor (70 + r * 25))
       else if Session.alcoholCount session >=? 3 then
         (* [Math.floor] of an integer *)
         ret ("INTOXICATION_MONITOR"%string, 50 + Session.alcoholCount session * 8)
       else if History.priorIncidents (Entity.history entity) >? 0 then
         r <- random ;;
         ret ("BEHAVIORAL_PATTERN_MATCH"%string, Qfloor (45 + r * 30))
       else
         r <- random ;;
         ret ("ANOMALY_DETECTED"%string, Qfloor (40 + r * 25))) ;;
    addPrediction now tempEntity pred confidence
  else ret tt.

(** The callback of [prevEntities.map]; [maxThreat] is the running
    maximum shared by the whole map. *)
Definition tick_entity (maxThreat : ThreatLevel) (entity : Entity.t)
    : M (Entity.t * ThreatLevel) :=
  let inventory := Entity.inventory entity in
  let waitTicks := Entity.waitTicks entity in
  let status := Entity.status entity in
  let session := Entity.session entity in
  '(longitude, latitude, target) <- tick_containment entity ;;
  (* Waiting (idle behavior) *)
  if waitTicks >? 0 then
    ret (with_position longitude latitude target
           (with_waitTicks (waitTicks - 1) entity), maxThreat)
  else
    (* Random idle chance *)
    r <- random ;;
    if Qgtb r 0.97 && Status_eqb status st_normal then
      r <- random ;;
      ret (with_position longitude latitude target
             (with_waitTicks (Qfloor (r * 8) + 3)
                (with_status st_loitering entity)), maxThreat)
    else
      '(longitude, latitude, target) <-
        tick_movement entity longitude latitude target ;;
      (* Zone tracking *)
      let zone := getZoneForPoint longitude latitude in
      let session :=
        if negb (includes_id (Session.zonesVisited session) (Zone.id zone))
        then with_zonesVisited
               (push (Session.zonesVisited session) (Zone.id zone)) session
        else session in
      '(inventory, session) <- tick_purchase entity zone inventory session ;;
      tick_zoneLog entity zone session ;;
      (* Rushing behavior *)
      r <- random ;;
      status <- (if Qgtb r 0.995
                 then r <- random ;;
                      ret (if Qgtb r 0.7 then st_rushing else st_normal)
                 else ret status) ;;
      (* Calculate threat score *)
      let tempEntity :=
        with_status status
          (with_session session
             (with_inventory inventory
                (with_position longitude latitude (Entity.target entity) entity))) in
      let threat := calculateThreatScore tempEntity currentPhase in
      (* Update max threat *)
      let maxThreat :=
        match Threat.level threat, maxThreat with
        | CRITICAL, _ => CRITICAL
        | HIGH, CRITICAL => maxThreat
        | HIGH, _ => HIGH
        | _, _ => maxThreat
        end in
      tick_prediction entity tempEntity threat session ;;
      ret (with_threat threat
             (with_position longitude latitude target tempEntity), maxThreat).

Fixpoint tick_map (maxThreat : ThreatLevel) (prevEntities : list Entity.t)
    : M (list Entity.t * ThreatLevel) :=
  match prevEntities with
  | [] => ret ([], maxThreat)
  | entity :: rest =>
      '(e, maxThreat) <- tick_entity maxThreat entity ;;
      '(es, maxThreat) <- tick_map maxThreat rest ;;
      ret (e :: es, maxThreat)
  end.

Definition tick : M unit :=
  '(nextEntities, maxThreat) <-
    (fun s => tick_map LOW (State.entities s) s) ;;
  fun s => (tt, State.set_systemThreatLevel maxThreat
                  (State.set_entities nextEntities s)).

End Tick.

(** *** Entity generator *)

(** The body of the [for] loop of [generateEntities], for index [i]. *)
Definition generateEntity (i : Z) : M Entity.t :=
  r <- random ;;
  let firstName :=
    array_at FIRST_NAMES (Qfloor (r * inject_Z (Z.of_nat (List.length FIRST_NAMES)))) in
  r <- random ;;
  let lastInit :=
    array_at LAST_INITIALS (Qfloor (r * inject_Z (Z.of_nat (List.length LAST_INITIALS)))) in
  r <- random ;;
  let ticketType :=
    ticket_at (Qfloor (r * inject_Z (Z.of_nat (List.length TICKET_TYPES)))) in
  (* Determine spawn location based on ticket *)
  let spawnZone := if TicketType_eqb ticketType vendor then Some zt_concourse else None in
  pos <- getRandomPos spawnZone ;;
  (* Generate history - most people are normal, few are flagged *)
  r <- random ;;
  let isTroublesome := Qltb r 0.08 in
  r <- random ;;
  let isWatchlisted := Qltb r 0.05 in
  target <- getRandomPos None ;;
  priorIncidents <-
    (if isTroublesome then r <- random ;; ret (Qfloor (r * 3) + 1) else ret 0) ;;
  watchlistStatus <-
    (if isWatchlisted
     then r <- random ;; ret (if Qgtb r 0.5 then wl_high else wl_low)
     else ret wl_none) ;;
  r <- random ;;
  let alcoholPattern := if Qltb r 0.15 then ap_heavy else ap_normal in
  ret (Entity.mk
         ("fan-" ++ string_of_Z (1000 + i))%string
         (firstName ++ " " ++ lastInit ++ ".")%string
         ticketType
         (Position.longitude pos) (Position.latitude pos)
         target st_normal 0 []
         (History.mk priorIncidents watchlistStatus alcoholPattern)
         (Session.mk 0 [] false)
         0 LOW []).

(** The loop itself: [n] turns left, [i] the loop index, [entities] the
    array built so far. *)
Fixpoint generateEntities_loop (n : nat) (i : Z) (entities : list Entity.t)
    : M (list Entity.t) :=
  match n with
  | O => ret entities
  | S n' =>
      e <- generateEntity i ;;
      generateEntities_loop n' (i + 1) (push entities e)
  end.

Definition generateEntities (count : nat) : M (list Entity.t) :=
  generateEntities_loop count 0 [].

End Engine.

(** * Vocabulary of the properties *)

(** The vertex list of an axis-parallel rectangle, in the winding the
    layout uses (north-west, north-east, south-east, south-west, closed). *)
Definition rect (x0 x1 y0 y1 : Q) : list (Q * Q) :=
  [ (x0, y1); (x1, y1); (x1, y0); (x0, y0); (x0, y1) ].

Definition inBox (x0 x1 y0 y1 x y : Q) : bool :=
  Qle_bool x0 x && Qltb x x1 && Qle_bool y0 y && Qltb y y1.

(** The contributions of the scorer, one by one, in evaluation order:
    the points each adds and the labels each pushes. *)
Definition watchlist_points (e : Entity.t) : Z :=
  match History.watchlistStatus (Entity.history e) with
  | wl_high => 35 | wl_low => 15 | wl_none => 0
  end.
Definition watchlist_labels (e : Entity.t) : list string :=
  match History.watchlistStatus (Entity.history e) with
  | wl_high => ["HIGH WATCHLIST"%string]
  | wl_low => ["Low Watchlist"%string]
  | wl_none => []
  end.

Definition incidents_points (e : Entity.t) : Z :=
  let n := History.priorIncidents (Entity.history e) in
  if n >? 0 then n * 12 else 0.
Definition incidents_labels (e : Entity.t) : list string :=
  let n := History.priorIncidents (Entity.history e) in
  if n >? 0 then [(string_of_Z n ++ " Prior Incident(s)")%string] else [].

Definition heavy_points (e : Entity.t) : Z :=
  match History.alcoholPattern (Entity.history e) with ap_heavy => 10 | ap_normal => 0 end.
Definition heavy_labels (e : Entity.t) : list string :=
  match History.alcoholPattern (Entity.history e) with
  | ap_heavy => ["Heavy Drinker History"%string]
  | ap_normal => []
  end.

Definition drinks_points (e : Entity.t) : Z :=
  let n := Session.alcoholCount (Entity.session e) in
  if n >=? 6 then 30 else if n >=? 4 then 18 else if n >=? 3 then 8 else 0.
Definition drinks_labels (e : Entity.t) : list string :=
  let n := Session.alcoholCount (Entity.session e) in
  if n >=? 6 then ["Excessive Alcohol (6+)"%string]
  else if n >=? 4 then ["High Alcohol (4+)"%string]
  else [].

Definition zone_of (e : Entity.t) : Zone.t :=
  getZoneForPoint (Entity.longitude e) (Entity.latitude e).

Definition zone_points (e : Entity.t) : Z :=
  match Zone.zoneType (zone_of e), Entity.ticketType e with
  | zt_critical, staff => 0
  | zt_critical, _ => 45
  | zt_restricted, (staff | media) => 0
  | zt_restricted, _ => 30
  | zt_vip, (vip | staff) => 0
  | zt_vip, _ => 20
  | _, _ => 0
  end.
Definition zone_labels (e : Entity.t) : list string :=
  match Zone.zoneType (zone_of e), Entity.ticketType e with
  | zt_critical, staff => []
  | zt_critical, _ => ["CRITICAL ZONE VIOLATION"%string]
  | zt_restricted, (staff | media) => []
  | zt_restricted, _ => ["Restricted Zone Access"%string]
  | zt_vip, (vip | staff) => []
  | zt_vip, _ => ["VIP Zone - No Auth"%string]
  | _, _ => []
  end.

Definition rushing_points (e : Entity.t) : Z :=
  match Entity.status e with st_rushing => 15 | _ => 0 end.
Definition rushing_labels (e : Entity.t) : list string :=
  match Entity.status e with st_rushing => ["Rushing Behavior"%string] | _ => [] end.

Definition loitering_points (e : Entity.t) : Z :=
  match Entity.status e, Zone.zoneType (zone_of e) with
  | st_loitering, zt_concourse => 0
  | st_loitering, _ => 10
  | _, _ => 0
  end.
Definition loitering_labels (e : Entity.t) : list string :=
  match Entity.status e, Zone.zoneType (zone_of e) with
  | st_loitering, zt_concourse => []
  | st_loitering, _ => ["Loitering"%string]
  | _, _ => []
  end.

Definition flag_points (e : Entity.t) : Z :=
  if Session.isWatched (Entity.session e) then 5 else 0.
Definition flag_labels (e : Entity.t) : list string :=
  if Session.isWatched (Entity.session e) then ["User Flagged"%string] else [].

(** The score before the clamp. *)
Definition rawScore (e : Entity.t) : Z :=
  watchlist_points e + incidents_points e + heavy_points e + drinks_points e
  + zone_points e + rushing_points e + loitering_points e + flag_points e.

Definition allLabels (e : Entity.t) : list string :=
  watchlist_labels e ++ incidents_labels e ++ heavy_labels e ++ drinks_labels e
  ++ zone_labels e ++ rushing_labels e ++ loitering_labels e ++ flag_labels e.

(** The tier mapping as the step function of the specification. *)
Definition tierOf (score : Z) : ThreatLevel :=
  if score >=? 70 then CRITICAL
  else if score >=? 45 then HIGH
  else if score >=? 25 then MEDIUM
  else LOW.

(** Sample agents.  [sampleAgent] is a general-admission agent standing at
    the given point with the given history and session, as the generator
    builds them ([status] normal, empty inventory). *)
Definition sampleAgent (lng lat : Q) (h : History.t) (se : Session.t) : Entity.t :=
  Entity.mk "fan-1000" "Mike A." general lng lat (Position.mk lng lat)
    st_normal 0 [] h se 0 LOW [].

(** High watchlist, two prior incidents, standing inside the Team Tunnel
    polygon. *)
Definition tunnelAgent : Entity.t :=
  sampleAgent (-86.1636) 39.7591 (History.mk 2 wl_high ap_normal) (Session.mk 0 [] false).

(** Three draws that make [getRandomPos] pick the south seating and land
    inside the Team Tunnel polygon. *)
Definition tunnelTape (n : nat) : Q :=
  match n with
  | O => 0.3%Q
  | S O => 0.5%Q
  | _ => 0.8%Q
  end.

(** A clean agent in the west seating with [n] drinks this session. *)
Definition drinkingAgent (n : Z) : Entity.t :=
  sampleAgent (-86.1653) 39.7600 (History.mk 0 wl_none ap_normal) (Session.mk n [] false).

(** High watchlist, three prior incidents and six drinks: 101 points
    before the clamp. *)
Definition saturatedAgent : Entity.t :=
  sampleAgent (-86.1653) 39.7600 (History.mk 3 wl_high ap_normal) (Session.mk 6 [] false).

(** What [toggleWatchlist] returns for the entity it selects. *)
Definition toggled (e : Entity.t) : Entity.t :=
  with_session
    (with_isWatched (negb (Session.isWatched (Entity.session e))) (Entity.session e)) e.





(** The test [addPrediction] runs on each live prediction: same entity, same
    pattern, created less than 10 seconds before [now]. *)
Definition recent_pair (now : Z) (agentId pattern : string) (p : Prediction.t) : bool :=
  String.eqb (Prediction.entityId p) agentId
  && String.eqb (Prediction.prediction p) pattern
  && (now - Prediction.timestamp p <? 10000).

Definition same_pair (agentId pattern : string) (p : Prediction.t) : bool :=
  String.eqb (Prediction.entityId p) agentId
  && String.eqb (Prediction.prediction p) pattern.

(** How many live predictions the list holds for a pair, and how many of
    them were created less than 10 seconds before [now]. *)
Definition live_count (agentId pattern : string) (l : list Prediction.t) : nat :=
  List.length (filter (same_pair agentId pattern) l).
Definition recent_count (now : Z) (agentId pattern : string) (l : list Prediction.t) : nat :=
  List.length (filter (recent_pair now agentId pattern) l).

(** What happens to the prediction list between two issues: another issue
    ([addPrediction], at its own clock reading) or a dismissal
    ([dismissPrediction]). *)
Inductive QueueEvent : Type :=
  | Issued (now : Z) (entity : Entity.t) (prediction : string) (confidence : Z)
  | Dismissed (predId : string).

Definition queue_event (toLocaleTimeString : Z -> string) (ev : QueueEvent)
    (prev : list Prediction.t) : list Prediction.t :=
  match ev with
  | Issued now entity prediction confidence =>
      addPrediction_update toLocaleTimeString now entity prediction confidence prev
  | Dismissed predId =>
      filter (fun p => negb (String.eqb (Prediction.id p) predId)) prev
  end.

Definition queue_events (toLocaleTimeString : Z -> string) (evs : list QueueEvent)
    (prev : list Prediction.t) : list Prediction.t :=
  fold_left (fun l ev => queue_event toLocaleTimeString ev l) evs prev.

(** The clock reading of an issue lies between two readings. *)
Definition clock_between (lo hi : Z) (ev : QueueEvent) : Prop :=
  match ev with
  | Issued now _ _ _ => lo <= now <= hi
  | Dismissed _ => True
  end.

(** The predictions of a pair created at [since] or later. *)
Definition fresh_pair (since : Z) (agentId pattern : string) (p : Prediction.t) : bool :=
  same_pair agentId pattern p && (since <=? Prediction.timestamp p).

(** The record [addPrediction] builds. *)
Definition newPrediction (toLocaleTimeString : Z -> string) (now : Z)
    (entity : Entity.t) (prediction : string) (confidence : Z) : Prediction.t :=
  Prediction.mk
    (Entity.id entity ++ "-" ++ prediction ++ "-" ++ string_of_Z now)%string
    now (Entity.id entity) (Entity.name entity) prediction confidence
    (Entity.threatFactors entity)
    (fst (fst (actionInfo_of prediction))) (snd (fst (actionInfo_of prediction)))
    (snd (actionInfo_of prediction))
    (toLocaleTimeString now).

(** A state as the application mounts it: no logs, no predictions. *)
Definition initialState (es : list Entity.t) : State.t :=
  State.mk 0 es [] [] LOW None.

(** Stand-ins for the host when a property is run on a concrete input: a
    clock rendering, a random tape, and a square root exact to ten
    decimal places. *)
Definition sampleTime (now : Z) : string := string_of_Z now.
Definition sampleSqrt (q : Q) : Q :=
  Qmake (Z.sqrt (Qfloor (q * inject_Z (10 ^ 20)))) (Pos.pow 10 10).
Definition sampleTape (n : nat) : Q :=
  if Nat.eqb n 5 then 0.99%Q else 0.5%Q.

(** Three issues of one prediction for one agent: at clock readings 0,
    20000 and 25000 (milliseconds). *)
Definition issueSample (now : Z) (l : list Prediction.t) : list Prediction.t :=
  addPrediction_update sampleTime now (drinkingAgent 3) "INTOXICATION_MONITOR" 74 l.

(** A heavy drinker at the session cap of 8 drinks, in the west seating:
    30 + 10 = 40 points. *)
Definition cappedDrinker : Entity.t :=
  sampleAgent (-86.1653) 39.7600 (History.mk 0 wl_none ap_heavy) (Session.mk 8 [] false).

(** Postconditions on the value a computation returns, and invariants of
    the state it leaves. *)
Definition returns {A : Type} (c : M A) (Q : A -> Prop) : Prop :=
  forall s, Q (fst (c s)).

Definition keeps {A : Type} (I : State.t -> Prop) (c : M A) : Prop :=
  forall s, I s -> I (snd (c s)).

(** Invariants that only read the prediction list. *)
Definition on_predictions (P : list Prediction.t -> Prop) (s : State.t) : Prop :=
  P (State.predictions s).

Definition queue_bounded : State.t -> Prop :=
  on_predictions (fun l => (List.length l <= 5)%nat).

(** The intoxication predictions of the list stay within 114. *)
Definition confidence_ok (p : Prediction.t) : Prop :=
  Prediction.prediction p = "INTOXICATION_MONITOR"%string ->
  Prediction.confidence p <= 114.

Definition within_cap (e : Entity.t) : Prop :=
  Session.alcoholCount (Entity.session e) <= 8.

Definition capped (s : State.t) : Prop :=
  Forall within_cap (State.entities s)
  /\ on_predictions (Forall confidence_ok) s.

(** What can happen to the application: a tick of the clock, or one of the
    two operator actions that write engine state. *)
Inductive Command :=
  | Tick (now : Z) (currentPhase : Phase)
  | ToggleWatchlist (now : Z) (entityId : string)
  | DismissPrediction (now : Z) (predId : string).

Definition perform (tape : nat -> Q) (Math_sqrt : Q -> Q)
    (toLocaleTimeString : Z -> string) (c : Command) : M unit :=
  match c with
  | Tick now currentPhase => tick tape Math_sqrt toLocaleTimeString now currentPhase
  | ToggleWatchlist now entityId => toggleWatchlist tape toLocaleTimeString now entityId
  | DismissPrediction now predId => dismissPrediction tape toLocaleTimeString now predId
  end.

Fixpoint run (tape : nat -> Q) (Math_sqrt : Q -> Q)
    (toLocaleTimeString : Z -> string) (cs : list Command) (s : State.t) : State.t :=
  match cs with
  | [] => s
  | c :: rest =>
      run tape Math_sqrt toLocaleTimeString rest
        (snd (perform tape Math_sqrt toLocaleTimeString c s))
  end.

(** Being outside the exclusion rectangle, for a sampled position and for
    an agent. *)
Definition outsideField (p : Position.t) : Prop :=
  isInRestrictedField (Position.longitude p) (Position.latitude p) = false.

Definition contained (e : Entity.t) : Prop :=
  isInRestrictedField (Entity.longitude e) (Entity.latitude e) = false.

(** A general-admission agent standing in the middle of the field. *)
Definition fieldAgent : Entity.t :=
  sampleAgent (-86.1636) 39.7601 (History.mk 0 wl_none ap_normal) (Session.mk 0 [] false).

(** What one tick does to one agent: the ticket is kept and an agent that
    is not staff or media ends outside the field; the ticket is kept and
    the session's drinks stay within the cap. *)
Definition containment_relation (e e' : Entity.t) : Prop :=
  Entity.ticketType e' = Entity.ticketType e
  /\ (isAuthorized_of e = false -> contained e').

Definition cap_relation (e e' : Entity.t) : Prop :=
  within_cap e -> within_cap e'.

(** The pattern and confidence handed to [addPrediction]. *)
Definition choice_ok (pc : string * Z) : Prop :=
  fst pc = "INTOXICATION_MONITOR"%string -> snd pc <= 114.

(** The phase clock: the duration of the phase at an index of the table (0
    past its end), the legal readings of the two cells, and [n] ticks of
    the clock. *)
Definition phaseDuration (gamePhaseIndex : nat) : Z :=
  match nth_error GAME_PHASES gamePhaseIndex with
  | Some currentPhase => GamePhase.duration currentPhase
  | None => 0
  end.

Definition clock_valid (gamePhaseIndex : nat) (phaseTick : Z) : Prop :=
  0 <= phaseTick < phaseDuration gamePhaseIndex.

Fixpoint advancePhase_n (n : nat) (cells : nat * Z) : option (nat * Z) :=
  match n with
  | O => Some cells
  | S n' =>
      match advancePhase (fst cells) (snd cells) with
      | Some cells' => advancePhase_n n' cells'
      | None => None
      end
  end.

(** Every legal reading of the phase clock. *)
Definition clock_readings : list (nat * Z) :=
  flat_map
    (fun i => map (fun k => (i, Z.of_nat k)) (seq 0 (Z.to_nat (phaseDuration i))))
    (seq 0 (List.length GAME_PHASES)).

Definition clock_eqb (a b : nat * Z) : bool :=
  Nat.eqb (fst a) (fst b) && Z.eqb (snd a) (snd b).

(** The id the generator gives to the entity of index [i]. *)
Definition fanId (i : Z) : string := ("fan-" ++ string_of_Z (1000 + i))%string.

(** An entity as the generator leaves it, whatever the draws: its id, and a
    blank session and risk record. *)
Definition freshly_generated (i : Z) (e : Entity.t) : Prop :=
  Entity.id e = fanId i
  /\ Entity.status e = st_normal
  /\ Entity.waitTicks e = 0
  /\ Entity.inventory e = []
  /\ Entity.session e = Session.mk 0 [] false
  /\ Entity.threatScore e = 0
  /\ Entity.threatLevel e = LOW
  /\ Entity.threatFactors e = [].

(** What the draws decide, when they are in [0, 1). *)
Definition well_drawn (e : Entity.t) : Prop :=
  contained e
  /\ outsideField (Entity.target e)
  /\ In (Entity.ticketType e) TICKET_TYPES
  /\ 0 <= History.priorIncidents (Entity.history e) <= 3.

(** What a tick may do to the possessions of an agent standing in [zone]:
    nothing; or, in a concourse, one stadium item it did not carry yet; or,
    in a concourse and below 8 drinks, one drink, counted. *)
Definition purchase_step (zone : Zone.t) (inv : list string) (se : Session.t)
    (inv' : list string) (se' : Session.t) : Prop :=
  Session.isWatched se' = Session.isWatched se
  /\ Session.zonesVisited se' = Session.zonesVisited se
  /\ ((inv' = inv /\ Session.alcoholCount se' = Session.alcoholCount se)
      \/ (Zone.zoneType zone = zt_concourse
          /\ Session.alcoholCount se' = Session.alcoholCount se
          /\ exists item, In item STADIUM_ITEMS /\ ~ In item inv /\ inv' = inv ++ [item])
      \/ (Zone.zoneType zone = zt_concourse
          /\ Session.alcoholCount se < 8
          /\ Session.alcoholCount se' = Session.alcoholCount se + 1
          /\ exists drink, In drink ALCOHOL_ITEMS /\ inv' = inv ++ [drink])).

(** What a tick keeps of an agent: who it is and its history. *)
Definition same_identity (e e' : Entity.t) : Prop :=
  Entity.id e' = Entity.id e
  /\ Entity.name e' = Entity.name e
  /\ Entity.ticketType e' = Entity.ticketType e
  /\ Entity.history e' = Entity.history e.

(** What a tick does to the session and inventory of an agent: held idle,
    they are untouched; otherwise the zone the agent ends in is recorded
    as visited (appended when new) and the possessions change by one
    [purchase_step] there. *)
Definition session_step (e e' : Entity.t) : Prop :=
  (Entity.session e' = Entity.session e /\ Entity.inventory e' = Entity.inventory e)
  \/ (includes_id (Session.zonesVisited (Entity.session e')) (Zone.id (zone_of e')) = true
      /\ exists visited,
           (visited = Session.zonesVisited (Entity.session e)
            \/ (visited = Session.zonesVisited (Entity.session e) ++ [Zone.id (zone_of e')]
                /\ includes_id (Session.zonesVisited (Entity.session e))
                     (Zone.id (zone_of e')) = false))
           /\ purchase_step (zone_of e') (Entity.inventory e)
                (with_zonesVisited visited (Entity.session e))
                (Entity.inventory e') (Entity.session e')).

(** Alcoholic items, and the bookkeeping the engine keeps between an
    agent's inventory and its session. *)
Definition isAlcohol (item : string) : bool := includes ALCOHOL_ITEMS item.

Definition inventory_consistent (e : Entity.t) : Prop :=
  0 <= Session.alcoholCount (Entity.session e) <= 8
  /\ Session.alcoholCount (Entity.session e)
     = Z.of_nat (List.length (filter isAlcohol (Entity.inventory e)))
  /\ NoDup (filter (fun item => negb (isAlcohol item)) (Entity.inventory e))
  /\ Forall (fun item => In item (ALCOHOL_ITEMS ++ STADIUM_ITEMS)) (Entity.inventory e)
  /\ NoDup (Session.zonesVisited (Entity.session e)).

(** The part of a tick's effect on an agent that meets the eye. *)
Definition visible_step (e e' : Entity.t) : Prop :=
  Session.isWatched (Entity.session e') = Session.isWatched (Entity.session e)
  /\ Session.alcoholCount (Entity.session e)
     <= Session.alcoholCount (Entity.session e')
     <= Session.alcoholCount (Entity.session e) + 1
  /\ (Entity.inventory e' = Entity.inventory e
      \/ (Zone.zoneType (zone_of e') = zt_concourse
          /\ exists item, Entity.inventory e' = Entity.inventory e ++ [item]))
  /\ (Session.alcoholCount (Entity.session e') = Session.alcoholCount (Entity.session e) + 1
      -> exists drink, In drink ALCOHOL_ITEMS
                       /\ Entity.inventory e' = Entity.inventory e ++ [drink])
  /\ (Session.zonesVisited (Entity.session e') = Session.zonesVisited (Entity.session e)
      \/ Session.zonesVisited (Entity.session e')
         = Session.zonesVisited (Entity.session e) ++ [Zone.id (zone_of e')]).

(** The risk fields an entity carries, and their agreement with the scorer
    run on the entity itself. *)
Definition riskFields (e : Entity.t) : Z * ThreatLevel * list string :=
  (Entity.threatScore e, Entity.threatLevel e, Entity.threatFactors e).

Definition risk_fresh (ph : Phase) (e : Entity.t) : Prop :=
  riskFields e
  = (Threat.score (calculateThreatScore e ph),
     Threat.level (calculateThreatScore e ph),
     Threat.factors (calculateThreatScore e ph)).

(** The three ways a tick treats an agent: held idle with ticks to wait;
    sent idle; or moved and re-scored. *)
Definition tick_outcome (ph : Phase) (e e' : Entity.t) : Prop :=
  (0 < Entity.waitTicks e
   /\ Entity.waitTicks e' = Entity.waitTicks e - 1
   /\ Entity.status e' = Entity.status e
   /\ riskFields e' = riskFields e)
  \/ (Entity.waitTicks e <= 0
      /\ Entity.status e = st_normal /\ Entity.status e' = st_loitering
      /\ 3 <= Entity.waitTicks e' <= 10
      /\ riskFields e' = riskFields e)
  \/ (Entity.waitTicks e <= 0
      /\ Entity.waitTicks e' = Entity.waitTicks e
      /\ (Entity.status e' = Entity.status e \/ Entity.status e' = st_rushing
          \/ Entity.status e' = st_normal)
      /\ risk_fresh ph e').

Definition risk_coherent (e : Entity.t) : Prop :=
  0 <= Entity.threatScore e <= 100
  /\ Entity.threatLevel e = tierOf (Entity.threatScore e).

(** An agent held idle for three more ticks whose last score was critical. *)
Definition heldCritical : Entity.t :=
  with_threat (Threat.mk 100 CRITICAL []) (with_waitTicks 3 saturatedAgent).

(** Invariants that only read the log feed, and the titles of the entries
    the engine writes. *)
Definition on_logs (P : list LogEntry.t -> Prop) (s : State.t) : Prop :=
  P (State.logs s).

Definition ENGINE_TITLES : list string :=
  [ "Alcohol Alert"; "Concession"; "Watchlist Added"; "Watchlist Removed";
    "Prediction Acknowledged" ]%string.

(** What holds of every prediction the engine issues: its pattern is a key
    of [PREDICTION_ACTIONS], so its action, priority and icon are the table's
    and not the fallback's; its confidence is between 40 and 114, and at
    most 95 unless the pattern is INTOXICATION_MONITOR.  The bound is the
    sum 70 + 25 itself: in double precision [70 + r * 25] can round up to
    95 for a draw just below 1, where the exact sum stays below it. *)
Definition prediction_ok (p : Prediction.t) : Prop :=
  In (Prediction.prediction p) (map fst PREDICTION_ACTIONS)
  /\ (Prediction.action p, Prediction.priority p, Prediction.icon p)
     = actionInfo_of (Prediction.prediction p)
  /\ Prediction.action p <> "Monitor situation"%string
  /\ 40 <= Prediction.confidence p <= 114
  /\ (Prediction.prediction p <> "INTOXICATION_MONITOR"%string ->
      Prediction.confidence p <= 95).

Definition issue_ok (pc : string * Z) : Prop :=
  In (fst pc) (map fst PREDICTION_ACTIONS)
  /\ 40 <= snd pc <= 114
  /\ (fst pc <> "INTOXICATION_MONITOR"%string -> snd pc <= 95).

Definition well_predicted (s : State.t) : Prop :=
  Forall within_cap (State.entities s)
  /\ on_predictions (Forall prediction_ok) s.

(** Rounding margins.  The program adds and multiplies in double
    precision, the model on exact rationals: near -86 and 39 the two differ
    by less than [coordinate_tolerance] degrees (a double there is exact to
    about 10^-14).  A longitude draw [draw_margin] away from a threshold
    puts the coordinate 3 * 10^-10 degrees away from the matching edge. *)
Definition coordinate_tolerance : Q := 0.0000000001.
Definition draw_margin : Q := 0.000001.

(** [(lng, lat)] is the position [p] up to [tol] in each coordinate. *)
Definition within (tol : Q) (p : Position.t) (lng lat : Q) : Prop :=
  (Position.longitude p - tol <= lng /\ lng <= Position.longitude p + tol
   /\ Position.latitude p - tol <= lat /\ lat <= Position.latitude p + tol)%Q.

(** What [toggleWatchlist entityId] does to each entity of the list. *)
Definition toggle_if (entityId : string) (e : Entity.t) : Entity.t :=
  if String.eqb (Entity.id e) entityId then toggled e else e.

(** * Properties *)

(** ** Comparisons on rationals *)

Lemma Qltb_spec (a b : Q) : reflect (a < b)%Q (Qltb a b).
Proof.
  unfold Qltb. destruct (Qle_bool b a) eqn:E; simpl; constructor.
  - apply Qle_bool_iff in E. lra.
  - destruct (Qlt_le_dec a b) as [Hlt | Hle]; [exact Hlt |].
    apply Qle_bool_iff in Hle. congruence.
Qed.

Lemma Qgtb_spec (a b : Q) : reflect (b < a)%Q (Qgtb a b).
Proof. unfold Qgtb. apply Qltb_spec. Qed.

Lemma Qle_bool_spec (a b : Q) : reflect (a <= b)%Q (Qle_bool a b).
Proof.
  destruct (Qle_bool a b) eqn:E; constructor.
  - now apply Qle_bool_iff.
  - intro H. apply Qle_bool_iff in H. congruence.
Qed.

Lemma Qltb_compat (x a b : Q) : (a == b)%Q -> Qltb x a = Qltb x b.
Proof. intro H. unfold Qltb. now rewrite H. Qed.

(** Decide every rational comparison in the goal, then finish by linear
    arithmetic. *)
Ltac Qcases :=
  repeat match goal with
    | |- context [Qltb ?a ?b] => destruct (Qltb_spec a b)
    | |- context [Qgtb ?a ?b] => destruct (Qgtb_spec a b)
    | |- context [Qle_bool ?a ?b] => destruct (Qle_bool_spec a b)
    end;
  simpl; try reflexivity; try discriminate; try (exfalso; lra).

(** ** Geofence index: every polygon of the layout is an axis-parallel
    rectangle, and the ray-casting test on it is a half-open box test. *)

Lemma intersect_vertical (x y a yi yj : Q) :
  intersect x y (a, yi) (a, yj) = xorb (Qgtb yi y) (Qgtb yj y) && Qltb x a.
Proof.
  unfold intersect. f_equal. apply Qltb_compat. unfold Qdiv. ring.
Qed.

Lemma intersect_horizontal (x y xi xj b : Q) :
  intersect x y (xi, b) (xj, b) = false.
Proof. unfold intersect. now rewrite xorb_nilpotent. Qed.

Lemma isPointInPolygon_rect (x0 x1 y0 y1 x y : Q) :
  (x0 < x1)%Q -> (y0 < y1)%Q ->
  isPointInPolygon (x, y) (rect x0 x1 y0 y1) = inBox x0 x1 y0 y1 x y.
Proof.
  intros Hx Hy. unfold isPointInPolygon, rect, inBox.
  cbn [last isPointInPolygon_loop].
  rewrite !intersect_horizontal, !intersect_vertical.
  Qcases.
Qed.

(** ** The scorer as a sum of contributions *)

Section Stages.

Variable e : Entity.t.
Variables (s : Z) (f : list string).

Lemma stage_watchlist :
  match History.watchlistStatus (Entity.history e) with
  | wl_high => (s + 35, push f "HIGH WATCHLIST"%string)
  | wl_low => (s + 15, push f "Low Watchlist"%string)
  | wl_none => (s, f)
  end = (s + watchlist_points e, f ++ watchlist_labels e).
Proof.
  unfold watchlist_points, watchlist_labels, push.
  destruct (History.watchlistStatus _); rewrite ?app_nil_r, ?Z.add_0_r; reflexivity.
Qed.

Lemma stage_incidents :
  (if History.priorIncidents (Entity.history e) >? 0
   then (s + History.priorIncidents (Entity.history e) * 12,
         push f (string_of_Z (History.priorIncidents (Entity.history e))
                 ++ " Prior Incident(s)")%string)
   else (s, f)) = (s + incidents_points e, f ++ incidents_labels e).
Proof.
  unfold incidents_points, incidents_labels, push. cbv zeta.
  generalize (History.priorIncidents (Entity.history e)); intro n.
  destruct (n >? 0); rewrite ?app_nil_r, ?Z.add_0_r; reflexivity.
Qed.

Lemma stage_heavy :
  match History.alcoholPattern (Entity.history e) with
  | ap_heavy => (s + 10, push f "Heavy Drinker History"%string)
  | ap_normal => (s, f)
  end = (s + heavy_points e, f ++ heavy_labels e).
Proof.
  unfold heavy_points, heavy_labels, push.
  destruct (History.alcoholPattern _); rewrite ?app_nil_r, ?Z.add_0_r; reflexivity.
Qed.

Lemma stage_drinks :
  (if Session.alcoholCount (Entity.session e) >=? 6
   then (s + 30, push f "Excessive Alcohol (6+)"%string)
   else if Session.alcoholCount (Entity.session e) >=? 4
   then (s + 18, push f "High Alcohol (4+)"%string)
   else if Session.alcoholCount (Entity.session e) >=? 3
   then (s + 8, f)
   else (s, f)) = (s + drinks_points e, f ++ drinks_labels e).
Proof.
  unfold drinks_points, drinks_labels, push. cbv zeta.
  generalize (Session.alcoholCount (Entity.session e)); intro n.
  destruct (n >=? 6), (n >=? 4), (n >=? 3);
    rewrite ?app_nil_r, ?Z.add_0_r; reflexivity.
Qed.

Lemma stage_zone :
  (if ZoneType_eqb (Zone.zoneType (zone_of e)) zt_critical
      && negb (TicketType_eqb (Entity.ticketType e) staff)
   then (s + 45, push f "CRITICAL ZONE VIOLATION"%string)
   else if ZoneType_eqb (Zone.zoneType (zone_of e)) zt_restricted
      && negb (TicketType_eqb (Entity.ticketType e) staff
               || TicketType_eqb (Entity.ticketType e) media)
   then (s + 30, push f "Restricted Zone Access"%string)
   else if ZoneType_eqb (Zone.zoneType (zone_of e)) zt_vip
      && negb (TicketType_eqb (Entity.ticketType e) vip)
      && negb (TicketType_eqb (Entity.ticketType e) staff)
   then (s + 20, push f "VIP Zone - No Auth"%string)
   else (s, f)) = (s + zone_points e, f ++ zone_labels e).
Proof.
  unfold zone_points, zone_labels, push.
  destruct (Zone.zoneType _), (Entity.ticketType e); cbn;
    rewrite ?app_nil_r, ?Z.add_0_r; reflexivity.
Qed.

Lemma stage_rushing :
  (if Status_eqb (Entity.status e) st_rushing
   then (s + 15, push f "Rushing Behavior"%string)
   else (s, f)) = (s + rushing_points e, f ++ rushing_labels e).
Proof.
  unfold rushing_points, rushing_labels, push.
  destruct (Entity.status e); cbn; rewrite ?app_nil_r, ?Z.add_0_r; reflexivity.
Qed.

Lemma stage_loitering :
  (if Status_eqb (Entity.status e) st_loitering
      && negb (ZoneType_eqb (Zone.zoneType (zone_of e)) zt_concourse)
   then (s + 10, push f "Loitering"%string)
   else (s, f)) = (s + loitering_points e, f ++ loitering_labels e).
Proof.
  unfold loitering_points, loitering_labels, push.
  destruct (Entity.status e), (Zone.zoneType _); cbn;
    rewrite ?app_nil_r, ?Z.add_0_r; reflexivity.
Qed.

Lemma stage_flag :
  (if Session.isWatched (Entity.session e)
   then (s + 5, push f "User Flagged"%string)
   else (s, f)) = (s + flag_points e, f ++ flag_labels e).
Proof.
  unfold flag_points, flag_labels, push.
  destruct (Session.isWatched _); rewrite ?app_nil_r, ?Z.add_0_r; reflexivity.
Qed.

End Stages.

Lemma calculateThreatScore_decomp (e : Entity.t) (ph : Phase) :
  calculateThreatScore e ph
  = Threat.mk (Z.min 100 (rawScore e)) (tierOf (rawScore e)) (allLabels e).
Proof.
  unfold calculateThreatScore. cbv zeta.
  fold (zone_of e).
  rewrite stage_watchlist. cbv beta iota.
  rewrite stage_incidents. cbv beta iota.
  rewrite stage_heavy. cbv beta iota.
  rewrite stage_drinks. cbv beta iota.
  rewrite stage_zone. cbv beta iota.
  rewrite stage_rushing. cbv beta iota.
  rewrite stage_loitering. cbv beta iota.
  rewrite stage_flag. cbv beta iota.
  rewrite Z.add_0_l, app_nil_l, <- !app_assoc.
  reflexivity.
Qed.

Lemma score_decomp (e : Entity.t) (ph : Phase) :
  Threat.score (calculateThreatScore e ph) = Z.min 100 (rawScore e).
Proof. now rewrite calculateThreatScore_decomp. Qed.

Lemma level_decomp (e : Entity.t) (ph : Phase) :
  Threat.level (calculateThreatScore e ph) = tierOf (rawScore e).
Proof. now rewrite calculateThreatScore_decomp. Qed.

Lemma factors_decomp (e : Entity.t) (ph : Phase) :
  Threat.factors (calculateThreatScore e ph) = allLabels e.
Proof. now rewrite calculateThreatScore_decomp. Qed.

Lemma watchlist_points_range (e : Entity.t) : 0 <= watchlist_points e <= 35.
Proof. unfold watchlist_points. destruct (History.watchlistStatus _); lia. Qed.

Lemma incidents_points_nonneg (e : Entity.t) : 0 <= incidents_points e.
Proof.
  unfold incidents_points. cbv zeta.
  destruct (Z.gtb_spec (History.priorIncidents (Entity.history e)) 0); lia.
Qed.

Lemma heavy_points_range (e : Entity.t) : 0 <= heavy_points e <= 10.
Proof. unfold heavy_points. destruct (History.alcoholPattern _); lia. Qed.

Lemma drinks_points_range (e : Entity.t) : 0 <= drinks_points e <= 30.
Proof.
  unfold drinks_points. cbv zeta.
  generalize (Session.alcoholCount (Entity.session e)); intro n.
  destruct (n >=? 6), (n >=? 4), (n >=? 3); lia.
Qed.

Lemma zone_points_range (e : Entity.t) : 0 <= zone_points e <= 45.
Proof.
  unfold zone_points.
  destruct (Zone.zoneType (zone_of e)), (Entity.ticketType e); lia.
Qed.

Lemma rushing_points_range (e : Entity.t) : 0 <= rushing_points e <= 15.
Proof. unfold rushing_points. destruct (Entity.status e); lia. Qed.

Lemma loitering_points_range (e : Entity.t) : 0 <= loitering_points e <= 10.
Proof.
  unfold loitering_points.
  destruct (Zone.zoneType (zone_of e)), (Entity.status e); lia.
Qed.

Lemma flag_points_range (e : Entity.t) : 0 <= flag_points e <= 5.
Proof. unfold flag_points. destruct (Session.isWatched _); lia. Qed.

Lemma rawScore_nonneg (e : Entity.t) : 0 <= rawScore e.
Proof.
  unfold rawScore.
  pose proof (watchlist_points_range e). pose proof (incidents_points_nonneg e).
  pose proof (heavy_points_range e). pose proof (drinks_points_range e).
  pose proof (zone_points_range e). pose proof (rushing_points_range e).
  pose proof (loitering_points_range e). pose proof (flag_points_range e).
  lia.
Qed.

(** ** Geofence index *)

Lemma getZoneForPoint_boxes (lng lat : Q) :
  getZoneForPoint lng lat =
  if inBox (-86.1655) (-86.1617) 39.7588 39.7615 lng lat then Feature.properties bowl
  else if inBox (-86.1648) (-86.1624) 39.7594 39.7608 lng lat then Feature.properties field
  else if inBox (-86.1650) (-86.1622) 39.7611 39.7615 lng lat then Feature.properties vip_north
  else if inBox (-86.1650) (-86.1622) 39.7587 39.7591 lng lat then Feature.properties vip_south
  else if inBox (-86.1638) (-86.1634) 39.7588 39.7594 lng lat then Feature.properties tunnel
  else if inBox (-86.1620) (-86.1615) 39.7590 39.7612 lng lat then Feature.properties concourse_e
  else if inBox (-86.1657) (-86.1652) 39.7590 39.7612 lng lat then Feature.properties concourse_w
  else outsideZone.
Proof.
  unfold getZoneForPoint, geoJsonData. cbn [getZoneForPoint_loop].
  change (Feature.coordinates bowl) with (rect (-86.1655) (-86.1617) 39.7588 39.7615).
  change (Feature.coordinates field) with (rect (-86.1648) (-86.1624) 39.7594 39.7608).
  change (Feature.coordinates vip_north) with (rect (-86.1650) (-86.1622) 39.7611 39.7615).
  change (Feature.coordinates vip_south) with (rect (-86.1650) (-86.1622) 39.7587 39.7591).
  change (Feature.coordinates tunnel) with (rect (-86.1638) (-86.1634) 39.7588 39.7594).
  change (Feature.coordinates concourse_e) with (rect (-86.1620) (-86.1615) 39.7590 39.7612).
  change (Feature.coordinates concourse_w) with (rect (-86.1657) (-86.1652) 39.7590 39.7612).
  rewrite !isPointInPolygon_rect by lra.
  reflexivity.
Qed.

Lemma inBox_spec (x0 x1 y0 y1 x y : Q) :
  inBox x0 x1 y0 y1 x y = true <-> (x0 <= x /\ x < x1 /\ y0 <= y /\ y < y1)%Q.
Proof.
  unfold inBox.
  destruct (Qle_bool_spec x0 x), (Qltb_spec x x1), (Qle_bool_spec y0 y), (Qltb_spec y y1);
    simpl; split; intros; try discriminate; try reflexivity; try tauto.
Qed.

(** The bowl is tested first and covers the field and the tunnel. *)
Lemma bowl_covers (lng lat : Q) :
  inBox (-86.1648) (-86.1624) 39.7594 39.7608 lng lat = true
  \/ inBox (-86.1638) (-86.1634) 39.7588 39.7594 lng lat = true ->
  inBox (-86.1655) (-86.1617) 39.7588 39.7615 lng lat = true.
Proof.
  rewrite !inBox_spec. intros [H | H]; lra.
Qed.

Lemma getZoneForPoint_zoneType (lng lat : Q) :
  Zone.zoneType (getZoneForPoint lng lat) <> zt_restricted
  /\ Zone.zoneType (getZoneForPoint lng lat) <> zt_critical.
Proof.
  rewrite getZoneForPoint_boxes.
  destruct (inBox (-86.1655) (-86.1617) 39.7588 39.7615 lng lat) eqn:Hb;
    [cbn; split; discriminate |].
  destruct (inBox (-86.1648) (-86.1624) 39.7594 39.7608 lng lat) eqn:Hf.
  { rewrite bowl_covers in Hb by (now left). discriminate. }
  destruct (inBox (-86.1650) (-86.1622) 39.7611 39.7615 lng lat);
    [cbn; split; discriminate |].
  destruct (inBox (-86.1650) (-86.1622) 39.7587 39.7591 lng lat);
    [cbn; split; discriminate |].
  destruct (inBox (-86.1638) (-86.1634) 39.7588 39.7594 lng lat) eqn:Ht.
  { rewrite bowl_covers in Hb by (now right). discriminate. }
  destruct (inBox (-86.1620) (-86.1615) 39.7590 39.7612 lng lat);
    [cbn; split; discriminate |].
  destruct (inBox (-86.1657) (-86.1652) 39.7590 39.7612 lng lat);
    cbn; split; discriminate.
Qed.

(** ** Labels *)

Lemma length_append (s t : string) :
  String.length (s ++ t) = (String.length s + String.length t)%nat.
Proof. induction s as [| c s IH]; cbn; [reflexivity | now rewrite IH]. Qed.

(** The prior-incidents label is never one of the zone labels. *)
Lemma incidents_label_not_zone (s : string) :
  (s ++ " Prior Incident(s)")%string <> "CRITICAL ZONE VIOLATION"%string
  /\ (s ++ " Prior Incident(s)")%string <> "Restricted Zone Access"%string.
Proof.
  split; intro H; pose proof (f_equal String.length H) as L;
    rewrite length_append in L; cbn in L;
    do 6 (destruct s as [| ? s]; [cbn in *; try discriminate L; try discriminate H |]);
    cbn in L; lia.
Qed.

Lemma zone_labels_reachable (e : Entity.t) :
  zone_labels e = [] \/ zone_labels e = ["VIP Zone - No Auth"%string].
Proof.
  unfold zone_labels, zone_of.
  destruct (getZoneForPoint_zoneType (Entity.longitude e) (Entity.latitude e)) as [Hr Hc].
  destruct (Zone.zoneType _), (Entity.ticketType e); try congruence; auto.
Qed.

Lemma zone_points_reachable (e : Entity.t) :
  zone_points e = 0 \/ zone_points e = 20.
Proof.
  unfold zone_points, zone_of.
  destruct (getZoneForPoint_zoneType (Entity.longitude e) (Entity.latitude e)) as [Hr Hc].
  destruct (Zone.zoneType _), (Entity.ticketType e); try congruence; auto.
Qed.

Lemma zone_violation_labels_absent (e : Entity.t) (ph : Phase) :
  ~ In "Restricted Zone Access"%string (Threat.factors (calculateThreatScore e ph))
  /\ ~ In "CRITICAL ZONE VIOLATION"%string (Threat.factors (calculateThreatScore e ph)).
Proof.
  rewrite factors_decomp. unfold allLabels. rewrite !in_app_iff.
  assert (Hw : forall x, In x (watchlist_labels e) ->
                 x = "HIGH WATCHLIST"%string \/ x = "Low Watchlist"%string).
  { unfold watchlist_labels. destruct (History.watchlistStatus _); cbn; intuition. }
  assert (Hi : forall x, In x (incidents_labels e) ->
                 exists s, x = (s ++ " Prior Incident(s)")%string).
  { unfold incidents_labels. cbv zeta. destruct (_ >? 0); cbn; [| tauto].
    intros x [<- | []]. eauto. }
  assert (Hh : forall x, In x (heavy_labels e) -> x = "Heavy Drinker History"%string).
  { unfold heavy_labels. destruct (History.alcoholPattern _); cbn; intuition. }
  assert (Hd : forall x, In x (drinks_labels e) ->
                 x = "Excessive Alcohol (6+)"%string \/ x = "High Alcohol (4+)"%string).
  { unfold drinks_labels. cbv zeta.
    destruct (_ >=? 6); [cbn; intuition |]. destruct (_ >=? 4); cbn; intuition. }
  assert (Hz : forall x, In x (zone_labels e) -> x = "VIP Zone - No Auth"%string).
  { destruct (zone_labels_reachable e) as [-> | ->]; cbn; intuition. }
  assert (Hr : forall x, In x (rushing_labels e) -> x = "Rushing Behavior"%string).
  { unfold rushing_labels. destruct (Entity.status e); cbn; intuition. }
  assert (Hl : forall x, In x (loitering_labels e) -> x = "Loitering"%string).
  { unfold loitering_labels.
    destruct (Entity.status e), (Zone.zoneType (zone_of e)); cbn; intuition. }
  assert (Hf : forall x, In x (flag_labels e) -> x = "User Flagged"%string).
  { unfold flag_labels. destruct (Session.isWatched _); cbn; intuition. }
  split; intros [H | [H | [H | [H | [H | [H | [H | H]]]]]]];
    try (apply Hw in H; destruct H; discriminate);
    try (apply Hi in H; destruct H as [s H]; symmetry in H;
         now apply (incidents_label_not_zone s) in H);
    try (apply Hh in H; discriminate);
    try (apply Hd in H; destruct H; discriminate);
    try (apply Hz in H; discriminate);
    try (apply Hr in H; discriminate);
    try (apply Hl in H; discriminate);
    try (apply Hf in H; discriminate).
Qed.

(** ** Claims about the geofence and the scorer *)

(** C1. The specification expects an agent on the high watchlist with two
    prior incidents and a general ticket, standing inside the Team Tunnel
    (critical) polygon, to score 35 + 24 + 45 clamped to 100, tier CRITICAL,
    with the factor "CRITICAL ZONE VIOLATION".  On the program the agent's
    point passes the tunnel's own polygon test, yet the zone lookup answers
    the Stadium Bowl, and the scorer returns 59, tier HIGH, with only the
    two history factors.  Such points are positions agents do take: the
    south-seating branch of [getRandomPos] lands inside the tunnel
    polygon. *)
Theorem tunnel_agent_scored_as_public :
  isPointInPolygon (Entity.longitude tunnelAgent, Entity.latitude tunnelAgent)
    (Feature.coordinates tunnel) = true
  /\ getZoneForPoint (Entity.longitude tunnelAgent) (Entity.latitude tunnelAgent)
     = Feature.properties bowl
  /\ calculateThreatScore tunnelAgent PRE_GAME
     = Threat.mk 59 HIGH ["HIGH WATCHLIST"; "2 Prior Incident(s)"]%string
  /\ (let pos := fst (getRandomPos tunnelTape None (initialState [])) in
      isPointInPolygon (Position.longitude pos, Position.latitude pos)
        (Feature.coordinates tunnel) = true
      /\ isInRestrictedField (Position.longitude pos) (Position.latitude pos) = false).
Proof. repeat split; vm_compute; reflexivity. Qed.

(** C2. Every point strictly inside the Field Level polygon or the Team
    Tunnel polygon is resolved by [getZoneForPoint] to the Stadium Bowl,
    which is tested first and contains both; hence no point at all resolves
    to a restricted or critical zone, and for every agent the score is the
    clamped sum of the contributions in which the zone contribution is 0 or
    the VIP +20, never +30 or +45, and neither violation label is ever
    produced. *)
Theorem field_and_tunnel_shadowed_by_bowl :
  (forall lng lat : Q,
     ((-86.1648 < lng /\ lng < -86.1624) /\ (39.7594 < lat /\ lat < 39.7608))%Q
     \/ ((-86.1638 < lng /\ lng < -86.1634) /\ (39.7588 < lat /\ lat < 39.7594))%Q ->
     getZoneForPoint lng lat = Feature.properties bowl)
  /\ (forall lng lat : Q,
        Zone.zoneType (getZoneForPoint lng lat) <> zt_restricted
        /\ Zone.zoneType (getZoneForPoint lng lat) <> zt_critical)
  /\ (forall (e : Entity.t) (ph : Phase),
        Threat.score (calculateThreatScore e ph)
        = Z.min 100
            (watchlist_points e + incidents_points e + heavy_points e
             + drinks_points e + zone_points e + rushing_points e
             + loitering_points e + flag_points e)
        /\ (zone_points e = 0 \/ zone_points e = 20)
        /\ ~ In "Restricted Zone Access"%string (Threat.factors (calculateThreatScore e ph))
        /\ ~ In "CRITICAL ZONE VIOLATION"%string (Threat.factors (calculateThreatScore e ph))).
Proof.
  split; [| split].
  - intros lng lat H. rewrite getZoneForPoint_boxes.
    assert (Hb : inBox (-86.1655) (-86.1617) 39.7588 39.7615 lng lat = true).
    { apply inBox_spec. destruct H as [H | H]; lra. }
    now rewrite Hb.
  - apply getZoneForPoint_zoneType.
  - intros e ph. split; [apply score_decomp |].
    split; [apply zone_points_reachable |].
    apply zone_violation_labels_absent.
Qed.

Lemma field_and_tunnel_shadowed_by_bowl_witness :
  getZoneForPoint (-86.1636) 39.7591 = Feature.properties bowl.
Proof.
  apply (proj1 field_and_tunnel_shadowed_by_bowl).
  right. unfold Qlt; cbn. lia.
Defined.

(** C6. The specification has every contribution push a label; the one for
    exactly three session drinks adds 8 points and pushes none: a clean
    agent with three drinks scores 8 with an empty factor list, where the
    same agent with two drinks scores 0. *)
Theorem three_drinks_add_points_without_label :
  calculateThreatScore (drinkingAgent 3) PRE_GAME = Threat.mk 8 LOW []
  /\ calculateThreatScore (drinkingAgent 2) PRE_GAME = Threat.mk 0 LOW []
  /\ calculateThreatScore (drinkingAgent 4) PRE_GAME
     = Threat.mk 18 LOW ["High Alcohol (4+)"%string].
Proof. repeat split; vm_compute; reflexivity. Qed.

(** ** Tier mapping *)

Lemma tierOf_clamp (x : Z) : tierOf (Z.min 100 x) = tierOf x.
Proof.
  unfold tierOf.
  destruct (Z.geb_spec x 70), (Z.geb_spec x 45), (Z.geb_spec x 25),
    (Z.geb_spec (Z.min 100 x) 70), (Z.geb_spec (Z.min 100 x) 45),
    (Z.geb_spec (Z.min 100 x) 25); try reflexivity; lia.
Qed.

Lemma tierOf_monotone (a b : Z) :
  a <= b -> level_rank (tierOf a) <= level_rank (tierOf b).
Proof.
  intro H. unfold tierOf.
  destruct (Z.geb_spec a 70), (Z.geb_spec a 45), (Z.geb_spec a 25),
    (Z.geb_spec b 70), (Z.geb_spec b 45), (Z.geb_spec b 25); cbn; lia.
Qed.

(** C7. The level returned by the scorer is the step function [tierOf] of
    the clamped score it returns (70 and above CRITICAL, 45 and above HIGH,
    25 and above MEDIUM, otherwise LOW), the step function is non-decreasing
    with its steps exactly at 25, 45 and 70, and the returned score lies in
    [0, 100]. *)
Theorem tier_is_step_function_of_clamped_score :
  (forall (e : Entity.t) (ph : Phase),
     0 <= Threat.score (calculateThreatScore e ph) <= 100
     /\ Threat.level (calculateThreatScore e ph)
        = tierOf (Threat.score (calculateThreatScore e ph)))
  /\ (forall (e1 e2 : Entity.t) (ph1 ph2 : Phase),
        Threat.score (calculateThreatScore e1 ph1)
        <= Threat.score (calculateThreatScore e2 ph2) ->
        level_rank (Threat.level (calculateThreatScore e1 ph1))
        <= level_rank (Threat.level (calculateThreatScore e2 ph2)))
  /\ (forall x : Z,
        (70 <= x -> tierOf x = CRITICAL)
        /\ (45 <= x < 70 -> tierOf x = HIGH)
        /\ (25 <= x < 45 -> tierOf x = MEDIUM)
        /\ (x < 25 -> tierOf x = LOW)).
Proof.
  assert (Hlevel : forall e ph,
            Threat.level (calculateThreatScore e ph)
            = tierOf (Threat.score (calculateThreatScore e ph))).
  { intros e ph. now rewrite level_decomp, score_decomp, tierOf_clamp. }
  split; [| split].
  - intros e ph. split; [| apply Hlevel].
    rewrite score_decomp. pose proof (rawScore_nonneg e). lia.
  - intros e1 e2 ph1 ph2 H. rewrite !Hlevel. now apply tierOf_monotone.
  - intro x. unfold tierOf.
    destruct (Z.geb_spec x 70), (Z.geb_spec x 45), (Z.geb_spec x 25);
      repeat split; intros; try reflexivity; lia.
Qed.

Lemma tier_is_step_function_of_clamped_score_witness :
  level_rank (Threat.level (calculateThreatScore (drinkingAgent 3) PRE_GAME))
  <= level_rank (Threat.level (calculateThreatScore tunnelAgent PRE_GAME)).
Proof.
  apply (proj1 (proj2 tier_is_step_function_of_clamped_score)).
  vm_compute. discriminate.
Defined.

(** ** Monotonicity *)






(** ** Operator flag *)

Section Operator.

Variable tape : nat -> Q.
Variable toLocaleTimeString : Z -> string.

Lemma toggleWatchlist_entity_fst (now : Z) (entityId : string) (e : Entity.t) (s : State.t) :
  fst (toggleWatchlist_entity tape toLocaleTimeString now entityId e s)
  = if String.eqb (Entity.id e) entityId then toggled e else e.
Proof.
  unfold toggleWatchlist_entity, toggled.
  destruct (String.eqb (Entity.id e) entityId); [| reflexivity].
  destruct (negb (Session.isWatched (Entity.session e))); reflexivity.
Qed.

Lemma toggleWatchlist_map_fst (now : Z) (entityId : string) (es : list Entity.t) (s : State.t) :
  fst (mapM (toggleWatchlist_entity tape toLocaleTimeString now entityId) es s)
  = map (fun e => if String.eqb (Entity.id e) entityId then toggled e else e) es.
Proof.
  revert s. induction es as [| e es IH]; intro s; [reflexivity |].
  cbn [mapM map]. unfold bind at 1.
  pose proof (toggleWatchlist_entity_fst now entityId e s) as He.
  destruct (toggleWatchlist_entity tape toLocaleTimeString now entityId e s) as [e' s'].
  cbn [fst] in He. unfold bind at 1.
  specialize (IH s').
  destruct (mapM (toggleWatchlist_entity tape toLocaleTimeString now entityId) es s')
    as [es' s''].
  cbn [fst] in IH. cbn. now rewrite He, IH.
Qed.

Lemma toggleWatchlist_entities (now : Z) (entityId : string) (s : State.t) :
  State.entities (snd (toggleWatchlist tape toLocaleTimeString now entityId s))
  = map (fun e => if String.eqb (Entity.id e) entityId then toggled e else e)
      (State.entities s).
Proof.
  unfold toggleWatchlist. unfold bind at 1.
  pose proof (toggleWatchlist_map_fst now entityId (State.entities s) s) as H.
  destruct (mapM (toggleWatchlist_entity tape toLocaleTimeString now entityId)
              (State.entities s) s) as [es' s'].
  cbn [fst] in H. cbn. exact H.
Qed.

End Operator.

Lemma rawScore_toggled (e : Entity.t) :
  Session.isWatched (Entity.session e) = false ->
  rawScore (toggled e) = rawScore e + 5.
Proof.
  intro H. unfold rawScore, toggled,
    watchlist_points, incidents_points, heavy_points, drinks_points,
    zone_points, rushing_points, loitering_points, flag_points, zone_of.
  cbn [with_session with_isWatched Entity.history Entity.session Entity.status
       Entity.longitude Entity.latitude Entity.ticketType Session.alcoholCount
       Session.isWatched].
  rewrite H. cbn [negb]. lia.
Qed.

Lemma allLabels_toggled (e : Entity.t) :
  Session.isWatched (Entity.session e) = false ->
  allLabels (toggled e) = allLabels e ++ ["User Flagged"%string].
Proof.
  intro H. unfold allLabels, toggled,
    watchlist_labels, incidents_labels, heavy_labels, drinks_labels,
    zone_labels, rushing_labels, loitering_labels, flag_labels, zone_of.
  cbn [with_session with_isWatched Entity.history Entity.session Entity.status
       Entity.longitude Entity.latitude Entity.ticketType Session.alcoholCount
       Session.isWatched].
  rewrite H. cbn [negb]. rewrite <- !app_assoc. reflexivity.
Qed.

(** C10, as the program has it.  [toggleWatchlist] replaces the selected
    agent by [toggled], which differs from it in [session.isWatched] only.
    Re-scoring an agent whose flag was off then appends exactly the factor
    "User Flagged" and returns the earlier score plus 5, clamped to 100:
    exactly 5 higher whenever the earlier score was at most 95. *)
Theorem toggle_then_rescore :
  (forall (tape : nat -> Q) (toLocaleTimeString : Z -> string) (now : Z)
          (entityId : string) (s : State.t),
     State.entities (snd (toggleWatchlist tape toLocaleTimeString now entityId s))
     = map (fun e => if String.eqb (Entity.id e) entityId then toggled e else e)
         (State.entities s))
  /\ (forall e : Entity.t,
        with_session (Entity.session e) (toggled e) = e
        /\ Session.alcoholCount (Entity.session (toggled e))
           = Session.alcoholCount (Entity.session e)
        /\ Session.zonesVisited (Entity.session (toggled e))
           = Session.zonesVisited (Entity.session e)
        /\ Session.isWatched (Entity.session (toggled e))
           = negb (Session.isWatched (Entity.session e)))
  /\ (forall (e : Entity.t) (ph : Phase),
        Session.isWatched (Entity.session e) = false ->
        Threat.factors (calculateThreatScore (toggled e) ph)
        = Threat.factors (calculateThreatScore e ph) ++ ["User Flagged"%string]
        /\ Threat.score (calculateThreatScore (toggled e) ph)
           = Z.min 100 (Threat.score (calculateThreatScore e ph) + 5)
        /\ (Threat.score (calculateThreatScore e ph) <= 95 ->
            Threat.score (calculateThreatScore (toggled e) ph)
            = Threat.score (calculateThreatScore e ph) + 5)).
Proof.
  split; [| split].
  - intros. apply toggleWatchlist_entities.
  - intro e. destruct e as [i n tk lng lat tg st wt inv h [ac zv iw] ts tl tf].
    repeat split.
  - intros e ph H. rewrite !factors_decomp, !score_decomp.
    rewrite (rawScore_toggled e H), (allLabels_toggled e H).
    repeat split; lia.
Qed.

Lemma toggle_then_rescore_witness :
  Threat.factors (calculateThreatScore (toggled tunnelAgent) PRE_GAME)
  = Threat.factors (calculateThreatScore tunnelAgent PRE_GAME) ++ ["User Flagged"%string]
  /\ Threat.score (calculateThreatScore (toggled tunnelAgent) PRE_GAME)
     = Threat.score (calculateThreatScore tunnelAgent PRE_GAME) + 5.
Proof.
  destruct (proj2 (proj2 toggle_then_rescore) tunnelAgent PRE_GAME eq_refl)
    as [Hf [_ Hs]].
  split; [exact Hf |]. apply Hs. vm_compute. discriminate.
Defined.

(** C10 as stated fails at the clamp: an agent already at 100 stays at 100
    after the operator flags it. *)
Lemma toggle_saturated_score_unchanged :
  Session.isWatched (Entity.session saturatedAgent) = false
  /\ State.entities
       (snd (toggleWatchlist sampleTape sampleTime 0 "fan-1000"
               (initialState [saturatedAgent])))
     = [toggled saturatedAgent]
  /\ Threat.score (calculateThreatScore saturatedAgent PRE_GAME) = 100
  /\ Threat.score (calculateThreatScore (toggled saturatedAgent) PRE_GAME) = 100
  /\ Threat.score (calculateThreatScore (toggled saturatedAgent) PRE_GAME)
     <> Threat.score (calculateThreatScore saturatedAgent PRE_GAME) + 5.
Proof. repeat split; vm_compute; congruence. Qed.

(** ** The prediction queue *)

Section Predictions.

Variable toLocaleTimeString : Z -> string.

Lemma addPrediction_update_duplicate (now : Z) (e : Entity.t) (pat : string) (c : Z)
    (prev : list Prediction.t) :
  existsb (recent_pair now (Entity.id e) pat) prev = true ->
  addPrediction_update toLocaleTimeString now e pat c prev = prev.
Proof.
  intro H. unfold addPrediction_update. unfold recent_pair in H.
  cbv zeta. now rewrite H.
Qed.

Lemma addPrediction_update_inserts (now : Z) (e : Entity.t) (pat : string) (c : Z)
    (prev : list Prediction.t) :
  existsb (recent_pair now (Entity.id e) pat) prev = false ->
  addPrediction_update toLocaleTimeString now e pat c prev
  = firstn 5 (newPrediction toLocaleTimeString now e pat c :: prev).
Proof.
  intro H. unfold addPrediction_update, newPrediction. unfold recent_pair in H.
  cbv zeta. rewrite H.
  now destruct (actionInfo_of pat) as [[a pr] ic].
Qed.

Lemma addPrediction_update_length (now : Z) (e : Entity.t) (pat : string) (c : Z)
    (prev : list Prediction.t) :
  (List.length prev <= 5)%nat ->
  (List.length (addPrediction_update toLocaleTimeString now e pat c prev) <= 5)%nat.
Proof.
  intro H.
  destruct (existsb (recent_pair now (Entity.id e) pat) prev) eqn:E.
  - now rewrite addPrediction_update_duplicate.
  - rewrite addPrediction_update_inserts by assumption. apply firstn_le_length.
Qed.

Lemma filter_firstn_length {A : Type} (f : A -> bool) (n : nat) (l : list A) :
  (List.length (filter f (firstn n l)) <= List.length (filter f l))%nat.
Proof.
  revert n. induction l as [| a l IH]; intros [| n]; cbn; try lia.
  specialize (IH n). destruct (f a); cbn; lia.
Qed.

Lemma In_firstn {A : Type} (n : nat) (l : list A) (x : A) :
  In x (firstn n l) -> In x l.
Proof.
  revert n. induction l as [| a l IH]; intros [| n]; cbn; try tauto.
  intros [H | H]; [now left | right; eauto].
Qed.

Lemma filter_none {A : Type} (f : A -> bool) (l : list A) :
  (forall a, In a l -> f a = false) -> filter f l = [].
Proof.
  induction l as [| a l IH]; intro H; [reflexivity |].
  cbn. rewrite (H a (or_introl eq_refl)). apply IH. intros b Hb. apply H. now right.
Qed.

(** When a prediction is inserted, every older prediction of its pair is at
    least 10 seconds old, and stays so as the clock advances. *)
Lemma stale_stays_stale (now1 now2 : Z) (agentId pat : string) (prev : list Prediction.t) :
  existsb (recent_pair now1 agentId pat) prev = false ->
  now1 <= now2 ->
  forall p, In p prev -> recent_pair now2 agentId pat p = false.
Proof.
  intros H Hle p Hp.
  assert (H1 : recent_pair now1 agentId pat p = false).
  { destruct (recent_pair now1 agentId pat p) eqn:E; [| reflexivity].
    assert (existsb (recent_pair now1 agentId pat) prev = true)
      by (apply existsb_exists; eauto).
    congruence. }
  unfold recent_pair in *.
  destruct (String.eqb (Prediction.entityId p) agentId); [| reflexivity].
  destruct (String.eqb (Prediction.prediction p) pat); [| reflexivity].
  cbn in *. apply Z.ltb_ge in H1. apply Z.ltb_ge. lia.
Qed.

Lemma filter_filter_length {A : Type} (f g : A -> bool) (l : list A) :
  (List.length (filter f (filter g l)) <= List.length (filter f l))%nat.
Proof.
  induction l as [| a l IH]; cbn; [lia |].
  destruct (g a); cbn; destruct (f a); cbn; lia.
Qed.

Lemma filter_ext_length {A : Type} (f g : A -> bool) (l : list A) :
  (forall a, In a l -> f a = g a) ->
  List.length (filter f l) = List.length (filter g l).
Proof.
  intro H. now rewrite (filter_ext_in _ _ _ H).
Qed.

Lemma filter_In_length {A : Type} (f : A -> bool) (l : list A) (a : A) :
  In a l -> f a = true -> (1 <= List.length (filter f l))%nat.
Proof.
  intros Hin Hf.
  assert (H : In a (filter f l)) by (apply filter_In; split; assumption).
  destruct (filter f l); [contradiction | cbn; lia].
Qed.

(** Between the readings [now1] and [now2], less than 10 seconds apart,
    the list keeps three facts about a pair: each of its predictions is
    either at least 10 seconds old at [now1] or was created between the two
    readings; at most one was created between the two readings; and
    whatever bounds their creation from below keeps doing so. *)
Lemma queue_events_pair (now1 now2 : Z) (agentId pat : string)
    (evs : list QueueEvent) (l : list Prediction.t) :
  now1 <= now2 < now1 + 10000 ->
  Forall (clock_between now1 now2) evs ->
  (forall p, In p l -> same_pair agentId pat p = true ->
             Prediction.timestamp p <= now1 - 10000
             \/ now1 <= Prediction.timestamp p <= now2) ->
  (List.length (filter (fresh_pair now1 agentId pat) l) <= 1)%nat ->
  let l' := queue_events toLocaleTimeString evs l in
  (forall p, In p l' -> same_pair agentId pat p = true ->
             Prediction.timestamp p <= now1 - 10000
             \/ now1 <= Prediction.timestamp p <= now2)
  /\ (List.length (filter (fresh_pair now1 agentId pat) l') <= 1)%nat
  /\ ((forall p, In p l -> same_pair agentId pat p = true ->
                 now1 <= Prediction.timestamp p) ->
      forall p, In p l' -> same_pair agentId pat p = true ->
                now1 <= Prediction.timestamp p).
Proof.
  intros Hnow Hevs. revert l.
  induction Hevs as [| ev evs Hev Hevs IH]; intros l Hold Hone; cbn.
  - split; [| split]; auto.
  - set (l1 := queue_event toLocaleTimeString ev l).
    assert (H1 : (forall p, In p l1 -> same_pair agentId pat p = true ->
                            Prediction.timestamp p <= now1 - 10000
                            \/ now1 <= Prediction.timestamp p <= now2)
                 /\ (List.length (filter (fresh_pair now1 agentId pat) l1) <= 1)%nat
                 /\ ((forall p, In p l -> same_pair agentId pat p = true ->
                                now1 <= Prediction.timestamp p) ->
                     forall p, In p l1 -> same_pair agentId pat p = true ->
                               now1 <= Prediction.timestamp p)).
    { subst l1. destruct ev as [now e2 pat2 c | predId]; cbn [queue_event clock_between] in *.
      - destruct (existsb (recent_pair now (Entity.id e2) pat2) l) eqn:E.
        + rewrite addPrediction_update_duplicate by assumption.
          split; [| split]; auto.
        + rewrite addPrediction_update_inserts by assumption.
          set (new := newPrediction toLocaleTimeString now e2 pat2 c).
          assert (Hts : Prediction.timestamp new = now) by reflexivity.
          split; [| split].
          * intros p Hp Hs. apply In_firstn in Hp. destruct Hp as [<- | Hp].
            -- right. rewrite Hts. lia.
            -- now apply Hold.
          * etransitivity; [apply filter_firstn_length |].
            cbn [filter]. destruct (fresh_pair now1 agentId pat new) eqn:Hf;
              [| exact Hone].
            (* the new prediction is of the pair: none of the pair was
               created since [now1], or the issue would have been a
               duplicate *)
            rewrite filter_none; [cbn; lia |].
            intros q Hq. unfold fresh_pair in *.
            apply andb_true_iff in Hf. destruct Hf as [Hs _].
            destruct (same_pair agentId pat q) eqn:Hsq; [| reflexivity]. cbn.
            apply Z.leb_gt.
            assert (Hr : recent_pair now (Entity.id e2) pat2 q = false).
            { destruct (recent_pair now (Entity.id e2) pat2 q) eqn:Er; [| reflexivity].
              assert (existsb (recent_pair now (Entity.id e2) pat2) l = true)
                by (apply existsb_exists; eauto).
              congruence. }
            unfold same_pair, new, newPrediction in Hs.
            cbn [Prediction.entityId Prediction.prediction] in Hs.
            apply andb_true_iff in Hs. destruct Hs as [Hs1 Hs2].
            apply String.eqb_eq in Hs1. apply String.eqb_eq in Hs2.
            unfold recent_pair in Hr. unfold same_pair in Hsq.
            rewrite Hs1, Hs2, Hsq in Hr. cbn in Hr.
            apply Z.ltb_ge in Hr. lia.
          * intros Hlow p Hp Hs. apply In_firstn in Hp. destruct Hp as [<- | Hp].
            -- rewrite Hts. lia.
            -- now apply Hlow.
      - split; [| split].
        + intros p Hp Hs. apply filter_In in Hp. now apply Hold.
        + etransitivity; [apply filter_filter_length | exact Hone].
        + intros Hlow p Hp Hs. apply filter_In in Hp. now apply Hlow. }
    destruct H1 as [Hold1 [Hone1 Hlow1]].
    destruct (IH l1 Hold1 Hone1) as [Hold2 [Hone2 Hlow2]].
    split; [| split]; auto.
Qed.

(** C4, as the program has it.  Let a prediction for [(agentId, pattern)]
    be inserted at clock reading [now1], and the same pair be issued again
    at [now2], less than 10 seconds later.  Whatever the list is by then,
    as long as the first prediction is still in it, the second issue leaves
    the list unchanged.  Whatever was issued (at readings between the two)
    and dismissed in between, if the first prediction is still in the list,
    the list holds exactly one prediction of the pair younger than 10
    seconds at [now2]; and if the list held none of the pair before the
    insertion, it holds exactly one of the pair in all. *)
Theorem duplicate_within_cooldown_suppressed
    (now1 now2 : Z) (e e' : Entity.t) (pat : string) (c1 c2 : Z)
    (prev : list Prediction.t) (between : list QueueEvent) :
  existsb (recent_pair now1 (Entity.id e) pat) prev = false ->
  Entity.id e' = Entity.id e ->
  now1 <= now2 < now1 + 10000 ->
  Forall (clock_between now1 now2) between ->
  let first := newPrediction toLocaleTimeString now1 e pat c1 in
  let inserted := addPrediction_update toLocaleTimeString now1 e pat c1 prev in
  let live := queue_events toLocaleTimeString between inserted in
  In first inserted
  /\ (forall any : list Prediction.t,
        In first any ->
        addPrediction_update toLocaleTimeString now2 e' pat c2 any = any)
  /\ (In first live ->
      addPrediction_update toLocaleTimeString now2 e' pat c2 live = live
      /\ recent_count now2 (Entity.id e) pat
           (addPrediction_update toLocaleTimeString now2 e' pat c2 live) = 1%nat
      /\ (live_count (Entity.id e) pat prev = 0%nat ->
          live_count (Entity.id e) pat
            (addPrediction_update toLocaleTimeString now2 e' pat c2 live) = 1%nat)).
Proof.
  intros Hnew Hid Hnow Hbetween first inserted live.
  assert (Hins : inserted = first :: firstn 4 prev).
  { unfold inserted. now rewrite addPrediction_update_inserts. }
  assert (Hsame : same_pair (Entity.id e) pat first = true).
  { unfold same_pair, first, newPrediction. cbn. now rewrite !String.eqb_refl. }
  assert (Hrecent : recent_pair now2 (Entity.id e) pat first = true).
  { unfold recent_pair, first, newPrediction. cbn.
    rewrite !String.eqb_refl. cbn. apply Z.ltb_lt. lia. }
  assert (Hsupp : forall any, In first any ->
            addPrediction_update toLocaleTimeString now2 e' pat c2 any = any).
  { intros any Hin. apply addPrediction_update_duplicate.
    rewrite Hid. apply existsb_exists. eauto. }
  assert (Hfirst : In first inserted) by (rewrite Hins; now left).
  split; [exact Hfirst |]. split; [exact Hsupp |].
  intro Hlive. rewrite (Hsupp live Hlive). split; [reflexivity |].
  (* what the list held of the pair before the insertion is stale *)
  assert (Hstale : forall p, In p prev -> same_pair (Entity.id e) pat p = true ->
                             Prediction.timestamp p <= now1 - 10000).
  { intros p Hp Hs.
    pose proof (stale_stays_stale now1 now1 _ _ prev Hnew (Z.le_refl _) p Hp) as Hr.
    unfold recent_pair in Hr. unfold same_pair in Hs. rewrite Hs in Hr. cbn in Hr.
    apply Z.ltb_ge in Hr. lia. }
  assert (Hold : forall p, In p inserted -> same_pair (Entity.id e) pat p = true ->
                           Prediction.timestamp p <= now1 - 10000
                           \/ now1 <= Prediction.timestamp p <= now2).
  { intros p Hp Hs. rewrite Hins in Hp. destruct Hp as [<- | Hp].
    - right. cbn. lia.
    - left. apply Hstale; [eapply In_firstn; eauto | exact Hs]. }
  assert (Hone : (List.length (filter (fresh_pair now1 (Entity.id e) pat) inserted)
                  <= 1)%nat).
  { rewrite Hins. cbn [filter].
    rewrite (filter_none (fresh_pair now1 (Entity.id e) pat) (firstn 4 prev)).
    - destruct (fresh_pair now1 (Entity.id e) pat first); cbn; lia.
    - intros p Hp. unfold fresh_pair.
      destruct (same_pair (Entity.id e) pat p) eqn:Hs; [| reflexivity]. cbn.
      apply Z.leb_gt. apply In_firstn in Hp. pose proof (Hstale p Hp Hs). lia. }
  destruct (queue_events_pair now1 now2 (Entity.id e) pat between inserted
              Hnow Hbetween Hold Hone) as [Hold' [Hone' Hlow']].
  fold live in Hold', Hone', Hlow'.
  split.
  - unfold recent_count.
    rewrite (filter_ext_length (recent_pair now2 (Entity.id e) pat)
               (fresh_pair now1 (Entity.id e) pat) live).
    + pose proof (filter_In_length (fresh_pair now1 (Entity.id e) pat) live first Hlive)
        as Hge.
      assert (Hf : fresh_pair now1 (Entity.id e) pat first = true).
      { unfold fresh_pair. rewrite Hsame. cbn. apply Z.leb_le. lia. }
      specialize (Hge Hf). lia.
    + intros p Hp. unfold fresh_pair, recent_pair.
      change (String.eqb (Prediction.entityId p) (Entity.id e)
              && String.eqb (Prediction.prediction p) pat)%bool
        with (same_pair (Entity.id e) pat p).
      destruct (same_pair (Entity.id e) pat p) eqn:Hs; [| reflexivity]. cbn.
      destruct (Hold' p Hp Hs) as [Hst | Hfr].
      * transitivity false; [apply Z.ltb_ge; lia | symmetry; apply Z.leb_gt; lia].
      * transitivity true; [apply Z.ltb_lt; lia | symmetry; apply Z.leb_le; lia].
  - intro H0. unfold live_count in *.
    assert (Hnone : forall p, In p inserted -> same_pair (Entity.id e) pat p = true ->
                              now1 <= Prediction.timestamp p).
    { intros p Hp Hs. rewrite Hins in Hp. destruct Hp as [<- | Hp]; [cbn; lia |].
      apply In_firstn in Hp.
      assert (Hin : In p (filter (same_pair (Entity.id e) pat) prev))
        by (apply filter_In; split; assumption).
      destruct (filter (same_pair (Entity.id e) pat) prev); [contradiction | discriminate]. }
    specialize (Hlow' Hnone).
    rewrite (filter_ext_length (same_pair (Entity.id e) pat)
               (fresh_pair now1 (Entity.id e) pat) live).
    + pose proof (filter_In_length (fresh_pair now1 (Entity.id e) pat) live first Hlive)
        as Hge.
      assert (Hf : fresh_pair now1 (Entity.id e) pat first = true).
      { unfold fresh_pair. rewrite Hsame. cbn. apply Z.leb_le. lia. }
      specialize (Hge Hf). lia.
    + intros p Hp. unfold fresh_pair.
      destruct (same_pair (Entity.id e) pat p) eqn:Hs; [| reflexivity]. cbn.
      symmetry. apply Z.leb_le. now apply Hlow'.
Qed.

End Predictions.

Lemma duplicate_within_cooldown_suppressed_witness :
  let live :=
    queue_events sampleTime
      [ Issued 2000 (drinkingAgent 3) "ANOMALY_DETECTED" 50; Dismissed "fan-1000-x-1" ]
      (issueSample 0 []) in
  issueSample 5000 live = live
  /\ recent_count 5000 "fan-1000" "INTOXICATION_MONITOR" (issueSample 5000 live) = 1%nat
  /\ live_count "fan-1000" "INTOXICATION_MONITOR" (issueSample 5000 live) = 1%nat.
Proof.
  destruct (duplicate_within_cooldown_suppressed sampleTime 0 5000
              (drinkingAgent 3) (drinkingAgent 3) "INTOXICATION_MONITOR" 74 74 []
              [ Issued 2000 (drinkingAgent 3) "ANOMALY_DETECTED" 50;
                Dismissed "fan-1000-x-1" ])
    as [_ [_ Hlive]].
  - reflexivity.
  - reflexivity.
  - lia.
  - repeat constructor; cbn; lia.
  - destruct Hlive as [Hu [Hr Hl]].
    + vm_compute. right. left. reflexivity.
    + split; [exact Hu |]. split; [exact Hr | apply Hl; reflexivity].
Defined.

(** C4 as stated fails when the list still holds an older prediction of
    the pair: a prediction issued at 0 is still live when the pair is
    inserted again at 20 s; the issue at 25 s is suppressed, and the list
    holds two predictions of the pair, not one. *)
Lemma stale_prediction_makes_two :
  In (newPrediction sampleTime 20000 (drinkingAgent 3) "INTOXICATION_MONITOR" 74)
    (issueSample 20000 (issueSample 0 []))
  /\ issueSample 25000 (issueSample 20000 (issueSample 0 []))
     = issueSample 20000 (issueSample 0 [])
  /\ live_count "fan-1000" "INTOXICATION_MONITOR"
       (issueSample 25000 (issueSample 20000 (issueSample 0 []))) = 2%nat
  /\ live_count "fan-1000" "INTOXICATION_MONITOR"
       (issueSample 25000 (issueSample 20000 (issueSample 0 []))) <> 1%nat.
Proof.
  split; [left; reflexivity |].
  split; [reflexivity |].
  split; [reflexivity | vm_compute; discriminate].
Qed.

(** ** Reasoning about computations *)

Lemma returns_ret {A : Type} (a : A) (Q : A -> Prop) : Q a -> returns (ret a) Q.
Proof. intros H s. exact H. Qed.

Lemma returns_bind {A B : Type} (c : M A) (k : A -> M B) (P : A -> Prop)
    (Q : B -> Prop) :
  returns c P -> (forall a, P a -> returns (k a) Q) -> returns (bind c k) Q.
Proof.
  intros Hc Hk s. unfold bind. specialize (Hc s).
  destruct (c s) as [a s']. apply (Hk a Hc).
Qed.

Lemma returns_bind_any {A B : Type} (c : M A) (k : A -> M B) (Q : B -> Prop) :
  (forall a, returns (k a) Q) -> returns (bind c k) Q.
Proof.
  intro Hk. apply (returns_bind c k (fun _ => True)); [intro; exact I | auto].
Qed.

Lemma returns_always {A : Type} (c : M A) (Q : A -> Prop) :
  (forall a, Q a) -> returns c Q.
Proof. intros H s. apply H. Qed.

Lemma keeps_ret {A : Type} (I : State.t -> Prop) (a : A) : keeps I (ret a).
Proof. intros s H. exact H. Qed.

Lemma keeps_bind {A B : Type} (I : State.t -> Prop) (c : M A) (k : A -> M B) :
  keeps I c -> (forall a, keeps I (k a)) -> keeps I (bind c k).
Proof.
  intros Hc Hk s H. unfold bind. specialize (Hc s H).
  destruct (c s) as [a s']. apply (Hk a s' Hc).
Qed.

(** ** The tick *)

Section EngineProperties.

Variable tape : nat -> Q.
Variable Math_sqrt : Q -> Q.
Variable toLocaleTimeString : Z -> string.

Variable P : list Prediction.t -> Prop.

(** *** Steps that leave the prediction list alone *)

Lemma keeps_random : keeps (on_predictions P) (random tape).
Proof. intros s H. exact H. Qed.

Lemma keeps_addLog (now : Z) (type title desc icon : string) :
  keeps (on_predictions P) (addLog tape toLocaleTimeString now type title desc icon).
Proof. intros s H. exact H. Qed.

Ltac keeps_step :=
  first
    [ apply keeps_ret
    | apply keeps_random
    | apply keeps_addLog
    | apply keeps_bind; [| intro]
    | match goal with
      | |- keeps _ (match ?x with _ => _ end) => destruct x
      end ].

Lemma keeps_getRandomPos (zonePreference : option ZoneType) :
  keeps (on_predictions P) (getRandomPos tape zonePreference).
Proof. unfold getRandomPos. repeat keeps_step. Qed.

Lemma keeps_tick_containment (e : Entity.t) :
  keeps (on_predictions P) (tick_containment tape e).
Proof.
  unfold tick_containment. cbv zeta.
  repeat first [apply keeps_getRandomPos | keeps_step].
Qed.

Lemma keeps_tick_movement (ph : Phase) (e : Entity.t) (lng lat : Q) (t : Position.t) :
  keeps (on_predictions P) (tick_movement tape Math_sqrt ph e lng lat t).
Proof.
  unfold tick_movement. cbv zeta.
  repeat first [apply keeps_getRandomPos | keeps_step].
Qed.

Lemma keeps_tick_purchase (now : Z) (ph : Phase) (e : Entity.t) (z : Zone.t)
    (inv : list string) (se : Session.t) :
  keeps (on_predictions P) (tick_purchase tape toLocaleTimeString now ph e z inv se).
Proof. unfold tick_purchase. cbv zeta. repeat keeps_step. Qed.

Lemma keeps_tick_zoneLog (now : Z) (e : Entity.t) (z : Zone.t) (se : Session.t) :
  keeps (on_predictions P) (tick_zoneLog tape toLocaleTimeString now e z se).
Proof. unfold tick_zoneLog. repeat keeps_step. Qed.

Lemma toggleWatchlist_predictions (now : Z) (entityId : string) (s : State.t) :
  State.predictions (snd (toggleWatchlist tape toLocaleTimeString now entityId s))
  = State.predictions s.
Proof.
  unfold toggleWatchlist. unfold bind at 1.
  assert (H : forall es s0,
            State.predictions
              (snd (mapM (toggleWatchlist_entity tape toLocaleTimeString now entityId)
                      es s0)) = State.predictions s0).
  { induction es as [| e es IH]; intro s0; [reflexivity |].
    cbn [mapM]. unfold bind at 1.
    assert (He : State.predictions
                   (snd (toggleWatchlist_entity tape toLocaleTimeString now entityId e s0))
                 = State.predictions s0).
    { unfold toggleWatchlist_entity.
      destruct (String.eqb (Entity.id e) entityId); [| reflexivity].
      destruct (negb (Session.isWatched (Entity.session e))); reflexivity. }
    destruct (toggleWatchlist_entity tape toLocaleTimeString now entityId e s0)
      as [e' s1].
    unfold bind at 1. specialize (IH s1).
    destruct (mapM (toggleWatchlist_entity tape toLocaleTimeString now entityId) es s1)
      as [es' s2].
    cbn in *. congruence. }
  specialize (H (State.entities s) s).
  destruct (mapM (toggleWatchlist_entity tape toLocaleTimeString now entityId)
              (State.entities s) s) as [es' s'].
  cbn in *. exact H.
Qed.

Lemma dismissPrediction_predictions (now : Z) (predId : string) (s : State.t) :
  State.predictions (snd (dismissPrediction tape toLocaleTimeString now predId s))
  = filter (fun p => negb (String.eqb (Prediction.id p) predId)) (State.predictions s).
Proof. reflexivity. Qed.

End EngineProperties.

(** *** The prediction queue stays bounded *)

Section QueueBound.

Variable tape : nat -> Q.
Variable Math_sqrt : Q -> Q.
Variable toLocaleTimeString : Z -> string.

Lemma keeps_addPrediction (now : Z) (e : Entity.t) (pat : string) (c : Z) :
  keeps queue_bounded (addPrediction toLocaleTimeString now e pat c).
Proof.
  intros s H. unfold queue_bounded, on_predictions in *. cbn.
  now apply addPrediction_update_length.
Qed.

Ltac keeps_step :=
  first
    [ apply keeps_ret
    | apply keeps_random
    | apply keeps_addLog
    | apply keeps_addPrediction
    | apply keeps_bind; [| intro]
    | match goal with
      | |- keeps _ (match ?x with _ => _ end) => destruct x
      end ].

Lemma keeps_tick_prediction (now : Z) (e temp : Entity.t) (th : Threat.t)
    (se : Session.t) :
  keeps queue_bounded (tick_prediction tape toLocaleTimeString now e temp th se).
Proof. unfold tick_prediction, queue_bounded. cbv zeta. repeat keeps_step. Qed.

Lemma keeps_tick_entity (now : Z) (ph : Phase) (m : ThreatLevel) (e : Entity.t) :
  keeps queue_bounded (tick_entity tape Math_sqrt toLocaleTimeString now ph m e).
Proof.
  unfold tick_entity, queue_bounded. cbv zeta.
  repeat first
    [ apply keeps_tick_containment | apply keeps_tick_movement
    | apply keeps_tick_purchase | apply keeps_tick_zoneLog
    | apply keeps_tick_prediction | keeps_step ].
Qed.

Lemma keeps_tick_map (now : Z) (ph : Phase) (es : list Entity.t) (m : ThreatLevel) :
  keeps queue_bounded (tick_map tape Math_sqrt toLocaleTimeString now ph m es).
Proof.
  revert m. induction es as [| e es IH]; intro m; cbn [tick_map].
  - apply keeps_ret.
  - apply keeps_bind; [apply keeps_tick_entity |].
    intros [e' m']. apply keeps_bind; [apply IH |].
    intros [es' m'']. apply keeps_ret.
Qed.

Lemma keeps_tick (now : Z) (ph : Phase) :
  keeps queue_bounded (tick tape Math_sqrt toLocaleTimeString now ph).
Proof.
  unfold tick. apply keeps_bind.
  - intros s H. now apply keeps_tick_map.
  - intros [es m] s H. exact H.
Qed.

Lemma keeps_perform (c : Command) :
  keeps queue_bounded (perform tape Math_sqrt toLocaleTimeString c).
Proof.
  destruct c as [now ph | now i | now i]; cbn [perform].
  - apply keeps_tick.
  - intros s H. unfold queue_bounded, on_predictions in *.
    now rewrite toggleWatchlist_predictions.
  - intros s H. unfold queue_bounded, on_predictions in *.
    rewrite dismissPrediction_predictions.
    pose proof (filter_length_le
                  (fun p => negb (String.eqb (Prediction.id p) i)) (State.predictions s)).
    lia.
Qed.

Lemma run_queue_bounded (cs : list Command) (s : State.t) :
  queue_bounded s -> queue_bounded (run tape Math_sqrt toLocaleTimeString cs s).
Proof.
  revert s. induction cs as [| c cs IH]; intros s H; cbn [run]; [exact H |].
  apply IH. now apply keeps_perform.
Qed.

End QueueBound.

(** C5. Starting from a list of at most 5 predictions (the application
    mounts with none), the list holds at most 5 after any sequence of ticks
    and operator actions.  An issue that is not a duplicate prepends the new
    prediction and keeps the first five, which on a full list drops the last
    (oldest) entry whatever its priority; dismissal is a filter, so it only
    removes entries. *)
Theorem prediction_queue_never_exceeds_five :
  (forall (tape : nat -> Q) (Math_sqrt : Q -> Q) (toLocaleTimeString : Z -> string)
          (cs : list Command) (s : State.t),
     (List.length (State.predictions s) <= 5)%nat ->
     (List.length (State.predictions (run tape Math_sqrt toLocaleTimeString cs s))
      <= 5)%nat)
  /\ (forall (toLocaleTimeString : Z -> string) (now : Z) (e : Entity.t)
             (pat : string) (c : Z) (prev : list Prediction.t),
        existsb (recent_pair now (Entity.id e) pat) prev = false ->
        addPrediction_update toLocaleTimeString now e pat c prev
        = firstn 5 (newPrediction toLocaleTimeString now e pat c :: prev)
        /\ (List.length prev = 5%nat ->
            addPrediction_update toLocaleTimeString now e pat c prev
            = newPrediction toLocaleTimeString now e pat c :: removelast prev))
  /\ (forall (tape : nat -> Q) (toLocaleTimeString : Z -> string) (now : Z)
             (predId : string) (s : State.t),
        State.predictions (snd (dismissPrediction tape toLocaleTimeString now predId s))
        = filter (fun p => negb (String.eqb (Prediction.id p) predId))
            (State.predictions s)
        /\ incl (State.predictions
                   (snd (dismissPrediction tape toLocaleTimeString now predId s)))
             (State.predictions s)).
Proof.
  split; [| split].
  - intros tape Math_sqrt tls cs s H. now apply run_queue_bounded.
  - intros tls now e pat c prev H.
    rewrite (addPrediction_update_inserts tls now e pat c prev H).
    split; [reflexivity |]. intro L.
    rewrite removelast_firstn_len, L. reflexivity.
  - intros tape tls now predId s.
    rewrite dismissPrediction_predictions. split; [reflexivity |].
    intros p Hp. apply filter_In in Hp. tauto.
Qed.

Lemma prediction_queue_never_exceeds_five_witness :
  (List.length
     (State.predictions
        (run sampleTape sampleSqrt sampleTime
           [Tick 0 PRE_GAME; ToggleWatchlist 100 "fan-1000"; Tick 800 PRE_GAME;
            DismissPrediction 900 "fan-1000-INTOXICATION_MONITOR-0"]
           (initialState [cappedDrinker]))) <= 5)%nat.
Proof.
  apply (proj1 prediction_queue_never_exceeds_five).
  cbn. lia.
Defined.

(** *** Containment and the session cap *)

Section Containment.

Variable tape : nat -> Q.
Variable Math_sqrt : Q -> Q.
Variable toLocaleTimeString : Z -> string.

(** [Math.random()] returns a number in [0, 1). *)
Hypothesis tape_range : forall n : nat, (0 <= tape n /\ tape n < 1)%Q.

Lemma returns_random : returns (random tape) (fun r => (0 <= r /\ r < 1)%Q).
Proof. intro s. apply tape_range. Qed.

Lemma getRandomPos_outsideField (zonePreference : option ZoneType) :
  returns (getRandomPos tape zonePreference) outsideField.
Proof.
  assert (Hdefault : returns (getRandomPos tape None) outsideField).
  { unfold getRandomPos.
    apply returns_bind_any; intro section.
    destruct (Qltb section 0.25); [| destruct (Qltb section 0.5);
                                     [| destruct (Qltb section 0.75)]];
      (apply (returns_bind _ _ _ _ returns_random); intros rLng HLng);
      (apply (returns_bind _ _ _ _ returns_random); intros rLat HLat);
      apply returns_ret; unfold outsideField, isInRestrictedField,
        FIELD_BOUNDS.minLng, FIELD_BOUNDS.maxLng, FIELD_BOUNDS.minLat,
        FIELD_BOUNDS.maxLat; cbn [Position.longitude Position.latitude];
      Qcases. }
  destruct zonePreference as [[] |]; try exact Hdefault.
  unfold getRandomPos.
  apply returns_bind_any; intro r.
  apply (returns_bind _ _ _ _ returns_random); intros rLng HLng.
  apply (returns_bind _ _ _ _ returns_random); intros rLat HLat.
  apply returns_ret; unfold outsideField, isInRestrictedField,
    FIELD_BOUNDS.minLng, FIELD_BOUNDS.maxLng, FIELD_BOUNDS.minLat,
    FIELD_BOUNDS.maxLat; cbn [Position.longitude Position.latitude].
  destruct (Qgtb r 0.5); Qcases.
Qed.

Ltac returns_peel :=
  repeat first
    [ apply returns_ret
    | apply returns_bind_any; intro
    | match goal with
      | |- returns (match ?x with _ => _ end) _ => destruct x
      end ].

Lemma tick_containment_outside (e : Entity.t) :
  isAuthorized_of e = false ->
  returns (tick_containment tape e)
    (fun r => isInRestrictedField (fst (fst r)) (snd (fst r)) = false).
Proof.
  intro Ha. unfold tick_containment. cbv zeta. rewrite Ha. cbn [negb].
  rewrite andb_true_r.
  apply (returns_bind _ _
           (fun r => isInRestrictedField (fst (fst r)) (snd (fst r)) = false)).
  - destruct (isInRestrictedField (Entity.longitude e) (Entity.latitude e)) eqn:E.
    + apply (returns_bind _ _ _ _ (getRandomPos_outsideField None)).
      intros pos Hpos. apply returns_bind_any; intro target.
      apply returns_ret. exact Hpos.
    + apply returns_ret. exact E.
  - intros [[lng lat] target] H. cbn [fst snd] in H.
    apply returns_bind_any; intro target'. apply returns_ret. exact H.
Qed.

Lemma tick_movement_outside (ph : Phase) (e : Entity.t) (lng lat : Q) (t : Position.t) :
  isAuthorized_of e = false ->
  isInRestrictedField lng lat = false ->
  returns (tick_movement tape Math_sqrt ph e lng lat t)
    (fun r => isInRestrictedField (fst (fst r)) (snd (fst r)) = false).
Proof.
  intros Ha H. unfold tick_movement. cbv zeta. rewrite Ha. cbn [negb].
  destruct (Qltb _ (MOVEMENT_SPEED * 2)).
  - returns_peel; exact H.
  - rewrite orb_false_r.
    match goal with
    | |- context [negb (isInRestrictedField ?a ?b)] =>
        destruct (isInRestrictedField a b) eqn:E
    end; cbn [negb].
    + returns_peel; exact H.
    + match goal with
      | |- returns (if ?c then _ else _) _ => destruct c
      end; returns_peel; assumption.
Qed.

Lemma tick_purchase_cap (now : Z) (ph : Phase) (e : Entity.t) (z : Zone.t)
    (inv : list string) (se : Session.t) :
  Session.alcoholCount se <= 8 ->
  returns (tick_purchase tape toLocaleTimeString now ph e z inv se)
    (fun r => Session.alcoholCount (snd r) <= 8).
Proof.
  intro H. unfold tick_purchase. cbv zeta.
  apply returns_bind_any; intros [|]; [| apply returns_ret; exact H].
  apply returns_bind_any; intro r.
  destruct (Z.ltb_spec (Session.alcoholCount se) 8) as [Hlt | Hge].
  - returns_peel; cbn; lia.
  - rewrite andb_false_r. returns_peel; cbn; lia.
Qed.

Lemma tick_entity_ticket (now : Z) (ph : Phase) (m : ThreatLevel) (e : Entity.t) :
  returns (tick_entity tape Math_sqrt toLocaleTimeString now ph m e)
    (fun r => Entity.ticketType (fst r) = Entity.ticketType e).
Proof.
  unfold tick_entity. cbv zeta. returns_peel; reflexivity.
Qed.

Lemma tick_entity_cap (now : Z) (ph : Phase) (m : ThreatLevel) (e : Entity.t) :
  returns (tick_entity tape Math_sqrt toLocaleTimeString now ph m e)
    (fun r => cap_relation e (fst r)).
Proof.
  unfold tick_entity, cap_relation, within_cap. cbv zeta.
  apply returns_bind_any; intros [[lng lat] t].
  destruct (Entity.waitTicks e >? 0); [apply returns_ret; cbn; tauto |].
  apply returns_bind_any; intro r.
  destruct (Qgtb r 0.97 && Status_eqb (Entity.status e) st_normal);
    [apply returns_bind_any; intro; apply returns_ret; cbn; tauto |].
  apply returns_bind_any; intros [[lng' lat'] t'].
  match goal with
  | |- returns (bind (tick_purchase _ _ _ _ _ _ ?inv ?se) _) _ =>
      apply (returns_bind _ _
               (fun r => Session.alcoholCount (Entity.session e) <= 8 ->
                         Session.alcoholCount (snd r) <= 8));
      [ intro s0; intro Hcap;
        apply (tick_purchase_cap now ph e _ inv se);
        destruct (negb (includes_id _ _)); cbn; exact Hcap
      | intros [inv' se'] Hse; cbn [snd] in Hse ]
  end.
  returns_peel; cbn; tauto.
Qed.

Lemma tick_entity_contained (now : Z) (ph : Phase) (m : ThreatLevel) (e : Entity.t) :
  isAuthorized_of e = false ->
  returns (tick_entity tape Math_sqrt toLocaleTimeString now ph m e)
    (fun r => contained (fst r)).
Proof.
  intro Ha. unfold tick_entity. cbv zeta.
  apply (returns_bind _ _ _ _ (tick_containment_outside e Ha)).
  intros [[lng lat] t] H. cbn [fst snd] in H.
  destruct (Entity.waitTicks e >? 0); [apply returns_ret; exact H |].
  apply returns_bind_any; intro r.
  destruct (Qgtb r 0.97 && Status_eqb (Entity.status e) st_normal);
    [apply returns_bind_any; intro; apply returns_ret; exact H |].
  apply (returns_bind _ _ _ _ (tick_movement_outside ph e lng lat t Ha H)).
  intros [[lng' lat'] t'] H'. cbn [fst snd] in H'.
  returns_peel; exact H'.
Qed.

Lemma tick_entity_containment (now : Z) (ph : Phase) (m : ThreatLevel) (e : Entity.t) :
  returns (tick_entity tape Math_sqrt toLocaleTimeString now ph m e)
    (fun r => containment_relation e (fst r)).
Proof.
  intro s. split; [apply tick_entity_ticket |].
  intro Ha. exact (tick_entity_contained now ph m e Ha s).
Qed.

Lemma tick_map_Forall2 (R : Entity.t -> Entity.t -> Prop) (now : Z) (ph : Phase) :
  (forall m e,
     returns (tick_entity tape Math_sqrt toLocaleTimeString now ph m e)
       (fun r => R e (fst r))) ->
  forall es m,
    returns (tick_map tape Math_sqrt toLocaleTimeString now ph m es)
      (fun r => Forall2 R es (fst r)).
Proof.
  intros HR es. induction es as [| e es IH]; intro m; cbn [tick_map].
  - apply returns_ret. constructor.
  - apply (returns_bind _ _ _ _ (HR m e)).
    intros [e' m'] He. cbn [fst] in He.
    apply (returns_bind _ _ _ _ (IH m')).
    intros [es' m''] Hes. cbn [fst] in Hes.
    apply returns_ret. now constructor.
Qed.

Lemma tick_entities (now : Z) (ph : Phase) (s : State.t) :
  State.entities (snd (tick tape Math_sqrt toLocaleTimeString now ph s))
  = fst (fst (tick_map tape Math_sqrt toLocaleTimeString now ph LOW
                (State.entities s) s)).
Proof.
  unfold tick. unfold bind at 1.
  destruct (tick_map tape Math_sqrt toLocaleTimeString now ph LOW (State.entities s) s)
    as [[es m] s'].
  reflexivity.
Qed.

Lemma tick_containment_all (now : Z) (ph : Phase) (s : State.t) :
  Forall2 containment_relation (State.entities s)
    (State.entities (snd (tick tape Math_sqrt toLocaleTimeString now ph s))).
Proof.
  rewrite tick_entities.
  apply (tick_map_Forall2 _ now ph (tick_entity_containment now ph)).
Qed.

Lemma tick_cap_all (now : Z) (ph : Phase) (s : State.t) :
  Forall2 cap_relation (State.entities s)
    (State.entities (snd (tick tape Math_sqrt toLocaleTimeString now ph s))).
Proof.
  rewrite tick_entities.
  apply (tick_map_Forall2 _ now ph (tick_entity_cap now ph)).
Qed.

End Containment.

Lemma isAuthorized_of_false (e : Entity.t) :
  Entity.ticketType e <> staff -> Entity.ticketType e <> media ->
  isAuthorized_of e = false.
Proof.
  unfold isAuthorized_of. destruct (Entity.ticketType e); cbn; congruence.
Qed.

(** C3. With [Math.random()] in [0, 1), every position [getRandomPos]
    returns lies outside the exclusion rectangle; one tick maps every agent
    to an agent with the same ticket which, when that ticket is neither
    staff nor media, stands outside the exclusion rectangle, wherever it
    stood before the tick. *)
Theorem unprivileged_agents_end_tick_outside_field
    (tape : nat -> Q) (Math_sqrt : Q -> Q) (toLocaleTimeString : Z -> string) :
  (forall n : nat, (0 <= tape n /\ tape n < 1)%Q) ->
  (forall (zonePreference : option ZoneType) (s : State.t),
     isInRestrictedField
       (Position.longitude (fst (getRandomPos tape zonePreference s)))
       (Position.latitude (fst (getRandomPos tape zonePreference s))) = false)
  /\ (forall (now : Z) (ph : Phase) (m : ThreatLevel) (e : Entity.t) (s : State.t),
        Entity.ticketType e <> staff -> Entity.ticketType e <> media ->
        let e' := fst (fst (tick_entity tape Math_sqrt toLocaleTimeString now ph m e s)) in
        isInRestrictedField (Entity.longitude e') (Entity.latitude e') = false)
  /\ (forall (now : Z) (ph : Phase) (s : State.t),
        Forall2
          (fun e e' =>
             Entity.ticketType e' = Entity.ticketType e
             /\ (Entity.ticketType e <> staff -> Entity.ticketType e <> media ->
                 isInRestrictedField (Entity.longitude e') (Entity.latitude e') = false))
          (State.entities s)
          (State.entities (snd (tick tape Math_sqrt toLocaleTimeString now ph s)))).
Proof.
  intro Htape. split; [| split].
  - intros zp s. exact (getRandomPos_outsideField tape Htape zp s).
  - intros now ph m e s Hs Hm e'.
    exact (tick_entity_contained tape Math_sqrt toLocaleTimeString Htape now ph m e
             (isAuthorized_of_false e Hs Hm) s).
  - intros now ph s.
    pose proof (tick_containment_all tape Math_sqrt toLocaleTimeString Htape now ph s)
      as H.
    eapply Forall2_impl; [| exact H].
    intros e e' [Ht Hc]. split; [exact Ht |].
    intros Hs Hm. apply Hc. now apply isAuthorized_of_false.
Qed.

Lemma sampleTape_range : forall n : nat, (0 <= sampleTape n /\ sampleTape n < 1)%Q.
Proof.
  intro n. unfold sampleTape. destruct (Nat.eqb n 5); split; unfold Qle, Qlt; cbn; lia.
Qed.

Lemma unprivileged_agents_end_tick_outside_field_witness :
  isInRestrictedField (Entity.longitude fieldAgent) (Entity.latitude fieldAgent) = true
  /\ (let e' := fst (fst (tick_entity sampleTape sampleSqrt sampleTime 0 PRE_GAME LOW
                            fieldAgent (initialState [fieldAgent]))) in
      isInRestrictedField (Entity.longitude e') (Entity.latitude e') = false).
Proof.
  split; [reflexivity |].
  apply (proj1 (proj2 (unprivileged_agents_end_tick_outside_field
                         sampleTape sampleSqrt sampleTime sampleTape_range)));
    discriminate.
Defined.

(** *** Intoxication predictions *)

Lemma keeps_bind_with {A B : Type} (I : State.t -> Prop) (c : M A) (k : A -> M B)
    (Pa : A -> Prop) :
  returns c Pa -> keeps I c -> (forall a, Pa a -> keeps I (k a)) ->
  keeps I (bind c k).
Proof.
  intros Hr Hc Hk s H. unfold bind. specialize (Hr s). specialize (Hc s H).
  destruct (c s) as [a s']. apply (Hk a Hr s' Hc).
Qed.

Lemma Forall_firstn {A : Type} (P : A -> Prop) (n : nat) (l : list A) :
  Forall P l -> Forall P (firstn n l).
Proof.
  rewrite !Forall_forall. intros H x Hx. apply H. eapply In_firstn; eauto.
Qed.

Lemma Forall_filter {A : Type} (P : A -> Prop) (f : A -> bool) (l : list A) :
  Forall P l -> Forall P (filter f l).
Proof.
  rewrite !Forall_forall. intros H x Hx. apply H. apply filter_In in Hx. tauto.
Qed.

Lemma Forall2_transfer {A : Type} (P : A -> Prop) (R : A -> A -> Prop) (l l' : list A) :
  (forall a b, R a b -> P a -> P b) -> Forall2 R l l' -> Forall P l -> Forall P l'.
Proof.
  intros HR H. induction H as [| a b l l' Hab _ IH]; intro Hl; [constructor |].
  inversion Hl; subst. constructor; eauto.
Qed.

Lemma highRisk_not_intoxication (i : Z) :
  array_at [ "ZONE_BREACH_IMMINENT"; "ALTERCATION_RISK"; "FIELD_RUSH_VECTOR" ]%string i
  <> "INTOXICATION_MONITOR"%string.
Proof.
  unfold array_at. destruct (i <? 0); [discriminate |].
  destruct (Z.to_nat i) as [| [| [| [| n]]]]; cbn; discriminate.
Qed.

Section Confidence.

Variable tape : nat -> Q.
Variable Math_sqrt : Q -> Q.
Variable toLocaleTimeString : Z -> string.

Lemma addPrediction_update_confidence (now : Z) (e : Entity.t) (pat : string) (c : Z)
    (prev : list Prediction.t) :
  choice_ok (pat, c) -> Forall confidence_ok prev ->
  Forall confidence_ok (addPrediction_update toLocaleTimeString now e pat c prev).
Proof.
  intros Hok H.
  destruct (existsb (recent_pair now (Entity.id e) pat) prev) eqn:E.
  - now rewrite addPrediction_update_duplicate.
  - rewrite addPrediction_update_inserts by assumption.
    apply Forall_firstn. constructor; [exact Hok | exact H].
Qed.

Lemma keeps_addPrediction_confidence (now : Z) (e : Entity.t) (pat : string) (c : Z) :
  choice_ok (pat, c) ->
  keeps (on_predictions (Forall confidence_ok))
    (addPrediction toLocaleTimeString now e pat c).
Proof.
  intros Hok s H. unfold on_predictions in *. cbn.
  now apply addPrediction_update_confidence.
Qed.

Ltac frame_step :=
  first
    [ apply keeps_ret
    | apply keeps_random
    | apply keeps_addLog
    | apply keeps_getRandomPos
    | apply keeps_tick_containment
    | apply keeps_tick_movement
    | apply keeps_tick_purchase
    | apply keeps_tick_zoneLog
    | apply keeps_bind; [| intro]
    | match goal with
      | |- keeps _ (match ?x with _ => _ end) => destruct x
      end ].

Lemma tick_prediction_confidence (now : Z) (e temp : Entity.t) (th : Threat.t)
    (se : Session.t) :
  Session.alcoholCount se <= 8 ->
  keeps (on_predictions (Forall confidence_ok))
    (tick_prediction tape toLocaleTimeString now e temp th se).
Proof.
  intro Hcap. unfold tick_prediction.
  apply keeps_bind; [repeat frame_step |].
  intros [|]; [| apply keeps_ret].
  apply (keeps_bind_with _ _ _ choice_ok).
  - destruct (Threat.score th >=? 60).
    + apply returns_bind_any; intro r. apply returns_bind_any; intro r'.
      apply returns_ret. intro Hpat. cbn in Hpat.
      now apply highRisk_not_intoxication in Hpat.
    + destruct (Z.geb_spec (Session.alcoholCount se) 3) as [Hge | Hlt].
      * apply returns_ret. intros _. cbn [snd]. lia.
      * destruct (History.priorIncidents (Entity.history e) >? 0);
          apply returns_bind_any; intro r; apply returns_ret; intro Hpat;
          cbn in Hpat; discriminate.
  - repeat frame_step.
  - intros [pat c] Hok. now apply keeps_addPrediction_confidence.
Qed.

Lemma tick_entity_confidence (now : Z) (ph : Phase) (m : ThreatLevel) (e : Entity.t) :
  within_cap e ->
  keeps (on_predictions (Forall confidence_ok))
    (tick_entity tape Math_sqrt toLocaleTimeString now ph m e).
Proof.
  intro Hcap. unfold tick_entity. cbv zeta.
  apply keeps_bind; [apply keeps_tick_containment |]. intros [[lng lat] t].
  destruct (Entity.waitTicks e >? 0); [apply keeps_ret |].
  apply keeps_bind; [apply keeps_random |]. intro r.
  destruct (Qgtb r 0.97 && Status_eqb (Entity.status e) st_normal);
    [repeat frame_step |].
  apply keeps_bind; [apply keeps_tick_movement |]. intros [[lng' lat'] t'].
  apply (keeps_bind_with _ _ _ (fun r => Session.alcoholCount (snd r) <= 8)).
  - apply tick_purchase_cap.
    destruct (negb (includes_id _ _)); cbn; exact Hcap.
  - apply keeps_tick_purchase.
  - intros [inv se] Hse. cbn [snd] in Hse.
    apply keeps_bind; [apply keeps_tick_zoneLog |]. intros _.
    apply keeps_bind; [apply keeps_random |]. intro r'.
    apply keeps_bind; [repeat frame_step |]. intro st.
    apply keeps_bind; [now apply tick_prediction_confidence |]. intros _.
    apply keeps_ret.
Qed.

Lemma tick_map_confidence (now : Z) (ph : Phase) (es : list Entity.t) (m : ThreatLevel) :
  Forall within_cap es ->
  keeps (on_predictions (Forall confidence_ok))
    (tick_map tape Math_sqrt toLocaleTimeString now ph m es).
Proof.
  intro H. revert m. induction H as [| e es He _ IH]; intro m; cbn [tick_map].
  - apply keeps_ret.
  - apply keeps_bind; [now apply tick_entity_confidence |].
    intros [e' m']. apply keeps_bind; [apply IH |].
    intros [es' m'']. apply keeps_ret.
Qed.

Lemma tick_capped (now : Z) (ph : Phase) :
  keeps capped (tick tape Math_sqrt toLocaleTimeString now ph).
Proof.
  intros s [He Hp]. split.
  - eapply Forall2_transfer; [| apply tick_cap_all | exact He].
    intros a b Hab. exact Hab.
  - pose proof (tick_map_confidence now ph (State.entities s) LOW He s Hp) as H.
    unfold tick. unfold bind at 1.
    destruct (tick_map tape Math_sqrt toLocaleTimeString now ph LOW (State.entities s) s)
      as [[es m] s'].
    exact H.
Qed.

Lemma toggleWatchlist_capped (now : Z) (entityId : string) :
  keeps capped (toggleWatchlist tape toLocaleTimeString now entityId).
Proof.
  intros s [He Hp]. split.
  - rewrite toggleWatchlist_entities. apply Forall_map.
    eapply Forall_impl; [| exact He].
    intros e H. destruct (String.eqb (Entity.id e) entityId); exact H.
  - unfold on_predictions in *. now rewrite toggleWatchlist_predictions.
Qed.

Lemma dismissPrediction_capped (now : Z) (predId : string) :
  keeps capped (dismissPrediction tape toLocaleTimeString now predId).
Proof.
  intros s [He Hp]. split; [exact He |].
  unfold on_predictions in *. rewrite dismissPrediction_predictions.
  now apply Forall_filter.
Qed.

Lemma run_capped (cs : list Command) (s : State.t) :
  capped s -> capped (run tape Math_sqrt toLocaleTimeString cs s).
Proof.
  revert s. induction cs as [| c cs IH]; intros s H; cbn [run]; [exact H |].
  apply IH. destruct c as [now ph | now i | now i]; cbn [perform].
  - now apply tick_capped.
  - now apply toggleWatchlist_capped.
  - now apply dismissPrediction_capped.
Qed.

Lemma tick_prediction_below_gate (now : Z) (e temp : Entity.t) (th : Threat.t)
    (se : Session.t) (s : State.t) :
  Threat.score th < 40 ->
  tick_prediction tape toLocaleTimeString now e temp th se s = (tt, s).
Proof.
  intro H. unfold tick_prediction.
  destruct (Z.geb_spec (Threat.score th) 40); [lia | reflexivity].
Qed.

Lemma tick_prediction_intoxication (now : Z) (e temp : Entity.t) (th : Threat.t)
    (se : Session.t) (s : State.t) :
  40 <= Threat.score th < 60 ->
  3 <= Session.alcoholCount se ->
  Qgtb (tape (State.rng s)) 0.96 = true ->
  tick_prediction tape toLocaleTimeString now e temp th se s
  = addPrediction toLocaleTimeString now temp "INTOXICATION_MONITOR"
      (50 + 8 * Session.alcoholCount se) (State.set_rng (S (State.rng s)) s).
Proof.
  intros Hs Hd Hg. unfold tick_prediction.
  destruct (Z.geb_spec (Threat.score th) 40); [| lia].
  destruct (Z.geb_spec (Threat.score th) 60); [lia |].
  destruct (Z.geb_spec (Session.alcoholCount se) 3); [| lia].
  unfold bind, random, ret. rewrite Hg.
  now rewrite (Z.mul_comm (Session.alcoholCount se) 8).
Qed.

End Confidence.

(** C9. The prediction branch does nothing when the threat score is below
    40.  When it fires (score at least 40, draw above 0.96) with the score
    below 60 and at least 3 session drinks, it issues INTOXICATION_MONITOR
    with confidence 50 + 8 * drinks, unclamped.  A tick of a heavy drinker
    at the cap of 8 drinks issues it with confidence 114; and since a tick
    never takes the drinks of an agent past 8, every INTOXICATION_MONITOR
    prediction in the list stays within 114 after any sequence of ticks and
    operator actions. *)
Theorem intoxication_monitor_confidence
    (tape : nat -> Q) (Math_sqrt : Q -> Q) (toLocaleTimeString : Z -> string) :
  (forall (now : Z) (e temp : Entity.t) (th : Threat.t) (se : Session.t) (s : State.t),
     Threat.score th < 40 ->
     tick_prediction tape toLocaleTimeString now e temp th se s = (tt, s))
  /\ (forall (now : Z) (e temp : Entity.t) (th : Threat.t) (se : Session.t)
             (s : State.t),
        40 <= Threat.score th < 60 ->
        3 <= Session.alcoholCount se ->
        Qgtb (tape (State.rng s)) 0.96 = true ->
        tick_prediction tape toLocaleTimeString now e temp th se s
        = addPrediction toLocaleTimeString now temp "INTOXICATION_MONITOR"
            (50 + 8 * Session.alcoholCount se) (State.set_rng (S (State.rng s)) s))
  /\ (forall (cs : list Command) (s : State.t),
        Forall (fun e => Session.alcoholCount (Entity.session e) <= 8)
          (State.entities s) ->
        Forall (fun p => Prediction.prediction p = "INTOXICATION_MONITOR"%string ->
                         Prediction.confidence p <= 114)
          (State.predictions s) ->
        Forall (fun e => Session.alcoholCount (Entity.session e) <= 8)
          (State.entities (run tape Math_sqrt toLocaleTimeString cs s))
        /\ Forall (fun p => Prediction.prediction p = "INTOXICATION_MONITOR"%string ->
                            Prediction.confidence p <= 114)
             (State.predictions (run tape Math_sqrt toLocaleTimeString cs s)))
  /\ map (fun p => (Prediction.prediction p, Prediction.confidence p))
       (State.predictions
          (snd (tick sampleTape sampleSqrt sampleTime 0 PRE_GAME
                  (initialState [cappedDrinker]))))
     = [("INTOXICATION_MONITOR"%string, 114)].
Proof.
  split; [| split; [| split]].
  - intros. now apply tick_prediction_below_gate.
  - intros. now apply tick_prediction_intoxication.
  - intros cs s He Hp.
    exact (run_capped tape Math_sqrt toLocaleTimeString cs s (conj He Hp)).
  - vm_compute. reflexivity.
Qed.

Lemma intoxication_monitor_confidence_witness :
  tick_prediction sampleTape sampleTime 0 cappedDrinker cappedDrinker
    (calculateThreatScore cappedDrinker PRE_GAME) (Entity.session cappedDrinker)
    (State.set_rng 5 (initialState [cappedDrinker]))
  = addPrediction sampleTime 0 cappedDrinker "INTOXICATION_MONITOR" 114
      (State.set_rng 6 (initialState [cappedDrinker])).
Proof.
  apply (proj1 (proj2 (intoxication_monitor_confidence sampleTape sampleSqrt sampleTime))
           0 cappedDrinker cappedDrinker (calculateThreatScore cappedDrinker PRE_GAME)
           (Entity.session cappedDrinker) (State.set_rng 5 (initialState [cappedDrinker]))).
  - vm_compute. split; [discriminate | reflexivity].
  - vm_compute. discriminate.
  - vm_compute. reflexivity.
Defined.

(** * Further properties of the engine *)

(** ** Geofence index *)

Lemma inBox_false_iff (x0 x1 y0 y1 x y : Q) :
  inBox x0 x1 y0 y1 x y = false <-> (x < x0 \/ x1 <= x \/ y < y0 \/ y1 <= y)%Q.
Proof.
  unfold inBox.
  destruct (Qle_bool_spec x0 x), (Qltb_spec x x1), (Qle_bool_spec y0 y), (Qltb_spec y y1);
    simpl; split; intros; try discriminate; try reflexivity; lra.
Qed.

(** X1. On an axis-parallel rectangle the ray-casting test is a half-open
    box test: the west and south edges belong to the rectangle, the east
    and north edges do not.  A polygon without vertices contains no
    point. *)
Theorem isPointInPolygon_rectangle_half_open (x0 x1 y0 y1 x y : Q) :
  (x0 < x1)%Q -> (y0 < y1)%Q ->
  (isPointInPolygon (x, y) [ (x0, y1); (x1, y1); (x1, y0); (x0, y0); (x0, y1) ] = true
   <-> (x0 <= x /\ x < x1) /\ (y0 <= y /\ y < y1))%Q
  /\ isPointInPolygon (x, y) [] = false.
Proof.
  intros Hx Hy. split; [| reflexivity].
  change [ (x0, y1); (x1, y1); (x1, y0); (x0, y0); (x0, y1) ] with (rect x0 x1 y0 y1).
  rewrite (isPointInPolygon_rect x0 x1 y0 y1 x y Hx Hy), inBox_spec. tauto.
Qed.

Lemma isPointInPolygon_rectangle_half_open_witness :
  isPointInPolygon (0, 0)%Q [ (0, 1); (1, 1); (1, 0); (0, 0); (0, 1) ]%Q = true
  /\ isPointInPolygon (1, 0)%Q [ (0, 1); (1, 1); (1, 0); (0, 0); (0, 1) ]%Q = false.
Proof.
  split.
  - apply (proj1 (isPointInPolygon_rectangle_half_open 0 1 0 1 0 0
                    ltac:(reflexivity) ltac:(reflexivity))).
    repeat split; unfold Qle, Qlt; cbn; lia.
  - destruct (isPointInPolygon (1, 0)%Q [ (0, 1); (1, 1); (1, 0); (0, 0); (0, 1) ]%Q)
      eqn:E; [| reflexivity].
    apply (proj1 (isPointInPolygon_rectangle_half_open 0 1 0 1 1 0
                    ltac:(reflexivity) ltac:(reflexivity))) in E.
    destruct E as [[_ E] _]. unfold Qlt in E; cbn in E. lia.
Defined.

(** The bowl also covers the north VIP suites. *)
Lemma bowl_covers_vip_north (lng lat : Q) :
  inBox (-86.1650) (-86.1622) 39.7611 39.7615 lng lat = true ->
  inBox (-86.1655) (-86.1617) 39.7588 39.7615 lng lat = true.
Proof. rewrite !inBox_spec. lra. Qed.

Lemma getZoneForPoint_reduced (lng lat : Q) :
  getZoneForPoint lng lat =
  if inBox (-86.1655) (-86.1617) 39.7588 39.7615 lng lat then Feature.properties bowl
  else if inBox (-86.1650) (-86.1622) 39.7587 39.7591 lng lat then Feature.properties vip_south
  else if inBox (-86.1620) (-86.1615) 39.7590 39.7612 lng lat then Feature.properties concourse_e
  else if inBox (-86.1657) (-86.1652) 39.7590 39.7612 lng lat then Feature.properties concourse_w
  else outsideZone.
Proof.
  rewrite getZoneForPoint_boxes.
  destruct (inBox (-86.1655) (-86.1617) 39.7588 39.7615 lng lat) eqn:Hb; [reflexivity |].
  destruct (inBox (-86.1648) (-86.1624) 39.7594 39.7608 lng lat) eqn:Hf.
  { rewrite bowl_covers in Hb by (now left). discriminate. }
  destruct (inBox (-86.1650) (-86.1622) 39.7611 39.7615 lng lat) eqn:Hn.
  { rewrite bowl_covers_vip_north in Hb by assumption. discriminate. }
  destruct (inBox (-86.1650) (-86.1622) 39.7587 39.7591 lng lat); [reflexivity |].
  destruct (inBox (-86.1638) (-86.1634) 39.7588 39.7594 lng lat) eqn:Ht.
  { rewrite bowl_covers in Hb by (now right). discriminate. }
  reflexivity.
Qed.

Ltac box_case :=
  match goal with
  | |- context [inBox ?a ?b ?c ?d ?x ?y] =>
      let H := fresh "Hbox" in
      destruct (inBox a b c d x y) eqn:H;
      [apply inBox_spec in H | apply inBox_false_iff in H]; cbv iota
  end.


Lemma getRandomPos_concourse_value (tape : nat -> Q) (s : State.t) :
  fst (getRandomPos tape (Some zt_concourse) s)
  = Position.mk
      (if Qgtb (tape (State.rng s)) 0.5
       then -86.1618 + tape (S (State.rng s)) * 0.0003
       else -86.1654 + tape (S (State.rng s)) * 0.0003)%Q
      (39.7592 + tape (S (S (State.rng s))) * 0.0018)%Q.
Proof. reflexivity. Qed.

(** X3. A position sampled with the concourse preference, read up to the
    rounding of double precision (any point within [coordinate_tolerance]
    of the exact sums).  On the west side the zone lookup always answers
    the Stadium Bowl, and the point lies inside the West Concourse polygon
    when the longitude draw is below 2/3 and outside it when the draw is
    above 2/3.  On the east side the point lies inside the East Concourse
    polygon; the lookup answers the East Concourse when the longitude draw
    is above 1/3 and the Stadium Bowl when it is below.  So the lookup
    answers a concourse only for east-side samples with a longitude draw
    above 1/3.  Draws within [draw_margin] of 1/3, 2/3 and 1 are left
    open: there the rounding decides. *)
Theorem getRandomPos_concourse_zone (tape : nat -> Q) (s : State.t) (lng lat : Q) :
  (forall n : nat, (0 <= tape n /\ tape n < 1)%Q) ->
  let pos := fst (getRandomPos tape (Some zt_concourse) s) in
  let isEast := Qgtb (tape (State.rng s)) 0.5 in
  let rLng := tape (S (State.rng s)) in
  within coordinate_tolerance pos lng lat ->
  let zone := getZoneForPoint lng lat in
  (isEast = false ->
   zone = Feature.properties bowl
   /\ ((rLng <= (2 # 3) - draw_margin)%Q ->
       isPointInPolygon (lng, lat) (Feature.coordinates concourse_w) = true)
   /\ (((2 # 3) + draw_margin <= rLng)%Q ->
       isPointInPolygon (lng, lat) (Feature.coordinates concourse_w) = false))
  /\ (isEast = true ->
      ((rLng <= 1 - draw_margin)%Q ->
       isPointInPolygon (lng, lat) (Feature.coordinates concourse_e) = true)
      /\ (((1 # 3) + draw_margin <= rLng /\ rLng <= 1 - draw_margin)%Q ->
          zone = Feature.properties concourse_e)
      /\ ((rLng <= (1 # 3) - draw_margin)%Q -> zone = Feature.properties bowl))
  /\ (Zone.zoneType zone = zt_concourse ->
      isEast = true /\ ((1 # 3) - draw_margin < rLng)%Q).
Proof.
  intros Htape pos isEast rLng Hnear zone. subst zone isEast rLng.
  unfold within, coordinate_tolerance in Hnear. subst pos.
  rewrite getRandomPos_concourse_value in Hnear.
  cbn [Position.longitude Position.latitude] in Hnear.
  destruct Hnear as [Hx0 [Hx1 [Hy0 Hy1]]].
  pose proof (Htape (S (State.rng s))) as H1.
  pose proof (Htape (S (S (State.rng s)))) as H2.
  unfold draw_margin.
  change (Feature.coordinates concourse_e) with (rect (-86.1620) (-86.1615) 39.7590 39.7612).
  change (Feature.coordinates concourse_w) with (rect (-86.1657) (-86.1652) 39.7590 39.7612).
  rewrite !isPointInPolygon_rect by lra.
  rewrite getZoneForPoint_reduced.
  assert (Hvip : inBox (-86.1650) (-86.1622) 39.7587 39.7591 lng lat = false)
    by (apply inBox_false_iff; lra).
  rewrite Hvip.
  destruct (Qgtb (tape (State.rng s)) 0.5).
  - (* east side: the western concourse is out of reach *)
    assert (Hw : inBox (-86.1657) (-86.1652) 39.7590 39.7612 lng lat = false)
      by (apply inBox_false_iff; lra).
    rewrite Hw. split; [discriminate |].
    repeat box_case;
      unfold bowl, concourse_e, outsideZone;
      cbn [Feature.properties Zone.zoneType];
      repeat split; intros; try discriminate; try reflexivity;
      try lra; exfalso; lra.
  - (* west side: always inside the bowl *)
    assert (Hb : inBox (-86.1655) (-86.1617) 39.7588 39.7615 lng lat = true)
      by (apply inBox_spec; lra).
    rewrite Hb.
    repeat box_case;
      unfold bowl; cbn [Feature.properties Zone.zoneType];
      repeat split; intros; try discriminate; try reflexivity;
      try lra; exfalso; lra.
Qed.

Lemma getRandomPos_concourse_zone_witness :
  getZoneForPoint
    (Position.longitude (fst (getRandomPos sampleTape (Some zt_concourse)
                                (initialState []))))
    (Position.latitude (fst (getRandomPos sampleTape (Some zt_concourse)
                               (initialState []))))
  = Feature.properties bowl.
Proof.
  refine (proj1 (proj1 (getRandomPos_concourse_zone sampleTape (initialState [])
                          _ _ sampleTape_range _)
                  eq_refl)).
  vm_compute. repeat split; discriminate.
Defined.

(** ** Phase clock *)

Lemma clock_valid_reading (i : nat) (t : Z) :
  clock_valid i t -> In (i, t) clock_readings.
Proof.
  unfold clock_valid. intro H. unfold clock_readings.
  apply in_flat_map. exists i. split.
  - apply in_seq. split; [lia |]. cbn [Nat.add].
    destruct (Nat.lt_ge_cases i (List.length GAME_PHASES)) as [Hlt | Hge]; [exact Hlt |].
    unfold phaseDuration in H. apply nth_error_None in Hge. rewrite Hge in H. lia.
  - apply in_map_iff. exists (Z.to_nat t). split.
    + f_equal. lia.
    + apply in_seq. lia.
Qed.

Lemma clock_eqb_eq (a b : nat * Z) : clock_eqb a b = true -> a = b.
Proof.
  destruct a as [i t], b as [j u]. unfold clock_eqb. cbn [fst snd].
  intro H. apply andb_true_iff in H. destruct H as [Hi Ht].
  apply Nat.eqb_eq in Hi. apply Z.eqb_eq in Ht. congruence.
Qed.

Lemma clock_period_all :
  forallb
    (fun c => match advancePhase_n 245 c with
              | Some c' => clock_eqb c' c
              | None => false
              end) clock_readings = true.
Proof. vm_compute. reflexivity. Qed.

Lemma clock_phase_length_all :
  forallb
    (fun i => match advancePhase_n (Z.to_nat (phaseDuration i)) (i, 0) with
              | Some c' => clock_eqb c' (Nat.modulo (i + 1) 8, 0)
              | None => false
              end) (seq 0 8) = true.
Proof. vm_compute. reflexivity. Qed.

(** X4. From a legal reading of the phase clock (an index of the table and
    a tick count below that phase's duration) a tick never fails and gives
    a legal reading: the tick count goes up by one, or, on reaching the
    duration, the index moves to the next phase, POST_GAME wrapping to
    PRE_GAME, with the count back at 0.  Each phase started at 0 lasts
    exactly its duration, and the clock repeats every 245 ticks.  Past the
    end of the table the tick fails. *)
Theorem phase_clock_cycle (gamePhaseIndex : nat) (phaseTick : Z) :
  clock_valid gamePhaseIndex phaseTick ->
  (exists i' t',
     advancePhase gamePhaseIndex phaseTick = Some (i', t')
     /\ clock_valid i' t'
     /\ ((i' = gamePhaseIndex /\ t' = phaseTick + 1
          /\ phaseTick + 1 < phaseDuration gamePhaseIndex)
         \/ (i' = Nat.modulo (gamePhaseIndex + 1) 8 /\ t' = 0
             /\ phaseTick + 1 = phaseDuration gamePhaseIndex)))
  /\ advancePhase_n (Z.to_nat (phaseDuration gamePhaseIndex)) (gamePhaseIndex, 0)
     = Some (Nat.modulo (gamePhaseIndex + 1) 8, 0)
  /\ advancePhase_n 245 (gamePhaseIndex, phaseTick) = Some (gamePhaseIndex, phaseTick)
  /\ (forall (i : nat) (t : Z), (8 <= i)%nat -> advancePhase i t = None).
Proof.
  intro Hv.
  assert (Hi : (gamePhaseIndex < 8)%nat).
  { destruct (Nat.lt_ge_cases gamePhaseIndex 8) as [Hlt | Hge]; [exact Hlt |].
    unfold clock_valid, phaseDuration in Hv.
    assert (Hn : nth_error GAME_PHASES gamePhaseIndex = None)
      by (apply nth_error_None; exact Hge).
    rewrite Hn in Hv. lia. }
  split; [| split; [| split]].
  - unfold clock_valid, phaseDuration in *. unfold advancePhase.
    do 8 (destruct gamePhaseIndex as [| gamePhaseIndex]; [
      cbn [nth_error GAME_PHASES GamePhase.duration] in *;
      match goal with
      | |- context [?a >=? ?b] => destruct (Z.geb_spec a b)
      end;
      eexists; eexists; (split; [reflexivity |]);
      cbn [nth_error GAME_PHASES GamePhase.duration Nat.modulo Nat.add List.length];
      (split; [first [lia | vm_compute; split; [discriminate | reflexivity]]
              | first [left; repeat split; lia | right; repeat split; lia]]) |]).
    lia.
  - pose proof clock_phase_length_all as H.
    rewrite forallb_forall in H.
    specialize (H gamePhaseIndex ltac:(apply in_seq; lia)).
    destruct (advancePhase_n _ _) as [c' |]; [| discriminate].
    apply clock_eqb_eq in H. now rewrite H.
  - pose proof clock_period_all as H.
    rewrite forallb_forall in H.
    specialize (H _ (clock_valid_reading _ _ Hv)).
    destruct (advancePhase_n 245 _) as [c' |]; [| discriminate].
    apply clock_eqb_eq in H. now rewrite H.
  - intros i t Hge. unfold advancePhase.
    assert (Hn : nth_error GAME_PHASES i = None)
      by (apply nth_error_None; exact Hge).
    now rewrite Hn.
Qed.

Lemma phase_clock_cycle_witness :
  advancePhase_n 245 (4%nat, 24) = Some (4%nat, 24).
Proof.
  apply (proj1 (proj2 (proj2 (phase_clock_cycle 4 24 ltac:(vm_compute; split; [discriminate | reflexivity]))))).
Defined.

(** ** Entity generator *)

Lemma Qfloor_range (a b : Z) (x : Q) :
  (inject_Z a <= x)%Q -> (x < inject_Z b)%Q -> a <= Qfloor x < b.
Proof.
  intros Ha Hb. split.
  - rewrite <- (Qfloor_Z a). now apply Qfloor_resp_le.
  - rewrite Zlt_Qlt. eapply Qle_lt_trans; [apply Qfloor_le | exact Hb].
Qed.

Lemma string_of_Z_inj (a b : Z) : string_of_Z a = string_of_Z b -> a = b.
Proof.
  unfold string_of_Z. intro H.
  apply (f_equal NilEmpty.int_of_string) in H. rewrite !NilEmpty.isi in H.
  injection H as H. now apply to_int_inj.
Qed.

Lemma append_inv_head (s a b : string) : (s ++ a = s ++ b)%string -> a = b.
Proof.
  induction s as [| c s IH]; cbn [append]; intro H; [exact H |].
  injection H as H. now apply IH.
Qed.

Lemma fanId_inj (i j : Z) : fanId i = fanId j -> i = j.
Proof.
  unfold fanId. intro H. apply append_inv_head in H.
  apply string_of_Z_inj in H. lia.
Qed.

Lemma ticket_at_In (i : Z) : In (ticket_at i) TICKET_TYPES.
Proof.
  unfold ticket_at. destruct (i <? 0); [now left |].
  destruct (Nat.lt_ge_cases (Z.to_nat i) (List.length TICKET_TYPES)) as [Hlt | Hge].
  - now apply nth_In.
  - rewrite nth_overflow by exact Hge. now left.
Qed.

Section Generator.

Variable tape : nat -> Q.

Lemma generateEntity_fresh (i : Z) :
  returns (generateEntity tape i) (freshly_generated i).
Proof.
  unfold generateEntity. cbv zeta.
  repeat first
    [ apply returns_bind_any; intro
    | match goal with
      | |- returns (if ?c then _ else _) _ => destruct c
      end ].
  all: apply returns_ret; repeat split.
Qed.

Hypothesis tape_range : forall n : nat, (0 <= tape n /\ tape n < 1)%Q.

Lemma generateEntity_well_drawn (i : Z) :
  returns (generateEntity tape i) well_drawn.
Proof.
  unfold generateEntity. cbv zeta.
  do 3 (apply returns_bind_any; intro).
  apply (returns_bind _ _ _ _ (getRandomPos_outsideField tape tape_range _)).
  intros pos Hpos.
  do 2 (apply returns_bind_any; intro).
  apply (returns_bind _ _ _ _ (getRandomPos_outsideField tape tape_range None)).
  intros target Htarget.
  apply (returns_bind _ _ (fun n => 0 <= n <= 3)).
  { match goal with
    | |- returns (if ?c then _ else _) _ => destruct c
    end; [| apply returns_ret; lia].
    apply (returns_bind _ _ _ _ (returns_random tape tape_range)).
    intros r [Hr0 Hr1]. apply returns_ret.
    assert (H : 0 <= Qfloor (r * 3) < 3).
    { apply Qfloor_range; [change (inject_Z 0) with 0%Q
                          | change (inject_Z 3) with 3%Q]; lra. }
    lia. }
  intros n Hn.
  apply returns_bind_any; intro w. apply returns_bind_any; intro r.
  apply returns_ret. unfold well_drawn, contained. cbn.
  repeat split; try assumption; try lia. apply ticket_at_In.
Qed.

End Generator.

Lemma generateEntities_loop_spec (tape : nat -> Q) (P : Z -> Entity.t -> Prop) :
  (forall i, returns (generateEntity tape i) (P i)) ->
  forall (n : nat) (i : Z) (acc : list Entity.t),
    returns (generateEntities_loop tape n i acc)
      (fun es => exists new,
                   es = acc ++ new
                   /\ Forall2 P (map (fun k => i + Z.of_nat k) (seq 0 n)) new).
Proof.
  intros HP n. induction n as [| n IH]; intros i acc; cbn [generateEntities_loop].
  - apply returns_ret. exists []. split; [now rewrite app_nil_r | constructor].
  - apply (returns_bind _ _ _ _ (HP i)). intros e He.
    intro s. destruct (IH (i + 1) (push acc e) s) as [new [Heq Hall]].
    exists (e :: new). split.
    + rewrite Heq. unfold push. now rewrite <- app_assoc.
    + cbn [seq map]. constructor.
      * now rewrite Z.add_0_r.
      * rewrite <- seq_shift, map_map.
        erewrite map_ext; [exact Hall |].
        intro k. cbv beta. lia.
Qed.

Lemma Forall2_length_eq {A B : Type} (R : A -> B -> Prop) (l : list A) (l' : list B) :
  Forall2 R l l' -> List.length l = List.length l'.
Proof. induction 1; cbn; congruence. Qed.

Lemma Forall2_map_eq {A B C : Type} (f : A -> C) (g : B -> C) (l : list A) (l' : list B) :
  Forall2 (fun a b => g b = f a) l l' -> map g l' = map f l.
Proof. induction 1; cbn; congruence. Qed.

Lemma Forall2_right {A B : Type} (P : B -> Prop) (R : A -> B -> Prop)
    (l : list A) (l' : list B) :
  (forall a b, R a b -> P b) -> Forall2 R l l' -> Forall P l'.
Proof. intros H. induction 1; constructor; eauto. Qed.

(** X5. [generateEntities(count)] returns [count] entities, whatever the
    random draws; the entity at index [k] has the id fan-(1000 + k), so the
    ids are pairwise distinct; every entity starts in status normal with no
    wait, an empty inventory, no drinks, no visited zone, the operator flag
    off, and risk score 0 at level LOW with no factor. *)
Theorem generateEntities_population (tape : nat -> Q) (count : nat) (s : State.t) :
  let es := fst (generateEntities tape count s) in
  List.length es = count
  /\ map Entity.id es = map (fun k => fanId (Z.of_nat k)) (seq 0 count)
  /\ NoDup (map Entity.id es)
  /\ Forall (fun e =>
               Entity.status e = st_normal /\ Entity.waitTicks e = 0
               /\ Entity.inventory e = []
               /\ Entity.session e = Session.mk 0 [] false
               /\ Entity.threatScore e = 0 /\ Entity.threatLevel e = LOW
               /\ Entity.threatFactors e = []) es.
Proof.
  intro es. subst es. unfold generateEntities.
  destruct (generateEntities_loop_spec tape freshly_generated
              (generateEntity_fresh tape) count 0 [] s) as [new [Heq Hall]].
  rewrite Heq. cbn [app].
  assert (Hids : map Entity.id new = map (fun k => fanId (Z.of_nat k)) (seq 0 count)).
  { rewrite <- (map_map (fun k => 0 + Z.of_nat k) fanId).
    apply Forall2_map_eq. eapply Forall2_impl; [| exact Hall].
    intros i e H. apply H. }
  split; [| split; [exact Hids | split]].
  - apply Forall2_length_eq in Hall. rewrite length_map, length_seq in Hall. congruence.
  - rewrite Hids. apply Injective_map_NoDup; [| apply seq_NoDup].
    intros a b H. apply fanId_inj in H. lia.
  - eapply Forall2_right; [| exact Hall].
    intros i e H. unfold freshly_generated in H. tauto.
Qed.

(** X6. With [Math.random()] in [0, 1), every generated entity stands
    outside the exclusion rectangle and so does its target; its ticket is
    one of [TICKET_TYPES]; its prior incidents are between 0 and 3. *)
Theorem generateEntities_well_drawn (tape : nat -> Q) (count : nat) (s : State.t) :
  (forall n : nat, (0 <= tape n /\ tape n < 1)%Q) ->
  Forall
    (fun e =>
       isInRestrictedField (Entity.longitude e) (Entity.latitude e) = false
       /\ isInRestrictedField (Position.longitude (Entity.target e))
            (Position.latitude (Entity.target e)) = false
       /\ In (Entity.ticketType e) TICKET_TYPES
       /\ 0 <= History.priorIncidents (Entity.history e) <= 3)
    (fst (generateEntities tape count s)).
Proof.
  intro Htape. unfold generateEntities.
  destruct (generateEntities_loop_spec tape (fun _ => well_drawn)
              (generateEntity_well_drawn tape Htape) count 0 [] s) as [new [Heq Hall]].
  rewrite Heq. cbn [app].
  eapply Forall2_right; [| exact Hall].
  intros i e H. exact H.
Qed.

Lemma generateEntities_well_drawn_witness :
  Forall
    (fun e =>
       isInRestrictedField (Entity.longitude e) (Entity.latitude e) = false
       /\ isInRestrictedField (Position.longitude (Entity.target e))
            (Position.latitude (Entity.target e)) = false
       /\ In (Entity.ticketType e) TICKET_TYPES
       /\ 0 <= History.priorIncidents (Entity.history e) <= 3)
    (fst (generateEntities sampleTape 3 (initialState []))).
Proof.
  apply (generateEntities_well_drawn sampleTape 3 (initialState []) sampleTape_range).
Defined.

(** ** What a tick does to one agent *)

Lemma array_at_In (arr : list string) (i : Z) :
  0 <= i < Z.of_nat (List.length arr) -> In (array_at arr i) arr.
Proof.
  intro H. unfold array_at. destruct (Z.ltb_spec i 0); [lia |].
  apply nth_In. lia.
Qed.

Lemma array_at_draw (arr : list string) (n : Z) (r : Q) :
  Z.of_nat (List.length arr) = n -> 0 < n -> (0 <= r /\ r < 1)%Q ->
  In (array_at arr (Qfloor (r * inject_Z n))) arr.
Proof.
  intros Hn Hpos [Hr0 Hr1]. apply array_at_In. rewrite Hn.
  assert (Hq : (0 < inject_Z n)%Q) by (change 0%Q with (inject_Z 0); now rewrite <- Zlt_Qlt).
  apply Qfloor_range; change (inject_Z 0) with 0%Q; nra.
Qed.

Lemma includes_false (l : list string) (x : string) :
  includes l x = false -> ~ In x l.
Proof.
  unfold includes. intros H Hin.
  assert (existsb (String.eqb x) l = true).
  { apply existsb_exists. exists x. split; [exact Hin | apply String.eqb_refl]. }
  congruence.
Qed.

Lemma includes_id_push (l : list (option string)) (i : option string) :
  includes_id (push l i) i = true.
Proof.
  unfold includes_id, push. rewrite existsb_app. cbn.
  destruct i as [a |]; [rewrite String.eqb_refl |]; now rewrite orb_true_r.
Qed.

Section AgentStep.

Variable tape : nat -> Q.
Variable Math_sqrt : Q -> Q.
Variable toLocaleTimeString : Z -> string.

Ltac returns_peel :=
  repeat first
    [ apply returns_ret
    | apply returns_bind_any; intro
    | match goal with
      | |- returns (match ?x with _ => _ end) _ => destruct x
      end ].

Lemma tick_entity_identity (now : Z) (ph : Phase) (m : ThreatLevel) (e : Entity.t) :
  returns (tick_entity tape Math_sqrt toLocaleTimeString now ph m e)
    (fun r => same_identity e (fst r)).
Proof.
  unfold tick_entity. cbv zeta. returns_peel; repeat split.
Qed.

Hypothesis tape_range : forall n : nat, (0 <= tape n /\ tape n < 1)%Q.

Lemma tick_purchase_step (now : Z) (ph : Phase) (e : Entity.t) (z : Zone.t)
    (inv : list string) (se : Session.t) :
  returns (tick_purchase tape toLocaleTimeString now ph e z inv se)
    (fun r => purchase_step z inv se (fst r) (snd r)).
Proof.
  unfold tick_purchase. cbv zeta.
  assert (Hnone : purchase_step z inv se inv se).
  { unfold purchase_step. repeat split. left. now split. }
  apply (returns_bind _ _ (fun b : bool => b = true -> Zone.zoneType z = zt_concourse)).
  { destruct (Zone.zoneType z); cbn [ZoneType_eqb];
      try (apply returns_ret; discriminate).
    apply returns_bind_any; intro r. apply returns_ret. reflexivity. }
  intros [|] Hz; [specialize (Hz eq_refl) | apply returns_ret; exact Hnone].
  apply returns_bind_any; intro r.
  match goal with
  | |- returns (if ?b && _ then _ else _) _ => generalize b; intro isBeer
  end.
  destruct (Z.ltb_spec (Session.alcoholCount se) 8) as [Hlt | Hge];
    destruct isBeer; cbn [andb].
  1: { apply (returns_bind _ _ _ _ (returns_random tape tape_range)).
       intros r' [Hr0 Hr1].
       assert (Hd : In (array_at ALCOHOL_ITEMS (Qfloor (r' * 4))) ALCOHOL_ITEMS)
         by (apply (array_at_draw ALCOHOL_ITEMS 4 r' eq_refl eq_refl); now split).
       apply returns_bind_any; intros _. apply returns_ret.
       unfold purchase_step, push.
       cbn [fst snd with_alcoholCount Session.isWatched Session.zonesVisited
            Session.alcoholCount].
       repeat split.
       right. right. repeat split; try assumption.
       eexists; split; [exact Hd | reflexivity]. }
  all: apply (returns_bind _ _ _ _ (returns_random tape tape_range));
    intros r' [Hr0 Hr1];
    assert (Hi : In (array_at STADIUM_ITEMS (Qfloor (r' * 9))) STADIUM_ITEMS)
      by (apply (array_at_draw STADIUM_ITEMS 9 r' eq_refl eq_refl); now split);
    destruct (includes inv (array_at STADIUM_ITEMS (Qfloor (r' * 9)))) eqn:Hinc;
    cbn [negb]; [apply returns_ret; exact Hnone |];
    apply returns_bind_any; intro; apply returns_bind_any; intro; apply returns_ret;
    unfold purchase_step, push; cbn [fst snd]; repeat split;
    right; left; repeat split; try assumption;
    eexists; repeat split; [exact Hi | now apply includes_false].
Qed.

Lemma tick_entity_session (now : Z) (ph : Phase) (m : ThreatLevel) (e : Entity.t) :
  returns (tick_entity tape Math_sqrt toLocaleTimeString now ph m e)
    (fun r => session_step e (fst r)).
Proof.
  unfold tick_entity. cbv zeta.
  apply returns_bind_any; intros [[lng lat] t].
  destruct (Entity.waitTicks e >? 0); [apply returns_ret; left; now split |].
  apply returns_bind_any; intro r.
  destruct (Qgtb r 0.97 && Status_eqb (Entity.status e) st_normal);
    [apply returns_bind_any; intro; apply returns_ret; left; now split |].
  apply returns_bind_any; intros [[lng' lat'] t'].
  match goal with
  | |- returns (bind (tick_purchase _ _ _ _ _ ?z ?inv ?se) _) _ =>
      apply (returns_bind _ _ _ _ (tick_purchase_step now ph e z inv se))
  end.
  intros [inv' se'] Hstep. cbn [fst snd] in Hstep.
  returns_peel.
  all: right; unfold zone_of; cbn [fst with_threat with_position with_status
         with_session with_inventory Entity.session Entity.inventory
         Entity.longitude Entity.latitude].
  all: destruct (includes_id (Session.zonesVisited (Entity.session e))
                   (Zone.id (getZoneForPoint lng' lat'))) eqn:Hinc;
    cbn [negb] in Hstep.
  all: match goal with
       | Hi : includes_id _ _ = true |- _ =>
           split;
           [ destruct Hstep as [_ [Hzv _]]; rewrite Hzv; exact Hi
           | exists (Session.zonesVisited (Entity.session e)); split;
             [ left; reflexivity
             | destruct (Entity.session e); exact Hstep ] ]
       | Hi : includes_id _ _ = false |- _ =>
           split;
           [ destruct Hstep as [_ [Hzv _]]; rewrite Hzv; apply includes_id_push
           | exists (Session.zonesVisited (Entity.session e)
                     ++ [Zone.id (getZoneForPoint lng' lat')]); split;
             [ right; split; reflexivity
             | exact Hstep ] ]
       end.
Qed.

End AgentStep.

Lemma session_step_visible (e e' : Entity.t) : session_step e e' -> visible_step e e'.
Proof.
  unfold session_step, visible_step, purchase_step.
  intros [[Hs Hi] | [Hin [visited [Hv [Hw [Hz Hp]]]]]].
  - rewrite Hs, Hi. repeat split; try lia; try (now left); try (intro; lia).
  - cbn [with_zonesVisited Session.isWatched Session.zonesVisited
         Session.alcoholCount] in *.
    split; [exact Hw |].
    assert (Hzv : Session.zonesVisited (Entity.session e')
                  = Session.zonesVisited (Entity.session e)
                  \/ Session.zonesVisited (Entity.session e')
                     = Session.zonesVisited (Entity.session e) ++ [Zone.id (zone_of e')]).
    { rewrite Hz. destruct Hv as [-> | [-> _]]; [now left | now right]. }
    destruct Hp as [[Hi Ha] | [[Hc [Ha [item [_ [_ Hi]]]]] | [Hc [Hlt [Ha [drink [Hd Hi]]]]]]].
    + repeat split; try lia; try (now left); try exact Hzv; try (intro; lia).
    + repeat split; try lia; try exact Hzv; try (intro; lia); right; eauto.
    + repeat split; try lia; try exact Hzv; try (intros _; eauto); right; eauto.
Qed.

Lemma includes_id_false (l : list (option string)) (i : option string) :
  includes_id l i = false -> ~ In i l.
Proof.
  unfold includes_id. intros H Hin.
  assert (existsb (fun j => match i, j with
                            | Some a, Some b => String.eqb a b
                            | None, None => true
                            | _, _ => false
                            end) l = true).
  { apply existsb_exists. exists i. split; [exact Hin |].
    destruct i; [apply String.eqb_refl | reflexivity]. }
  congruence.
Qed.

Lemma NoDup_snoc {A : Type} (l : list A) (x : A) :
  NoDup l -> ~ In x l -> NoDup (l ++ [x]).
Proof.
  induction l as [| a l IH]; intros Hl Hx; cbn.
  - constructor; [tauto | constructor].
  - inversion Hl; subst. constructor.
    + rewrite in_app_iff. cbn. intros [H | [H | []]]; [tauto |].
      apply Hx. now left.
    + apply IH; [assumption |]. intro H. apply Hx. now right.
Qed.

Lemma stadium_item_not_alcohol (item : string) :
  In item STADIUM_ITEMS -> isAlcohol item = false.
Proof.
  intro H. cbn in H.
  repeat (destruct H as [<- | H]; [reflexivity |]). contradiction.
Qed.

Lemma alcohol_item_isAlcohol (drink : string) :
  In drink ALCOHOL_ITEMS -> isAlcohol drink = true.
Proof.
  intro H. cbn in H.
  repeat (destruct H as [<- | H]; [reflexivity |]). contradiction.
Qed.

Lemma session_step_consistent (e e' : Entity.t) :
  session_step e e' -> inventory_consistent e -> inventory_consistent e'.
Proof.
  unfold session_step, inventory_consistent, purchase_step.
  intros [[Hs Hi] | [Hin [visited [Hv [Hw [Hz Hp]]]]]] [Hcap [Hcount [Hnd [Hall Hzs]]]].
  - rewrite Hs, Hi. repeat split; assumption || lia.
  - cbn [with_zonesVisited Session.isWatched Session.zonesVisited
         Session.alcoholCount] in *.
    assert (Hzs' : NoDup (Session.zonesVisited (Entity.session e'))).
    { rewrite Hz. destruct Hv as [-> | [-> Hnew]]; [exact Hzs |].
      apply NoDup_snoc; [exact Hzs | now apply includes_id_false]. }
    destruct Hp as [[Hi Ha] | [[Hc [Ha [item [Hit [Hni Hi]]]]]
                               | [Hc [Hlt [Ha [drink [Hd Hi]]]]]]].
    + rewrite Hi, Ha. repeat split; assumption || lia.
    + pose proof (stadium_item_not_alcohol item Hit) as Hna.
      rewrite Hi, Ha, !filter_app. cbn [filter]. rewrite Hna. cbn [negb].
      rewrite app_nil_r. repeat split; try assumption; try lia.
      * apply NoDup_snoc; [exact Hnd |]. intro H. apply filter_In in H. tauto.
      * apply Forall_app. split; [exact Hall |]. constructor; [| constructor].
        apply in_or_app. now right.
    + pose proof (alcohol_item_isAlcohol drink Hd) as Hal.
      rewrite Hi, Ha, !filter_app. cbn [filter]. rewrite Hal. cbn [negb].
      rewrite app_nil_r, length_app. cbn [List.length].
      repeat split; try assumption; try lia.
      apply Forall_app. split; [exact Hall |]. constructor; [| constructor].
      apply in_or_app. now left.
Qed.

Section RunInvariants.

Variable tape : nat -> Q.
Variable Math_sqrt : Q -> Q.
Variable toLocaleTimeString : Z -> string.

Lemma tick_identity_all (now : Z) (ph : Phase) (s : State.t) :
  Forall2 same_identity (State.entities s)
    (State.entities (snd (tick tape Math_sqrt toLocaleTimeString now ph s))).
Proof.
  rewrite tick_entities.
  apply (tick_map_Forall2 tape Math_sqrt toLocaleTimeString _ now ph
           (tick_entity_identity tape Math_sqrt toLocaleTimeString now ph)).
Qed.

Lemma dismissPrediction_entities (now : Z) (predId : string) (s : State.t) :
  State.entities (snd (dismissPrediction tape toLocaleTimeString now predId s))
  = State.entities s.
Proof. reflexivity. Qed.

Lemma perform_identity (c : Command) (s : State.t) :
  Forall2 same_identity (State.entities s)
    (State.entities (snd (perform tape Math_sqrt toLocaleTimeString c s))).
Proof.
  assert (Hrefl : forall l, Forall2 same_identity l l).
  { induction l; constructor; [repeat split | assumption]. }
  destruct c as [now ph | now i | now i]; cbn [perform].
  - apply tick_identity_all.
  - rewrite toggleWatchlist_entities.
    induction (State.entities s) as [| e es IH]; cbn [map]; constructor; [| exact IH].
    destruct (String.eqb (Entity.id e) i); repeat split.
  - rewrite dismissPrediction_entities. apply Hrefl.
Qed.

Hypothesis tape_range : forall n : nat, (0 <= tape n /\ tape n < 1)%Q.

Lemma tick_session_all (now : Z) (ph : Phase) (s : State.t) :
  Forall2 session_step (State.entities s)
    (State.entities (snd (tick tape Math_sqrt toLocaleTimeString now ph s))).
Proof.
  rewrite tick_entities.
  apply (tick_map_Forall2 tape Math_sqrt toLocaleTimeString _ now ph
           (tick_entity_session tape Math_sqrt toLocaleTimeString tape_range now ph)).
Qed.

Lemma perform_consistent (c : Command) (s : State.t) :
  Forall inventory_consistent (State.entities s) ->
  Forall inventory_consistent
    (State.entities (snd (perform tape Math_sqrt toLocaleTimeString c s))).
Proof.
  intro H. destruct c as [now ph | now i | now i]; cbn [perform].
  - eapply Forall2_transfer; [| apply tick_session_all | exact H].
    intros a b. apply session_step_consistent.
  - rewrite toggleWatchlist_entities. apply Forall_map.
    eapply Forall_impl; [| exact H].
    intros e He. destruct (String.eqb (Entity.id e) i); exact He.
  - rewrite dismissPrediction_entities. exact H.
Qed.

Lemma run_consistent (cs : list Command) (s : State.t) :
  Forall inventory_consistent (State.entities s) ->
  Forall inventory_consistent
    (State.entities (run tape Math_sqrt toLocaleTimeString cs s)).
Proof.
  revert s. induction cs as [| c cs IH]; intros s H; cbn [run]; [exact H |].
  apply IH. now apply perform_consistent.
Qed.

End RunInvariants.

(** X7. Agents are never created, destroyed, reordered or re-identified:
    after any sequence of ticks and operator actions the entity list has
    the same ids, names, ticket types and histories, in the same order. *)
Theorem identity_and_history_fixed (tape : nat -> Q) (Math_sqrt : Q -> Q)
    (toLocaleTimeString : Z -> string) (cs : list Command) (s : State.t) :
  map (fun e => (Entity.id e, Entity.name e, Entity.ticketType e, Entity.history e))
    (State.entities (run tape Math_sqrt toLocaleTimeString cs s))
  = map (fun e => (Entity.id e, Entity.name e, Entity.ticketType e, Entity.history e))
      (State.entities s).
Proof.
  revert s. induction cs as [| c cs IH]; intro s; cbn [run]; [reflexivity |].
  rewrite IH.
  pose proof (perform_identity tape Math_sqrt toLocaleTimeString c s) as H.
  induction H as [| e e' l l' [Hi [Hn [Ht Hh]]] _ IHl]; cbn [map]; [reflexivity |].
  now rewrite IHl, Hi, Hn, Ht, Hh.
Qed.

(** X8. With [Math.random()] in [0, 1), one tick leaves the operator flag
    of every agent alone; it adds at most one drink to its session, and
    then a drink of [ALCOHOL_ITEMS] is appended to its inventory; the
    inventory changes by at most one appended item and only for an agent
    that ends the tick in a concourse zone; the visited zones change by at
    most appending the zone the agent ends in. *)
Theorem tick_changes_session_by_one_step (tape : nat -> Q) (Math_sqrt : Q -> Q)
    (toLocaleTimeString : Z -> string) (now : Z) (ph : Phase) (s : State.t) :
  (forall n : nat, (0 <= tape n /\ tape n < 1)%Q) ->
  Forall2
    (fun e e' =>
       Session.isWatched (Entity.session e') = Session.isWatched (Entity.session e)
       /\ Session.alcoholCount (Entity.session e)
          <= Session.alcoholCount (Entity.session e')
          <= Session.alcoholCount (Entity.session e) + 1
       /\ (Entity.inventory e' = Entity.inventory e
           \/ (Zone.zoneType
                 (getZoneForPoint (Entity.longitude e') (Entity.latitude e'))
               = zt_concourse
               /\ exists item, Entity.inventory e' = Entity.inventory e ++ [item]))
       /\ (Session.alcoholCount (Entity.session e')
           = Session.alcoholCount (Entity.session e) + 1
           -> exists drink, In drink ALCOHOL_ITEMS
                            /\ Entity.inventory e' = Entity.inventory e ++ [drink])
       /\ (Session.zonesVisited (Entity.session e')
           = Session.zonesVisited (Entity.session e)
           \/ Session.zonesVisited (Entity.session e')
              = Session.zonesVisited (Entity.session e)
                ++ [Zone.id (getZoneForPoint (Entity.longitude e') (Entity.latitude e'))]))
    (State.entities s)
    (State.entities (snd (tick tape Math_sqrt toLocaleTimeString now ph s))).
Proof.
  intro Htape.
  eapply Forall2_impl;
    [| apply (tick_session_all tape Math_sqrt toLocaleTimeString Htape now ph s)].
  intros e e' H. exact (session_step_visible e e' H).
Qed.

Lemma tick_changes_session_by_one_step_witness :
  Forall2 visible_step (State.entities (initialState [cappedDrinker]))
    (State.entities
       (snd (tick sampleTape sampleSqrt sampleTime 0 PRE_GAME
               (initialState [cappedDrinker])))).
Proof.
  apply (tick_changes_session_by_one_step sampleTape sampleSqrt sampleTime 0 PRE_GAME
           (initialState [cappedDrinker]) sampleTape_range).
Defined.

(** X9. With [Math.random()] in [0, 1), the generated population satisfies,
    and every tick and operator action keeps, for every agent: the session
    drinks are between 0 and 8 and equal the number of alcoholic items in
    the inventory; no other item occurs twice in the inventory; every item
    comes from [ALCOHOL_ITEMS] or [STADIUM_ITEMS]; no zone is recorded as
    visited twice. *)
Theorem inventory_bookkeeping (tape : nat -> Q) (Math_sqrt : Q -> Q)
    (toLocaleTimeString : Z -> string) :
  (forall n : nat, (0 <= tape n /\ tape n < 1)%Q) ->
  (forall (count : nat) (s : State.t),
     Forall inventory_consistent (fst (generateEntities tape count s)))
  /\ (forall (cs : list Command) (s : State.t),
        Forall inventory_consistent (State.entities s) ->
        Forall inventory_consistent
          (State.entities (run tape Math_sqrt toLocaleTimeString cs s))).
Proof.
  intro Htape. split.
  - intros count s.
    pose proof (generateEntities_population tape count s) as [_ [_ [_ H]]].
    eapply Forall_impl; [| exact H].
    intros e [_ [_ [Hi [Hs _]]]]. unfold inventory_consistent.
    rewrite Hi, Hs. cbn. repeat split; try lia; constructor.
  - intros cs s. now apply run_consistent.
Qed.

Lemma inventory_bookkeeping_witness :
  Forall inventory_consistent
    (State.entities
       (run sampleTape sampleSqrt sampleTime [Tick 0 HALFTIME; Tick 800 HALFTIME]
          (State.set_entities (fst (generateEntities sampleTape 2 (initialState [])))
             (initialState [])))).
Proof.
  destruct (inventory_bookkeeping sampleTape sampleSqrt sampleTime sampleTape_range)
    as [Hgen Hrun].
  apply Hrun. apply Hgen.
Defined.

(** ** Risk fields and the aggregate level *)

Lemma risk_fresh_coherent (ph : Phase) (e : Entity.t) :
  risk_fresh ph e -> risk_coherent e.
Proof.
  unfold risk_fresh, riskFields, risk_coherent. intro H.
  injection H as Hs Hl _. rewrite Hs, Hl.
  rewrite level_decomp, score_decomp, tierOf_clamp.
  pose proof (rawScore_nonneg e). split; [lia | reflexivity].
Qed.

Section Outcome.

Variable tape : nat -> Q.
Variable Math_sqrt : Q -> Q.
Variable toLocaleTimeString : Z -> string.

Ltac returns_peel :=
  repeat first
    [ apply returns_ret
    | apply returns_bind_any; intro
    | match goal with
      | |- returns (match ?x with _ => _ end) _ => destruct x
      end ].

(** The running maximum after an agent is the one before, or the level
    just given to the agent, which is then HIGH or CRITICAL. *)
Lemma tick_entity_maxThreat (now : Z) (ph : Phase) (m : ThreatLevel) (e : Entity.t) :
  returns (tick_entity tape Math_sqrt toLocaleTimeString now ph m e)
    (fun r => snd r = m
              \/ (snd r = Entity.threatLevel (fst r)
                  /\ (snd r = HIGH \/ snd r = CRITICAL))).
Proof.
  unfold tick_entity. cbv zeta.
  apply returns_bind_any; intros [[lng lat] t].
  destruct (Entity.waitTicks e >? 0); [apply returns_ret; now left |].
  apply returns_bind_any; intro r.
  destruct (Qgtb r 0.97 && Status_eqb (Entity.status e) st_normal);
    [apply returns_bind_any; intro; apply returns_ret; now left |].
  apply returns_bind_any; intros [[lng' lat'] t'].
  apply returns_bind_any; intros [inv' se'].
  apply returns_bind_any; intros _.
  apply returns_bind_any; intro r2.
  apply returns_bind_any; intro st.
  apply returns_bind_any; intros _.
  apply returns_ret.
  cbn [fst snd with_threat Entity.threatLevel].
  destruct (Threat.level (calculateThreatScore _ ph)), m; auto.
Qed.

Lemma tick_map_maxThreat (now : Z) (ph : Phase) (es : list Entity.t) (m : ThreatLevel) :
  returns (tick_map tape Math_sqrt toLocaleTimeString now ph m es)
    (fun r => snd r = m
              \/ (In (snd r) (map Entity.threatLevel (fst r))
                  /\ (snd r = HIGH \/ snd r = CRITICAL))).
Proof.
  revert m. induction es as [| e es IH]; intro m; cbn [tick_map].
  - apply returns_ret. now left.
  - apply (returns_bind _ _ _ _ (tick_entity_maxThreat now ph m e)).
    intros [e' m'] He. cbn [fst snd] in He.
    apply (returns_bind _ _ _ _ (IH m')).
    intros [es' m''] Hes. cbn [fst snd] in Hes.
    apply returns_ret. cbn [fst snd map In].
    destruct Hes as [-> | [Hin Hl]]; [| right; split; [now right | exact Hl]].
    destruct He as [-> | [-> Hl]]; [now left |].
    right. split; [now left | exact Hl].
Qed.

Lemma tick_systemThreatLevel (now : Z) (ph : Phase) (s : State.t) :
  State.systemThreatLevel (snd (tick tape Math_sqrt toLocaleTimeString now ph s))
  = snd (fst (tick_map tape Math_sqrt toLocaleTimeString now ph LOW
                (State.entities s) s)).
Proof.
  unfold tick. unfold bind at 1.
  destruct (tick_map tape Math_sqrt toLocaleTimeString now ph LOW (State.entities s) s)
    as [[es m] s'].
  reflexivity.
Qed.

Hypothesis tape_range : forall n : nat, (0 <= tape n /\ tape n < 1)%Q.

Lemma tick_entity_outcome (now : Z) (ph : Phase) (m : ThreatLevel) (e : Entity.t) :
  returns (tick_entity tape Math_sqrt toLocaleTimeString now ph m e)
    (fun r => tick_outcome ph e (fst r)).
Proof.
  unfold tick_entity. cbv zeta.
  apply returns_bind_any; intros [[lng lat] t].
  destruct (Z.gtb_spec (Entity.waitTicks e) 0) as [Hw | Hw].
  { apply returns_ret. left. repeat split. lia. }
  apply returns_bind_any; intro r.
  assert (Hmoved :
    returns
      (bind (tick_movement tape Math_sqrt ph e lng lat t)
         (fun x =>
            let '(longitude, latitude, target) := x in
            let zone := getZoneForPoint longitude latitude in
            let session :=
              if negb (includes_id (Session.zonesVisited (Entity.session e))
                         (Zone.id zone))
              then with_zonesVisited
                     (push (Session.zonesVisited (Entity.session e)) (Zone.id zone))
                     (Entity.session e)
              else Entity.session e in
            bind (tick_purchase tape toLocaleTimeString now ph e zone
                    (Entity.inventory e) session)
              (fun y =>
                 let '(inventory, session) := y in
                 bind (tick_zoneLog tape toLocaleTimeString now e zone session)
                   (fun _ =>
                      bind (random tape)
                        (fun r =>
                           bind (if Qgtb r 0.995
                                 then bind (random tape)
                                        (fun r =>
                                           ret (if Qgtb r 0.7
                                                then st_rushing else st_normal))
                                 else ret (Entity.status e))
                             (fun status =>
                                let tempEntity :=
                                  with_status status
                                    (with_session session
                                       (with_inventory inventory
                                          (with_position longitude latitude
                                             (Entity.target e) e))) in
                                let threat := calculateThreatScore tempEntity ph in
                                let maxThreat :=
                                  match Threat.level threat, m with
                                  | CRITICAL, _ => CRITICAL
                                  | HIGH, CRITICAL => m
                                  | HIGH, _ => HIGH
                                  | _, _ => m
                                  end in
                                bind (tick_prediction tape toLocaleTimeString now e
                                        tempEntity threat session)
                                  (fun _ =>
                                     ret (with_threat threat
                                            (with_position longitude latitude target
                                               tempEntity), maxThreat))))))))
      (fun r => tick_outcome ph e (fst r))).
  { apply returns_bind_any; intros [[lng' lat'] t']. cbv zeta.
    apply returns_bind_any; intros [inv' se'].
    apply returns_bind_any; intros _.
    apply returns_bind_any; intro r2.
    apply (returns_bind _ _
             (fun st => st = Entity.status e \/ st = st_rushing \/ st = st_normal)).
    { destruct (Qgtb r2 0.995); [| apply returns_ret; now left].
      apply returns_bind_any; intro r3. apply returns_ret.
      destruct (Qgtb r3 0.7); auto. }
    intros st Hst.
    apply returns_bind_any; intros _. apply returns_ret.
    right. right. split; [lia |]. split; [reflexivity |]. split; [exact Hst |].
    reflexivity. }
  destruct (Qgtb r 0.97); cbn [andb]; [| exact Hmoved].
  destruct (Entity.status e) eqn:Hst; cbn [Status_eqb]; try exact Hmoved.
  apply (returns_bind _ _ _ _ (returns_random tape tape_range)).
  intros r' [Hr0 Hr1]. apply returns_ret. right. left.
  assert (H : 0 <= Qfloor (r' * 8) < 8).
  { apply Qfloor_range; [change (inject_Z 0) with 0%Q
                        | change (inject_Z 8) with 8%Q]; lra. }
  cbn [fst with_position with_waitTicks with_status Entity.waitTicks Entity.status].
  repeat split; try lia; exact Hst.
Qed.

Lemma tick_outcome_all (now : Z) (ph : Phase) (s : State.t) :
  Forall2 (tick_outcome ph) (State.entities s)
    (State.entities (snd (tick tape Math_sqrt toLocaleTimeString now ph s))).
Proof.
  rewrite tick_entities.
  apply (tick_map_Forall2 tape Math_sqrt toLocaleTimeString _ now ph
           (tick_entity_outcome now ph)).
Qed.

End Outcome.

Lemma tick_outcome_coherent (ph : Phase) (e e' : Entity.t) :
  tick_outcome ph e e' -> risk_coherent e -> risk_coherent e'.
Proof.
  unfold tick_outcome, risk_coherent, riskFields.
  intros [[_ [_ [_ H]]] | [[_ [_ [_ [_ H]]]] | [_ [_ [_ H]]]]] Hc.
  - injection H as Hs Hl _. now rewrite Hs, Hl.
  - injection H as Hs Hl _. now rewrite Hs, Hl.
  - exact (risk_fresh_coherent ph e' H).
Qed.

(** X10. With [Math.random()] in [0, 1), a tick treats each agent in one
    of three ways.  An agent with ticks left to wait has them decremented
    and keeps its status and its previous risk fields.  An agent in status
    normal may be sent idle: it becomes loitering with 3 to 10 ticks to
    wait and keeps its previous risk fields.  Any other agent keeps its
    wait count, keeps its status or has it set to rushing or normal, and
    carries exactly the score, level and factors that the scorer gives for
    its own new state. *)
Theorem tick_holds_or_rescores (tape : nat -> Q) (Math_sqrt : Q -> Q)
    (toLocaleTimeString : Z -> string) (now : Z) (ph : Phase) (s : State.t) :
  (forall n : nat, (0 <= tape n /\ tape n < 1)%Q) ->
  Forall2
    (fun e e' =>
       (0 < Entity.waitTicks e
        /\ Entity.waitTicks e' = Entity.waitTicks e - 1
        /\ Entity.status e' = Entity.status e
        /\ riskFields e' = riskFields e)
       \/ (Entity.waitTicks e <= 0
           /\ Entity.status e = st_normal /\ Entity.status e' = st_loitering
           /\ 3 <= Entity.waitTicks e' <= 10
           /\ riskFields e' = riskFields e)
       \/ (Entity.waitTicks e <= 0
           /\ Entity.waitTicks e' = Entity.waitTicks e
           /\ (Entity.status e' = Entity.status e \/ Entity.status e' = st_rushing
               \/ Entity.status e' = st_normal)
           /\ riskFields e'
              = (Threat.score (calculateThreatScore e' ph),
                 Threat.level (calculateThreatScore e' ph),
                 Threat.factors (calculateThreatScore e' ph))))
    (State.entities s)
    (State.entities (snd (tick tape Math_sqrt toLocaleTimeString now ph s))).
Proof.
  intro Htape.
  exact (tick_outcome_all tape Math_sqrt toLocaleTimeString Htape now ph s).
Qed.

Lemma tick_holds_or_rescores_witness :
  Forall2 (tick_outcome PRE_GAME) (State.entities (initialState [heldCritical]))
    (State.entities
       (snd (tick sampleTape sampleSqrt sampleTime 0 PRE_GAME
               (initialState [heldCritical])))).
Proof.
  apply (tick_holds_or_rescores sampleTape sampleSqrt sampleTime 0 PRE_GAME
           (initialState [heldCritical]) sampleTape_range).
Defined.

(** X11. After a tick the system threat level is LOW, HIGH or CRITICAL,
    never MEDIUM, and when it is HIGH or CRITICAL some agent of the new
    list carries that level.  It only looks at the agents re-scored in
    this tick: an agent held idle with a CRITICAL level from an earlier
    tick leaves the system level at LOW while [alertCount] counts it. *)
Theorem systemThreatLevel_after_tick :
  (forall (tape : nat -> Q) (Math_sqrt : Q -> Q) (toLocaleTimeString : Z -> string)
          (now : Z) (ph : Phase) (s : State.t),
     let s' := snd (tick tape Math_sqrt toLocaleTimeString now ph s) in
     State.systemThreatLevel s' = LOW
     \/ ((State.systemThreatLevel s' = HIGH \/ State.systemThreatLevel s' = CRITICAL)
         /\ In (State.systemThreatLevel s')
              (map Entity.threatLevel (State.entities s'))))
  /\ (let s' := snd (tick sampleTape sampleSqrt sampleTime 0 PRE_GAME
                       (initialState [heldCritical])) in
      State.systemThreatLevel s' = LOW
      /\ alertCount (State.entities s') = 1%nat).
Proof.
  split.
  - intros tape Math_sqrt tls now ph s s'. subst s'.
    rewrite tick_systemThreatLevel, tick_entities.
    destruct (tick_map_maxThreat tape Math_sqrt tls now ph (State.entities s) LOW s)
      as [H | [Hin Hl]]; [now left | right; now split].
  - vm_compute. split; reflexivity.
Qed.

Section RiskInvariant.

Variable tape : nat -> Q.
Variable Math_sqrt : Q -> Q.
Variable toLocaleTimeString : Z -> string.
Hypothesis tape_range : forall n : nat, (0 <= tape n /\ tape n < 1)%Q.

Lemma perform_coherent (c : Command) (s : State.t) :
  Forall risk_coherent (State.entities s) ->
  Forall risk_coherent
    (State.entities (snd (perform tape Math_sqrt toLocaleTimeString c s))).
Proof.
  intro H. destruct c as [now ph | now i | now i]; cbn [perform].
  - eapply Forall2_transfer;
      [| apply (tick_outcome_all tape Math_sqrt toLocaleTimeString tape_range now ph)
       | exact H].
    intros a b. apply tick_outcome_coherent.
  - rewrite toggleWatchlist_entities. apply Forall_map.
    eapply Forall_impl; [| exact H].
    intros e He. destruct (String.eqb (Entity.id e) i); exact He.
  - exact H.
Qed.

Lemma run_coherent (cs : list Command) (s : State.t) :
  Forall risk_coherent (State.entities s) ->
  Forall risk_coherent (State.entities (run tape Math_sqrt toLocaleTimeString cs s)).
Proof.
  revert s. induction cs as [| c cs IH]; intros s H; cbn [run]; [exact H |].
  apply IH. now apply perform_coherent.
Qed.

End RiskInvariant.

(** X12. With [Math.random()] in [0, 1), the generated population satisfies,
    and every tick and operator action keeps, for every agent: the stored
    risk score lies in [0, 100] and the stored risk level is the tier of
    the stored score (70 and above CRITICAL, 45 and above HIGH, 25 and above
    MEDIUM, otherwise LOW), also while the fields are stale. *)
Theorem stored_risk_coherent (tape : nat -> Q) (Math_sqrt : Q -> Q)
    (toLocaleTimeString : Z -> string) :
  (forall n : nat, (0 <= tape n /\ tape n < 1)%Q) ->
  (forall (count : nat) (s : State.t),
     Forall (fun e => 0 <= Entity.threatScore e <= 100
                      /\ Entity.threatLevel e = tierOf (Entity.threatScore e))
       (fst (generateEntities tape count s)))
  /\ (forall (cs : list Command) (s : State.t),
        Forall (fun e => 0 <= Entity.threatScore e <= 100
                         /\ Entity.threatLevel e = tierOf (Entity.threatScore e))
          (State.entities s) ->
        Forall (fun e => 0 <= Entity.threatScore e <= 100
                         /\ Entity.threatLevel e = tierOf (Entity.threatScore e))
          (State.entities (run tape Math_sqrt toLocaleTimeString cs s))).
Proof.
  intro Htape. split.
  - intros count s.
    pose proof (generateEntities_population tape count s) as [_ [_ [_ H]]].
    eapply Forall_impl; [| exact H].
    intros e [_ [_ [_ [_ [Hs [Hl _]]]]]]. rewrite Hs, Hl.
    split; [lia | reflexivity].
  - intros cs s. exact (run_coherent tape Math_sqrt toLocaleTimeString Htape cs s).
Qed.

Lemma stored_risk_coherent_witness :
  Forall risk_coherent
    (State.entities
       (run sampleTape sampleSqrt sampleTime [Tick 0 HALFTIME; ToggleWatchlist 5 "fan-1000"]
          (State.set_entities (fst (generateEntities sampleTape 2 (initialState [])))
             (initialState [])))).
Proof.
  destruct (stored_risk_coherent sampleTape sampleSqrt sampleTime sampleTape_range)
    as [Hgen Hrun].
  apply Hrun. apply Hgen.
Defined.

(** ** The log feed *)

Lemma tick_purchase_zonesVisited (tape : nat -> Q) (toLocaleTimeString : Z -> string)
    (now : Z) (ph : Phase) (e : Entity.t) (z : Zone.t) (inv : list string)
    (se : Session.t) :
  returns (tick_purchase tape toLocaleTimeString now ph e z inv se)
    (fun r => Session.zonesVisited (snd r) = Session.zonesVisited se).
Proof.
  unfold tick_purchase. cbv zeta.
  repeat first
    [ apply returns_ret
    | apply returns_bind_any; intro
    | match goal with
      | |- returns (match ?x with _ => _ end) _ => destruct x
      end ]; reflexivity.
Qed.

Section LogFrame.

Variable tape : nat -> Q.
Variable Math_sqrt : Q -> Q.
Variable toLocaleTimeString : Z -> string.

(** An invariant [P] of the feed kept by every push of an entry whose title
    is [okTitle], and the titles the engine uses being [okTitle]. *)
Variable P : list LogEntry.t -> Prop.
Variable okTitle : string -> Prop.
Hypothesis P_push :
  forall (x : LogEntry.t) (l : list LogEntry.t),
    okTitle (LogEntry.title x) -> P l -> P (firstn 40 (x :: l)).
Hypothesis ok_engine : forall t : string, In t ENGINE_TITLES -> okTitle t.

Lemma logs_random : keeps (on_logs P) (random tape).
Proof. intros s H. exact H. Qed.

Lemma logs_addPrediction (now : Z) (e : Entity.t) (pat : string) (c : Z) :
  keeps (on_logs P) (addPrediction toLocaleTimeString now e pat c).
Proof. intros s H. exact H. Qed.

Lemma logs_addLog (now : Z) (type title desc icon : string) :
  In title ENGINE_TITLES ->
  keeps (on_logs P) (addLog tape toLocaleTimeString now type title desc icon).
Proof.
  intros Ht s H. unfold on_logs in *. cbn.
  apply P_push; [cbn; now apply ok_engine | exact H].
Qed.

Ltac logs_step :=
  first
    [ apply keeps_ret
    | apply logs_random
    | apply logs_addPrediction
    | apply logs_addLog; cbn; tauto
    | apply keeps_bind; [| intro]
    | match goal with
      | |- keeps _ (match ?x with _ => _ end) => destruct x
      end ].

Lemma logs_getRandomPos (zonePreference : option ZoneType) :
  keeps (on_logs P) (getRandomPos tape zonePreference).
Proof. unfold getRandomPos. repeat logs_step. Qed.

Lemma logs_tick_containment (e : Entity.t) :
  keeps (on_logs P) (tick_containment tape e).
Proof.
  unfold tick_containment. cbv zeta.
  repeat first [apply logs_getRandomPos | logs_step].
Qed.

Lemma logs_tick_movement (ph : Phase) (e : Entity.t) (lng lat : Q) (t : Position.t) :
  keeps (on_logs P) (tick_movement tape Math_sqrt ph e lng lat t).
Proof.
  unfold tick_movement. cbv zeta.
  repeat first [apply logs_getRandomPos | logs_step].
Qed.

Lemma logs_tick_purchase (now : Z) (ph : Phase) (e : Entity.t) (z : Zone.t)
    (inv : list string) (se : Session.t) :
  keeps (on_logs P) (tick_purchase tape toLocaleTimeString now ph e z inv se).
Proof. unfold tick_purchase. cbv zeta. repeat logs_step. Qed.

Lemma logs_tick_prediction (now : Z) (e temp : Entity.t) (th : Threat.t)
    (se : Session.t) :
  keeps (on_logs P) (tick_prediction tape toLocaleTimeString now e temp th se).
Proof. unfold tick_prediction. cbv zeta. repeat logs_step. Qed.

(** Once the zone is recorded as visited, the zone-transition log does
    nothing at all. *)
Lemma tick_zoneLog_visited (now : Z) (e : Entity.t) (z : Zone.t) (se : Session.t) :
  includes_id (Session.zonesVisited se) (Zone.id z) = true ->
  tick_zoneLog tape toLocaleTimeString now e z se = ret tt.
Proof.
  intro H. unfold tick_zoneLog. rewrite H. cbn [negb]. now rewrite andb_false_r.
Qed.

Lemma logs_tick_entity (now : Z) (ph : Phase) (m : ThreatLevel) (e : Entity.t) :
  keeps (on_logs P) (tick_entity tape Math_sqrt toLocaleTimeString now ph m e).
Proof.
  unfold tick_entity. cbv zeta.
  apply keeps_bind; [apply logs_tick_containment |]. intros [[lng lat] t].
  destruct (Entity.waitTicks e >? 0); [apply keeps_ret |].
  apply keeps_bind; [apply logs_random |]. intro r.
  destruct (Qgtb r 0.97 && Status_eqb (Entity.status e) st_normal);
    [repeat logs_step |].
  apply keeps_bind; [apply logs_tick_movement |]. intros [[lng' lat'] t'].
  match goal with
  | |- keeps _ (bind (tick_purchase _ _ _ _ _ ?z ?inv ?se) _) =>
      apply (keeps_bind_with _ _ _
               (fun r => includes_id (Session.zonesVisited (snd r)) (Zone.id z) = true));
      [ intro s0;
        rewrite (tick_purchase_zonesVisited tape toLocaleTimeString now ph e z inv se s0)
      | apply logs_tick_purchase
      | intros [inv' se'] Hse; cbn [snd] in Hse ]
  end.
  - destruct (includes_id (Session.zonesVisited (Entity.session e))
                (Zone.id (getZoneForPoint lng' lat'))) eqn:Hinc; cbn [negb].
    + exact Hinc.
    + apply includes_id_push.
  - rewrite (tick_zoneLog_visited now e _ se' Hse).
    apply keeps_bind; [apply keeps_ret |]. intros _.
    apply keeps_bind; [apply logs_random |]. intro r'.
    apply keeps_bind; [repeat logs_step |]. intro st.
    apply keeps_bind; [apply logs_tick_prediction |]. intros _.
    apply keeps_ret.
Qed.

Lemma logs_tick_map (now : Z) (ph : Phase) (es : list Entity.t) (m : ThreatLevel) :
  keeps (on_logs P) (tick_map tape Math_sqrt toLocaleTimeString now ph m es).
Proof.
  revert m. induction es as [| e es IH]; intro m; cbn [tick_map].
  - apply keeps_ret.
  - apply keeps_bind; [apply logs_tick_entity |].
    intros [e' m']. apply keeps_bind; [apply IH |].
    intros [es' m'']. apply keeps_ret.
Qed.

Lemma logs_toggleWatchlist_entity (now : Z) (entityId : string) (e : Entity.t) :
  keeps (on_logs P) (toggleWatchlist_entity tape toLocaleTimeString now entityId e).
Proof. unfold toggleWatchlist_entity. cbv zeta. repeat logs_step. Qed.

Lemma logs_perform (c : Command) :
  keeps (on_logs P) (perform tape Math_sqrt toLocaleTimeString c).
Proof.
  destruct c as [now ph | now i | now i]; cbn [perform].
  - unfold tick. apply keeps_bind.
    + intros s H. now apply logs_tick_map.
    + intros [es m] s H. exact H.
  - unfold toggleWatchlist. apply keeps_bind.
    + intros s. generalize (State.entities s) as es.
      intro es. revert s. induction es as [| e es IH]; intros s H; cbn [mapM].
      * exact H.
      * revert s H. apply keeps_bind; [apply logs_toggleWatchlist_entity |].
        intro e'. apply keeps_bind; [exact IH |]. intro es'. apply keeps_ret.
    + intros es s H. exact H.
  - unfold dismissPrediction. apply keeps_bind.
    + intros s H. exact H.
    + intros _. apply logs_addLog. cbn. tauto.
Qed.

Lemma logs_run (cs : list Command) (s : State.t) :
  on_logs P s -> on_logs P (run tape Math_sqrt toLocaleTimeString cs s).
Proof.
  revert s. induction cs as [| c cs IH]; intros s H; cbn [run]; [exact H |].
  apply IH. now apply logs_perform.
Qed.

End LogFrame.

(** X13. The log feed never holds more than 40 entries: starting from at
    most 40 (the application mounts with none), it holds at most 40 after
    any sequence of ticks and operator actions. *)
Theorem log_feed_never_exceeds_forty (tape : nat -> Q) (Math_sqrt : Q -> Q)
    (toLocaleTimeString : Z -> string) (cs : list Command) (s : State.t) :
  (List.length (State.logs s) <= 40)%nat ->
  (List.length (State.logs (run tape Math_sqrt toLocaleTimeString cs s)) <= 40)%nat.
Proof.
  apply (logs_run tape Math_sqrt toLocaleTimeString
           (fun l => (List.length l <= 40)%nat) (fun _ => True)).
  - intros x l _ _. apply firstn_le_length.
  - intros t _. exact I.
Qed.

Lemma log_feed_never_exceeds_forty_witness :
  (List.length
     (State.logs
        (run sampleTape sampleSqrt sampleTime
           [ToggleWatchlist 100 "fan-1000"; Tick 800 PRE_GAME]
           (initialState [cappedDrinker]))) <= 40)%nat.
Proof.
  apply (log_feed_never_exceeds_forty sampleTape sampleSqrt sampleTime).
  cbn. lia.
Defined.

Lemma firstn_push_prefix (x : LogEntry.t) (added old : list LogEntry.t) (k : nat) :
  exists k',
    firstn 40 (x :: added ++ firstn k old)
    = firstn 40 (x :: added) ++ firstn k' old.
Proof.
  exists (Nat.min (40 - List.length (x :: added)) k).
  change (x :: added ++ firstn k old) with ((x :: added) ++ firstn k old).
  now rewrite firstn_app, firstn_firstn.
Qed.

(** X14. After any sequence of ticks and operator actions the log feed is
    the entries they added, newest first, followed by a front part of the
    feed they started from.  Every added entry is titled Alcohol Alert,
    Concession, Watchlist Added, Watchlist Removed or Prediction
    Acknowledged.  The zone-transition entries (VIP Access, Movement) are
    never written: the tick records the zone as visited before it tests
    whether the zone is new, and then the logging step does nothing, not
    even a random draw. *)
Theorem zone_transition_never_logged (tape : nat -> Q) (Math_sqrt : Q -> Q)
    (toLocaleTimeString : Z -> string) :
  (forall (cs : list Command) (s : State.t),
     exists (added : list LogEntry.t) (k : nat),
       State.logs (run tape Math_sqrt toLocaleTimeString cs s)
       = added ++ firstn k (State.logs s)
       /\ Forall (fun l => In (LogEntry.title l) ENGINE_TITLES
                           /\ LogEntry.title l <> "VIP Access"%string
                           /\ LogEntry.title l <> "Movement"%string) added)
  /\ (forall (now : Z) (e : Entity.t) (z : Zone.t) (se : Session.t) (s : State.t),
        includes_id (Session.zonesVisited se) (Zone.id z) = true ->
        tick_zoneLog tape toLocaleTimeString now e z se s = (tt, s)).
Proof.
  split.
  - intros cs s.
    assert (H : exists added k,
               State.logs (run tape Math_sqrt toLocaleTimeString cs s)
               = added ++ firstn k (State.logs s)
               /\ Forall (fun l => In (LogEntry.title l) ENGINE_TITLES) added).
    { apply (logs_run tape Math_sqrt toLocaleTimeString
               (fun l => exists added k,
                           l = added ++ firstn k (State.logs s)
                           /\ Forall (fun l => In (LogEntry.title l) ENGINE_TITLES) added)
               (fun t => In t ENGINE_TITLES)).
      - intros x l Hx [added [k [-> Hadded]]].
        destruct (firstn_push_prefix x added (State.logs s) k) as [k' Hk'].
        exists (firstn 40 (x :: added)), k'. split; [exact Hk' |].
        apply Forall_firstn. now constructor.
      - intros t Ht. exact Ht.
      - exists [], (List.length (State.logs s)). split; [| constructor].
        cbn [app]. now rewrite firstn_all. }
    destruct H as [added [k [Heq Hadded]]].
    exists added, k. split; [exact Heq |].
    eapply Forall_impl; [| exact Hadded].
    intros l Hl. cbv beta in Hl. split; [exact Hl |].
    split; intro Ht; rewrite Ht in Hl; cbn in Hl;
      repeat (destruct Hl as [Hl | Hl]; [discriminate |]); contradiction.
  - intros now e z se s H.
    now rewrite (tick_zoneLog_visited tape toLocaleTimeString now e z se H).
Qed.

Lemma zone_transition_never_logged_witness :
  tick_zoneLog sampleTape sampleTime 800 cappedDrinker (Feature.properties bowl)
    (Session.mk 8 [Some "bowl"%string] false) (initialState [cappedDrinker])
  = (tt, initialState [cappedDrinker]).
Proof.
  apply (proj2 (zone_transition_never_logged sampleTape sampleSqrt sampleTime)).
  reflexivity.
Defined.

(** ** What the issued predictions look like *)

Lemma table_key_not_fallback (pat : string) :
  In pat (map fst PREDICTION_ACTIONS) ->
  fst (fst (actionInfo_of pat)) <> "Monitor situation"%string.
Proof.
  intro H. cbn in H.
  repeat (destruct H as [<- | H]; [vm_compute; discriminate |]). contradiction.
Qed.

Section IssuedPredictions.

Variable tape : nat -> Q.
Variable Math_sqrt : Q -> Q.
Variable toLocaleTimeString : Z -> string.
Hypothesis tape_range : forall n : nat, (0 <= tape n /\ tape n < 1)%Q.

Lemma addPrediction_update_ok (now : Z) (e : Entity.t) (pat : string) (c : Z)
    (prev : list Prediction.t) :
  issue_ok (pat, c) -> Forall prediction_ok prev ->
  Forall prediction_ok (addPrediction_update toLocaleTimeString now e pat c prev).
Proof.
  intros [Hkey [Hc Hn]] H. cbn [fst snd] in *.
  destruct (existsb (recent_pair now (Entity.id e) pat) prev) eqn:E.
  - now rewrite addPrediction_update_duplicate.
  - rewrite addPrediction_update_inserts by assumption.
    apply Forall_firstn. constructor; [| exact H].
    unfold prediction_ok, newPrediction.
    cbn [Prediction.prediction Prediction.action Prediction.priority
         Prediction.icon Prediction.confidence].
    repeat split; try assumption; try lia.
    + now destruct (actionInfo_of pat) as [[a pr] ic].
    + now apply table_key_not_fallback.
Qed.

Ltac frame_step :=
  first
    [ apply keeps_ret
    | apply keeps_random
    | apply keeps_addLog
    | apply keeps_getRandomPos
    | apply keeps_tick_containment
    | apply keeps_tick_movement
    | apply keeps_tick_purchase
    | apply keeps_tick_zoneLog
    | apply keeps_bind; [| intro]
    | match goal with
      | |- keeps _ (match ?x with _ => _ end) => destruct x
      end ].

Lemma tick_prediction_ok (now : Z) (e temp : Entity.t) (th : Threat.t)
    (se : Session.t) :
  Session.alcoholCount se <= 8 ->
  keeps (on_predictions (Forall prediction_ok))
    (tick_prediction tape toLocaleTimeString now e temp th se).
Proof.
  intro Hcap. unfold tick_prediction.
  apply keeps_bind; [repeat frame_step |].
  intros [|]; [| apply keeps_ret].
  apply (keeps_bind_with _ _ _ issue_ok).
  - destruct (Threat.score th >=? 60).
    + apply (returns_bind _ _ _ _ (returns_random tape tape_range)).
      intros r Hr.
      apply (returns_bind _ _ _ _ (returns_random tape tape_range)).
      intros r' [Hr0 Hr1]. apply returns_ret.
      pose proof (array_at_draw
                    [ "ZONE_BREACH_IMMINENT"; "ALTERCATION_RISK"; "FIELD_RUSH_VECTOR" ]%string
                    3 r eq_refl eq_refl Hr) as Hin.
      assert (Hf : 70 <= Qfloor (70 + r' * 25) < 95).
      { apply Qfloor_range; [change (inject_Z 70) with 70%Q
                            | change (inject_Z 95) with 95%Q]; lra. }
      change (inject_Z 3) with 3%Q in Hin.
      revert Hin.
      generalize (array_at
                    [ "ZONE_BREACH_IMMINENT"; "ALTERCATION_RISK"; "FIELD_RUSH_VECTOR" ]%string
                    (Qfloor (r * 3))).
      intros pat Hin. unfold issue_ok. cbn [fst snd]. repeat split; try lia.
      cbn [In] in Hin. cbn [map fst PREDICTION_ACTIONS In].
      destruct Hin as [<- | [<- | [<- | []]]]; tauto.
    + destruct (Z.geb_spec (Session.alcoholCount se) 3) as [Hge | Hlt].
      * apply returns_ret. unfold issue_ok. cbn [fst snd map PREDICTION_ACTIONS In].
        repeat split; try lia; try tauto.
      * destruct (History.priorIncidents (Entity.history e) >? 0);
          apply (returns_bind _ _ _ _ (returns_random tape tape_range));
          intros r [Hr0 Hr1]; apply returns_ret;
          unfold issue_ok; cbn [fst snd map PREDICTION_ACTIONS In].
        -- assert (Hf : 45 <= Qfloor (45 + r * 30) < 75).
           { apply Qfloor_range; [change (inject_Z 45) with 45%Q
                                 | change (inject_Z 75) with 75%Q]; lra. }
           repeat split; try lia; tauto.
        -- assert (Hf : 40 <= Qfloor (40 + r * 25) < 65).
           { apply Qfloor_range; [change (inject_Z 40) with 40%Q
                                 | change (inject_Z 65) with 65%Q]; lra. }
           repeat split; try lia; tauto.
  - repeat frame_step.
  - intros [pat c] Hok s H. unfold on_predictions in *. cbn.
    now apply addPrediction_update_ok.
Qed.

Lemma tick_entity_ok (now : Z) (ph : Phase) (m : ThreatLevel) (e : Entity.t) :
  within_cap e ->
  keeps (on_predictions (Forall prediction_ok))
    (tick_entity tape Math_sqrt toLocaleTimeString now ph m e).
Proof.
  intro Hcap. unfold tick_entity. cbv zeta.
  apply keeps_bind; [apply keeps_tick_containment |]. intros [[lng lat] t].
  destruct (Entity.waitTicks e >? 0); [apply keeps_ret |].
  apply keeps_bind; [apply keeps_random |]. intro r.
  destruct (Qgtb r 0.97 && Status_eqb (Entity.status e) st_normal);
    [repeat frame_step |].
  apply keeps_bind; [apply keeps_tick_movement |]. intros [[lng' lat'] t'].
  apply (keeps_bind_with _ _ _ (fun r => Session.alcoholCount (snd r) <= 8)).
  - apply tick_purchase_cap.
    destruct (negb (includes_id _ _)); cbn; exact Hcap.
  - apply keeps_tick_purchase.
  - intros [inv se] Hse. cbn [snd] in Hse.
    apply keeps_bind; [apply keeps_tick_zoneLog |]. intros _.
    apply keeps_bind; [apply keeps_random |]. intro r'.
    apply keeps_bind; [repeat frame_step |]. intro st.
    apply keeps_bind; [now apply tick_prediction_ok |]. intros _.
    apply keeps_ret.
Qed.

Lemma tick_map_ok (now : Z) (ph : Phase) (es : list Entity.t) (m : ThreatLevel) :
  Forall within_cap es ->
  keeps (on_predictions (Forall prediction_ok))
    (tick_map tape Math_sqrt toLocaleTimeString now ph m es).
Proof.
  intro H. revert m. induction H as [| e es He _ IH]; intro m; cbn [tick_map].
  - apply keeps_ret.
  - apply keeps_bind; [now apply tick_entity_ok |].
    intros [e' m']. apply keeps_bind; [apply IH |].
    intros [es' m'']. apply keeps_ret.
Qed.

Lemma perform_well_predicted (c : Command) :
  keeps well_predicted (perform tape Math_sqrt toLocaleTimeString c).
Proof.
  destruct c as [now ph | now i | now i]; cbn [perform]; intros s [He Hp]; split.
  - eapply Forall2_transfer; [| apply tick_cap_all | exact He].
    intros a b Hab. exact Hab.
  - pose proof (tick_map_ok now ph (State.entities s) LOW He s Hp) as H.
    unfold tick. unfold bind at 1.
    destruct (tick_map tape Math_sqrt toLocaleTimeString now ph LOW (State.entities s) s)
      as [[es m] s'].
    exact H.
  - rewrite toggleWatchlist_entities. apply Forall_map.
    eapply Forall_impl; [| exact He].
    intros e H. destruct (String.eqb (Entity.id e) i); exact H.
  - unfold on_predictions in *. now rewrite toggleWatchlist_predictions.
  - exact He.
  - unfold on_predictions in *. rewrite dismissPrediction_predictions.
    now apply Forall_filter.
Qed.

Lemma run_well_predicted (cs : list Command) (s : State.t) :
  well_predicted s -> well_predicted (run tape Math_sqrt toLocaleTimeString cs s).
Proof.
  revert s. induction cs as [| c cs IH]; intros s H; cbn [run]; [exact H |].
  apply IH. now apply perform_well_predicted.
Qed.

End IssuedPredictions.

(** X15. With [Math.random()] in [0, 1) and no agent above 8 session drinks
    (as after generation), every prediction that ticks put in the list has
    one of the six patterns of [PREDICTION_ACTIONS], carries that pattern's
    action, priority and icon (the fallback "Monitor situation" is never
    used), and has a confidence between 40 and 114, at most 95 unless it
    is an INTOXICATION_MONITOR; this holds after any sequence of ticks and
    operator actions. *)
Theorem issued_predictions_well_formed (tape : nat -> Q) (Math_sqrt : Q -> Q)
    (toLocaleTimeString : Z -> string) (cs : list Command) (s : State.t) :
  (forall n : nat, (0 <= tape n /\ tape n < 1)%Q) ->
  Forall (fun e => Session.alcoholCount (Entity.session e) <= 8) (State.entities s) ->
  Forall prediction_ok (State.predictions s) ->
  Forall
    (fun p =>
       In (Prediction.prediction p)
         [ "ZONE_BREACH_IMMINENT"; "ALTERCATION_RISK"; "FIELD_RUSH_VECTOR";
           "INTOXICATION_MONITOR"; "BEHAVIORAL_PATTERN_MATCH"; "ANOMALY_DETECTED" ]%string
       /\ (Prediction.action p, Prediction.priority p, Prediction.icon p)
          = actionInfo_of (Prediction.prediction p)
       /\ Prediction.action p <> "Monitor situation"%string
       /\ 40 <= Prediction.confidence p <= 114
       /\ (Prediction.prediction p <> "INTOXICATION_MONITOR"%string ->
           Prediction.confidence p <= 95))
    (State.predictions (run tape Math_sqrt toLocaleTimeString cs s)).
Proof.
  intros Htape He Hp.
  exact (proj2 (run_well_predicted tape Math_sqrt toLocaleTimeString Htape cs s
                  (conj He Hp))).
Qed.

Lemma issued_predictions_well_formed_witness :
  Forall prediction_ok
    (State.predictions
       (run sampleTape sampleSqrt sampleTime [Tick 0 PRE_GAME; Tick 800 PRE_GAME]
          (initialState [cappedDrinker]))).
Proof.
  apply (issued_predictions_well_formed sampleTape sampleSqrt sampleTime
           [Tick 0 PRE_GAME; Tick 800 PRE_GAME] (initialState [cappedDrinker])
           sampleTape_range).
  - constructor; [| constructor]. vm_compute. discriminate.
  - constructor.
Defined.

(** ** Operator actions *)

Lemma filter_all {A : Type} (f : A -> bool) (l : list A) :
  (forall a, In a l -> f a = true) -> filter f l = l.
Proof.
  induction l as [| a l IH]; intro H; [reflexivity |].
  cbn. rewrite (H a (or_introl eq_refl)). f_equal. apply IH.
  intros b Hb. apply H. now right.
Qed.

Lemma string_neqb (a b : string) : negb (String.eqb a b) = true <-> a <> b.
Proof.
  destruct (String.eqb_spec a b) as [-> | Hne]; cbn; split; intro H;
    try discriminate; try reflexivity; try assumption.
  now contradiction H.
Qed.

(** X16. Dismissal removes exactly the predictions with the given id and
    keeps the others in order; with an id that no prediction carries it
    leaves the list as it is.  In both cases it leaves the entities alone
    and still writes one Prediction Acknowledged entry to the log feed.
    Dismissing a prediction right after it was inserted into a list of
    fewer than five, none with its id, gives that list back. *)
Theorem dismissPrediction_effect (tape : nat -> Q) (toLocaleTimeString : Z -> string)
    (now : Z) (predId : string) (s : State.t) :
  let s' := snd (dismissPrediction tape toLocaleTimeString now predId s) in
  State.predictions s'
  = filter (fun p => negb (String.eqb (Prediction.id p) predId)) (State.predictions s)
  /\ (forall p, In p (State.predictions s')
                <-> In p (State.predictions s) /\ Prediction.id p <> predId)
  /\ ((forall p, In p (State.predictions s) -> Prediction.id p <> predId) ->
      State.predictions s' = State.predictions s)
  /\ State.entities s' = State.entities s
  /\ (exists entry,
        LogEntry.title entry = "Prediction Acknowledged"%string
        /\ State.logs s' = firstn 40 (entry :: State.logs s))
  /\ (forall (now1 : Z) (e : Entity.t) (pat : string) (c : Z),
        predId = Prediction.id (newPrediction toLocaleTimeString now1 e pat c) ->
        existsb (recent_pair now1 (Entity.id e) pat) (State.predictions s) = false ->
        (List.length (State.predictions s) < 5)%nat ->
        (forall p, In p (State.predictions s) -> Prediction.id p <> predId) ->
        State.predictions
          (snd (dismissPrediction tape toLocaleTimeString now predId
                  (snd (addPrediction toLocaleTimeString now1 e pat c s))))
        = State.predictions s).
Proof.
  intro s'. subst s'.
  assert (Hkeep : (forall p, In p (State.predictions s) -> Prediction.id p <> predId) ->
                  filter (fun p => negb (String.eqb (Prediction.id p) predId))
                    (State.predictions s) = State.predictions s).
  { intro H. apply filter_all. intros p Hp. apply string_neqb. now apply H. }
  rewrite dismissPrediction_predictions.
  split; [| split; [| split; [| split; [| split]]]].
  - reflexivity.
  - intro p. rewrite filter_In, string_neqb. tauto.
  - exact Hkeep.
  - reflexivity.
  - eexists. split; [| reflexivity]. reflexivity.
  - intros now1 e pat c Hid Hnew Hlen Hfresh.
    rewrite dismissPrediction_predictions. cbn [addPrediction snd State.predictions
      State.set_predictions].
    rewrite (addPrediction_update_inserts toLocaleTimeString now1 e pat c _ Hnew).
    rewrite firstn_all2 by (cbn [List.length]; lia).
    cbn [filter]. rewrite <- Hid, String.eqb_refl. cbn [negb].
    now apply Hkeep.
Qed.

Lemma dismissPrediction_effect_witness :
  State.predictions
    (snd (dismissPrediction sampleTape sampleTime 900 "no-such-prediction"
            (snd (tick sampleTape sampleSqrt sampleTime 0 PRE_GAME
                    (initialState [cappedDrinker])))))
  = State.predictions
      (snd (tick sampleTape sampleSqrt sampleTime 0 PRE_GAME
              (initialState [cappedDrinker]))).
Proof.
  apply (proj1 (proj2 (proj2 (dismissPrediction_effect sampleTape sampleTime 900
                         "no-such-prediction"
                         (snd (tick sampleTape sampleSqrt sampleTime 0 PRE_GAME
                                 (initialState [cappedDrinker]))))))).
  vm_compute. intros p [<- | []]. discriminate.
Defined.

Lemma toggled_involutive (e : Entity.t) : toggled (toggled e) = e.
Proof.
  destruct e as [i n tk lng lat tg st wt inv h [ac zv iw] ts tl tf].
  unfold toggled. cbn. now rewrite negb_involutive.
Qed.

Lemma toggle_if_involutive (entityId : string) (e : Entity.t) :
  toggle_if entityId (toggle_if entityId e) = e.
Proof.
  unfold toggle_if.
  destruct (String.eqb (Entity.id e) entityId) eqn:E.
  - change (Entity.id (toggled e)) with (Entity.id e). rewrite E.
    apply toggled_involutive.
  - now rewrite E.
Qed.

Section Toggle.

Variable tape : nat -> Q.
Variable toLocaleTimeString : Z -> string.

Lemma toggleWatchlist_map_selected (now : Z) (entityId : string) (es : list Entity.t)
    (s : State.t) :
  State.selectedEntity
    (snd (mapM (toggleWatchlist_entity tape toLocaleTimeString now entityId) es s))
  = State.selectedEntity s.
Proof.
  revert s. induction es as [| e es IH]; intro s; [reflexivity |].
  cbn [mapM]. unfold bind at 1.
  assert (He : State.selectedEntity
                 (snd (toggleWatchlist_entity tape toLocaleTimeString now entityId e s))
               = State.selectedEntity s).
  { unfold toggleWatchlist_entity.
    destruct (String.eqb (Entity.id e) entityId); [| reflexivity].
    destruct (negb (Session.isWatched (Entity.session e))); reflexivity. }
  destruct (toggleWatchlist_entity tape toLocaleTimeString now entityId e s) as [e' s1].
  unfold bind at 1. specialize (IH s1).
  destruct (mapM (toggleWatchlist_entity tape toLocaleTimeString now entityId) es s1)
    as [es' s2].
  cbn in *. congruence.
Qed.

Lemma toggleWatchlist_selected (now : Z) (entityId : string) (s : State.t) :
  State.selectedEntity (snd (toggleWatchlist tape toLocaleTimeString now entityId s))
  = option_map toggled (State.selectedEntity s).
Proof.
  unfold toggleWatchlist. unfold bind at 1.
  pose proof (toggleWatchlist_map_selected now entityId (State.entities s) s) as H.
  destruct (mapM (toggleWatchlist_entity tape toLocaleTimeString now entityId)
              (State.entities s) s) as [es' s'].
  cbn in *. rewrite H. now destruct (State.selectedEntity s).
Qed.

Lemma toggleWatchlist_map_absent (now : Z) (entityId : string) (es : list Entity.t)
    (s : State.t) :
  (forall e, In e es -> Entity.id e <> entityId) ->
  mapM (toggleWatchlist_entity tape toLocaleTimeString now entityId) es s = (es, s).
Proof.
  revert s. induction es as [| e es IH]; intros s H; [reflexivity |].
  cbn [mapM]. unfold bind at 1. unfold toggleWatchlist_entity at 1.
  destruct (String.eqb_spec (Entity.id e) entityId) as [Heq | Hne].
  { exfalso. apply (H e); [now left | exact Heq]. }
  cbn. unfold bind at 1. rewrite IH; [reflexivity |].
  intros e' He'. apply H. now right.
Qed.

End Toggle.

(** X17. [toggleWatchlist] replaces in the entity list exactly the entities
    with the given id by their toggled copies, and flips the flag of the
    selected-entity copy whatever its id.  Toggling the same id twice gives
    back the entity list and the selected entity.  With an id that no
    entity carries, the entity list, the log feed and the random source are
    untouched, and only the selected-entity copy has its flag flipped. *)
Theorem toggleWatchlist_effect (tape : nat -> Q) (toLocaleTimeString : Z -> string)
    (now now' : Z) (entityId : string) (s : State.t) :
  let s1 := snd (toggleWatchlist tape toLocaleTimeString now entityId s) in
  let s2 := snd (toggleWatchlist tape toLocaleTimeString now' entityId s1) in
  State.entities s1 = map (toggle_if entityId) (State.entities s)
  /\ State.selectedEntity s1 = option_map toggled (State.selectedEntity s)
  /\ State.predictions s1 = State.predictions s
  /\ State.entities s2 = State.entities s
  /\ State.selectedEntity s2 = State.selectedEntity s
  /\ ((forall e, In e (State.entities s) -> Entity.id e <> entityId) ->
      s1 = State.set_selectedEntity (option_map toggled (State.selectedEntity s)) s).
Proof.
  intros s1 s2. subst s1 s2.
  rewrite !toggleWatchlist_entities, !toggleWatchlist_selected,
    toggleWatchlist_predictions.
  split; [reflexivity |]. split; [reflexivity |]. split; [reflexivity |].
  split; [| split].
  - rewrite map_map. rewrite <- (map_id (State.entities s)) at 2.
    apply map_ext. intro e. apply toggle_if_involutive.
  - destruct (State.selectedEntity s) as [e |]; cbn [option_map]; [| reflexivity].
    now rewrite toggled_involutive.
  - intro H. unfold toggleWatchlist. unfold bind at 1.
    rewrite (toggleWatchlist_map_absent tape toLocaleTimeString now entityId _ s H).
    destruct s as [rng es logs preds lvl sel]. cbn.
    now destruct sel.
Qed.

Lemma toggleWatchlist_effect_witness :
  snd (toggleWatchlist sampleTape sampleTime 0 "fan-9999" (initialState [cappedDrinker]))
  = initialState [cappedDrinker].
Proof.
  apply (proj2 (proj2 (proj2 (proj2 (proj2
           (toggleWatchlist_effect sampleTape sampleTime 0 0 "fan-9999"
              (initialState [cappedDrinker]))))))).
  intros e [<- | []]. vm_compute. discriminate.
Defined.

Lemma toggle_if_absent (entityId : string) (es : list Entity.t) :
  ~ In entityId (map Entity.id es) -> map (toggle_if entityId) es = es.
Proof.
  induction es as [| e es IH]; intro H; [reflexivity |].
  cbn [map] in *. unfold toggle_if at 1.
  destruct (String.eqb_spec (Entity.id e) entityId) as [Heq | Hne].
  - exfalso. apply H. now left.
  - f_equal. apply IH. intro Hin. apply H. now right.
Qed.

Lemma watchlistCount_cons (e : Entity.t) (es : list Entity.t) :
  watchlistCount (e :: es)
  = ((if Session.isWatched (Entity.session e) then 1 else 0) + watchlistCount es)%nat.
Proof.
  unfold watchlistCount. cbn [filter].
  now destruct (Session.isWatched (Entity.session e)).
Qed.

(** X18. When the ids of the entity list are pairwise distinct (as the
    generator makes them and every tick and action keeps them), toggling
    the watchlist for an entity of the list changes [watchlistCount] by
    exactly one: up when its flag was off, down when it was on. *)
Theorem toggleWatchlist_counts_one (tape : nat -> Q) (toLocaleTimeString : Z -> string)
    (now : Z) (e : Entity.t) (s : State.t) :
  NoDup (map Entity.id (State.entities s)) ->
  In e (State.entities s) ->
  let s' := snd (toggleWatchlist tape toLocaleTimeString now (Entity.id e) s) in
  (Session.isWatched (Entity.session e) = false ->
   watchlistCount (State.entities s') = S (watchlistCount (State.entities s)))
  /\ (Session.isWatched (Entity.session e) = true ->
      S (watchlistCount (State.entities s')) = watchlistCount (State.entities s)).
Proof.
  intros Hnd Hin s'. subst s'. rewrite toggleWatchlist_entities.
  change (fun e0 => if String.eqb (Entity.id e0) (Entity.id e) then toggled e0 else e0)
    with (toggle_if (Entity.id e)).
  induction (State.entities s) as [| a es IH]; [contradiction |].
  cbn [map] in *. inversion Hnd as [| x l Hna Hnd']; subst.
  rewrite !watchlistCount_cons.
  destruct Hin as [-> | Hin].
  - rewrite (toggle_if_absent _ es Hna). unfold toggle_if.
    rewrite String.eqb_refl. unfold toggled. cbn.
    destruct (Session.isWatched (Entity.session e)); cbn; split; intro H;
      try discriminate; lia.
  - assert (Hne : Entity.id a <> Entity.id e).
    { intro Heq. apply Hna. rewrite Heq. now apply in_map. }
    unfold toggle_if at 1 3.
    destruct (String.eqb_spec (Entity.id a) (Entity.id e)) as [Heq | _];
      [contradiction |].
    destruct (IH Hnd' Hin) as [IH0 IH1].
    split; intro H; [rewrite (IH0 H) | specialize (IH1 H)]; lia.
Qed.

Lemma toggleWatchlist_counts_one_witness :
  watchlistCount
    (State.entities
       (snd (toggleWatchlist sampleTape sampleTime 0 (Entity.id cappedDrinker)
               (initialState [cappedDrinker]))))
  = 1%nat.
Proof.
  apply (proj1 (toggleWatchlist_counts_one sampleTape sampleTime 0 cappedDrinker
                  (initialState [cappedDrinker])
                  ltac:(repeat constructor; intros [])
                  ltac:(now left))).
  reflexivity.
Defined.
